(** * imdb-scraper: a shallow embedding of the notebook's scraping code

    The notebook [imdb-scraper.ipynb] defines four helpers ([to_numeric],
    [savePoster], [concatenate_list_data], [time_since]), the page scraper
    [imdb_scrape] and a driver loop that scrapes every title of a year and
    writes the result as a tab-separated table.

    The embedding follows the Python text statement by statement.
    - Python values are the inductive [pyval]; a Python [str] is a [string]
      whose characters are read as code points below 256.
    - An exception is a constructor of [exn]; code that can raise returns a
      [result].  Code that touches the network or the file system is a
      function from a [world] to a result and the next [world]: the world a
      raising statement leaves behind is kept, as in Python.
    - The libraries the notebook calls but does not define ([requests],
      the HTML parser of [bs4], [json], [PIL]) are the fields of the class
      [Externals]; every theorem holds for all of them.  The navigation of
      a parsed document ([find], [findAll], [.text], [.a], [tag[attr]]) is
      written out over a tree of tags and strings.
    - [print], [pprint], [time.sleep] and the timer [time_since] have no
      effect on any value that is returned or stored; they are left out,
      except for the one string concatenation inside a [print] that can
      raise. *)

From Stdlib Require Import ZArith Ascii String List Bool Lia DecimalString.
From Stdlib Require Import Floats.SpecFloat.
From stdpp Require Import gmap strings list.

Set Default Proof Using "Type".
#[local] Set Warnings "-register-all".

(** ** Exceptions and results *)

(** The exception classes the modelled statements raise.  All of them are
    subclasses of [Exception]; [OtherError] stands for whatever else a
    library call raises (a [requests] transport error, a [PIL] decoding
    error, an [OSError] of the file system, ...), by class name. *)
Inductive exn : Type :=
| IndexError
| KeyError
| TypeError
| AttributeError
| ValueError
| OverflowError
| OtherError (name : string).

Inductive result (A : Type) : Type :=
| Ok (a : A)
| Raise (e : exn).
Arguments Ok {A} a.
Arguments Raise {A} e.

Definition rbind {A B} (r : result A) (k : A → result B) : result B :=
  match r with
  | Ok a => k a
  | Raise e => Raise e
  end.

Definition is_ok {A} (r : result A) : bool :=
  match r with Ok _ => true | Raise _ => false end.

Declare Scope result_scope.
Delimit Scope result_scope with result.
Notation "x <- c1 ;; c2" := (rbind c1 (fun x => c2))
  (at level 100, c1 at next level, right associativity) : result_scope.

(** ** Python values *)

Inductive pyval : Type :=
| PNone
| PBool (b : bool)
| PInt (z : Z)
| PFloat (f : spec_float)
| PStr (s : string)
| PList (l : list pyval)
| PDict (items : list (string * pyval)).

(** ** Strings *)

Module Str.

Definition code (c : ascii) : nat := nat_of_ascii c.

(** The character class [[0-9]] of [re]. *)
Definition is_digit (c : ascii) : bool :=
  (48 <=? code c) && (code c <=? 57).

Definition digit_value (c : ascii) : Z := Z.of_nat (code c) - 48.

(** [str.isspace] on code points below 256. *)
Definition is_space (c : ascii) : bool :=
  let n := code c in
  ((9 <=? n) && (n <=? 13)) || ((28 <=? n) && (n <=? 32))
  || (n =? 133) || (n =? 160).

Fixpoint filter (p : ascii → bool) (s : string) : string :=
  match s with
  | EmptyString => EmptyString
  | String c r => if p c then String c (filter p r) else filter p r
  end.

Fixpoint rev_onto (s acc : string) : string :=
  match s with
  | EmptyString => acc
  | String c r => rev_onto r (String c acc)
  end.

Definition rev (s : string) : string := rev_onto s EmptyString.

Fixpoint lstrip (s : string) : string :=
  match s with
  | EmptyString => EmptyString
  | String c r => if is_space c then lstrip r else s
  end.

Definition rstrip (s : string) : string := rev (lstrip (rev s)).

(** [s.strip()] *)
Definition strip (s : string) : string := rstrip (lstrip s).

(** The white space [int] and [float] pass over around a number, on
    code points below 256: the six of the C locale, and the two Unicode
    spaces above 127 (next line and no-break space), which the
    conversion reads as a blank.  The separators 28 to 31 are white
    space to [str.strip] and [str.isspace] but not to the conversions. *)
Definition is_number_space (c : ascii) : bool :=
  let n := code c in
  ((9 <=? n) && (n <=? 13)) || (n =? 32) || (n =? 133) || (n =? 160).

Fixpoint skip_spaces (s : string) : string :=
  match s with
  | EmptyString => EmptyString
  | String c r => if is_number_space c then skip_spaces r else s
  end.

(** What is left of [s] between the white space the conversions pass
    over at its two ends. *)
Definition number_text (s : string) : string :=
  rev (skip_spaces (rev (skip_spaces s))).

(** [p] is a prefix of [s]. *)
Fixpoint starts_with (p s : string) : bool :=
  match p, s with
  | EmptyString, _ => true
  | String a p', String b s' => Ascii.eqb a b && starts_with p' s'
  | String _ _, EmptyString => false
  end.

(** [p in s] for two strings. *)
Fixpoint contains (p s : string) : bool :=
  starts_with p s ||
  match s with
  | EmptyString => false
  | String _ r => contains p r
  end.

(** [s.split(sep)] for a non-empty separator: the pieces between the
    occurrences of [sep], found left to right without overlap.  [skip]
    counts the characters of a matched separator still to be passed,
    [cur] is the piece being read. *)
Fixpoint split_go (sep : string) (skip : nat) (cur s : string) : list string :=
  match s with
  | EmptyString => [cur]
  | String c r =>
      match skip with
      | S k => split_go sep k cur r
      | O =>
          if starts_with sep s
          then cur :: split_go sep (String.length sep - 1) EmptyString r
          else split_go sep 0 (cur +:+ String c EmptyString) r
      end
  end.

Definition split (sep s : string) : list string :=
  split_go sep 0 EmptyString s.

(** The decimal value of a run of digits, most significant first. *)
Fixpoint digits_value_from (acc : Z) (s : string) : Z :=
  match s with
  | EmptyString => acc
  | String c r => digits_value_from (10 * acc + digit_value c) r
  end.

Definition digits_value (s : string) : Z := digits_value_from 0 s.

(** A digit part of a numeric literal: digits, single underscores
    allowed between two digits.  Returns the digits read and the rest. *)
Fixpoint take_digits (after_digit : bool) (s : string) : string * string :=
  match s with
  | EmptyString => (EmptyString, EmptyString)
  | String c r =>
      if is_digit c then
        let '(ds, rest) := take_digits true r in (String c ds, rest)
      else if after_digit && Ascii.eqb c "_" then
        match r with
        | String d _ => if is_digit d then take_digits false r else (EmptyString, s)
        | EmptyString => (EmptyString, s)
        end
      else (EmptyString, s)
  end.

Definition take_sign (s : string) : bool * string :=
  match s with
  | String "-" r => (true, r)
  | String "+" r => (false, r)
  | _ => (false, s)
  end.

Definition lower (c : ascii) : ascii :=
  let n := code c in
  if (65 <=? n) && (n <=? 90) then ascii_of_nat (n + 32) else c.

Fixpoint map (f : ascii → ascii) (s : string) : string :=
  match s with
  | EmptyString => EmptyString
  | String c r => String (f c) (map f r)
  end.

Fixpoint concat (l : list string) : string :=
  match l with
  | [] => EmptyString
  | s :: l' => s +:+ concat l'
  end.

(** A string of digits only: removing the non-digits changes nothing. *)
Definition all_digits (s : string) : Prop := filter is_digit s = s.

(** [sep.join(l)] *)
Fixpoint join (sep : string) (l : list string) : string :=
  match l with
  | [] => EmptyString
  | [s] => s
  | s :: l' => s +:+ sep +:+ join sep l'
  end.

End Str.

(** ** Numeric conversions of the interpreter *)

(** [int(s)] for a string [s], base ten: surrounding white space, one
    optional sign, then a digit part.  (Releases after the notebook also
    refuse digit runs longer than 4300 characters, with the same
    [ValueError]; no such bound is modelled.) *)
Definition py_int (s : string) : result Z :=
  let '(neg, body) := Str.take_sign (Str.number_text s) in
  match Str.take_digits false body with
  | (String c ds, EmptyString) =>
      let v := Str.digits_value (String c ds) in
      Ok (if neg then - v else v)%Z
  | _ => Raise ValueError
  end.

(** The binary64 number nearest to [m * 10^e] (ties to even), an infinity
    when it is out of range.  For [e < 0] the quotient is taken with
    enough bits, and a last bit that records whether the division left a
    remainder, so that the final rounding sees on which side of every
    representable number and every midpoint the exact value lies. *)
Definition float_of_decimal (neg : bool) (m e : Z) : spec_float :=
  let sgn (z : Z) := if neg then (- z)%Z else z in
  if (m =? 0)%Z then S754_zero neg
  else if (0 <=? e)%Z then binary_normalize 53 1024 (sgn (m * 10 ^ e))%Z 0 false
  else
    let d := (10 ^ (- e))%Z in
    let k := Z.max 0 (Z.log2 d + 64 - Z.log2 m) in
    let n := (m * 2 ^ k)%Z in
    let sticky := if (n mod d =? 0)%Z then 0%Z else 1%Z in
    binary_normalize 53 1024 (sgn (2 * (n / d) + sticky))%Z (- (k + 1)) false.

(** [float(s)] for a string: white space, sign, then [inf], [infinity],
    [nan] in any case, or a decimal literal with optional fraction and
    exponent. *)
Definition py_float_of_str (s : string) : result spec_float :=
  let '(neg, body) := Str.take_sign (Str.number_text s) in
  let low := Str.map Str.lower body in
  if String.eqb low "inf" || String.eqb low "infinity" then Ok (S754_infinity neg)
  else if String.eqb low "nan" then Ok S754_nan
  else
    let '(ip, r1) := Str.take_digits false body in
    let '(fp, r2) :=
      match r1 with
      | String "." r => Str.take_digits false r
      | _ => (EmptyString, r1)
      end in
    let mant := Str.digits_value (ip +:+ fp) in
    let shift := Z.of_nat (String.length fp) in
    match ip +:+ fp with
    | EmptyString => Raise ValueError
    | String _ _ =>
        match r2 with
        | EmptyString => Ok (float_of_decimal neg mant (- shift))
        | String c r =>
            if Ascii.eqb (Str.lower c) "e" then
              let '(eneg, r3) := Str.take_sign r in
              match Str.take_digits false r3 with
              | (String d ds, EmptyString) =>
                  let ev := Str.digits_value (String d ds) in
                  Ok (float_of_decimal neg mant ((if eneg then - ev else ev) - shift))
              | _ => Raise ValueError
              end
            else Raise ValueError
        end
    end.

(** [float(v)] *)
Definition py_float (v : pyval) : result spec_float :=
  match v with
  | PStr s => py_float_of_str s
  | PFloat f => Ok f
  | PInt z =>
      match binary_normalize 53 1024 z 0 false with
      | S754_infinity _ => Raise OverflowError
      | f => Ok f
      end
  | PBool b => Ok (binary_normalize 53 1024 (if b then 1 else 0) 0 false)
  | PNone | PList _ | PDict _ => Raise TypeError
  end.

(** ** The notebook's helpers *)

(** [re.sub("[^0-9]", "", string)]: a [TypeError] unless [string] is a
    [str]. *)
Definition re_sub_non_digits (v : pyval) : result string :=
  match v with
  | PStr s => Ok (Str.filter Str.is_digit s)
  | _ => Raise TypeError
  end.

(** [to_numeric(string, num_type)] *)
Definition to_numeric (string : pyval) (num_type : String.string) : result pyval :=
  if String.eqb num_type "float" then
    (d <- re_sub_non_digits string ;;
     f <- py_float_of_str d ;;
     Ok (PFloat f))%result
  else if String.eqb num_type "int" then
    (d <- re_sub_non_digits string ;;
     z <- py_int d ;;
     Ok (PInt z))%result
  else Ok string.

(** The binary64 number 81.0 = 5699868278390784 * 2^-46. *)
Definition float_81 : spec_float := S754_finite false 5699868278390784 (-46).

(** ** Subscripts and membership *)

Fixpoint assoc (k : string) (items : list (string * pyval)) : option pyval :=
  match items with
  | [] => None
  | (k', v) :: rest => if String.eqb k k' then Some v else assoc k rest
  end.

(** [v[key]] for a string [key]: the entry of a [dict], a [KeyError] when
    it has none; every other type refuses a string subscript. *)
Definition py_getitem (v : pyval) (key : string) : result pyval :=
  match v with
  | PDict items =>
      match assoc key items with
      | Some x => Ok x
      | None => Raise KeyError
      end
  | _ => Raise TypeError
  end.

Definition is_PStr (s : string) (v : pyval) : bool :=
  match v with PStr t => String.eqb s t | _ => false end.

(** [key in v] for a string [key]: a key of a [dict], an element of a
    [list], a substring of a [str]; the other types are not iterable. *)
Definition py_in (key : string) (v : pyval) : result bool :=
  match v with
  | PDict items => Ok (bool_decide (is_Some (assoc key items)))
  | PList l => Ok (existsb (is_PStr key) l)
  | PStr s => Ok (Str.contains key s)
  | _ => Raise TypeError
  end.

(** ** [str] and [repr] *)

Definition hex_digit (n : nat) : ascii :=
  if n <? 10 then ascii_of_nat (48 + n) else ascii_of_nat (87 + n).

(** What [repr] prints as is, among the code points below 256. *)
Definition is_printable (c : ascii) : bool :=
  let n := Str.code c in
  ((32 <=? n) && (n <=? 126)) || ((161 <=? n) && negb (n =? 173)).

Definition repr_char (quote c : ascii) : string :=
  let n := Str.code c in
  if Ascii.eqb c quote || Ascii.eqb c "\" then String "\" (String c EmptyString)
  else if n =? 9 then "\t"
  else if n =? 10 then "\n"
  else if n =? 13 then "\r"
  else if is_printable c then String c EmptyString
  else "\x" +:+ String (hex_digit (n / 16)) (String (hex_digit (n mod 16)) EmptyString).

Fixpoint repr_chars (quote : ascii) (s : string) : string :=
  match s with
  | EmptyString => EmptyString
  | String c r => repr_char quote c +:+ repr_chars quote r
  end.

Definition has_char (c : ascii) (s : string) : bool :=
  Str.contains (String c EmptyString) s.

(** [repr(s)]: single quotes, unless [s] has a single quote and no double
    quote. *)
Definition repr_str (s : string) : string :=
  let quote : ascii := if has_char "'" s && negb (has_char "034" s) then "034"%char else "'"%char in
  String quote (repr_chars quote s +:+ String quote EmptyString).

Definition Z_to_str (z : Z) : string :=
  DecimalString.NilEmpty.string_of_int (Z.to_int z).

Section Repr.
(** [repr] of a [float] (the shortest decimal that reads back as the
    same number) is not modelled. *)
Variable float_repr : spec_float → string.

Fixpoint py_repr (v : pyval) : string :=
  match v with
  | PNone => "None"
  | PBool true => "True"
  | PBool false => "False"
  | PInt z => Z_to_str z
  | PFloat f => float_repr f
  | PStr s => repr_str s
  | PList l => "[" +:+ Str.join ", " (List.map py_repr l) +:+ "]"
  | PDict items =>
      "{" +:+ Str.join ", "
               (List.map (λ kv, repr_str (fst kv) +:+ ": " +:+ py_repr (snd kv)) items)
          +:+ "}"
  end.

(** [str(v)] *)
Definition py_str (v : pyval) : string :=
  match v with
  | PStr s => s
  | _ => py_repr v
  end.

(** The values a [for] loop over [v] visits: the elements of a [list],
    the characters of a [str], the keys of a [dict]. *)
Definition py_iter (v : pyval) : result (list pyval) :=
  match v with
  | PList l => Ok l
  | PStr s => Ok (List.map (λ c, PStr (String c EmptyString)) (list_ascii_of_string s))
  | PDict items => Ok (List.map (λ kv, PStr (fst kv)) items)
  | _ => Raise TypeError
  end.

(** [concatenate_list_data(my_list)] *)
Definition concatenate_list_data (my_list : pyval) : result string :=
  (elements <- py_iter my_list ;;
   Ok (fold_left (λ result element, result +:+ py_str element) elements EmptyString))%result.

End Repr.

(** ** A parsed document, as [bs4] presents it *)

(** The value of an attribute: a string, or the list of its white-space
    separated words for the attributes the parser treats as multi-valued
    ([class] among them). *)
Inductive attr_value : Type :=
| AttrStr (s : string)
| AttrList (l : list string).

(** A node is a piece of text or a tag with attributes and contents.  The
    document itself is a tag whose contents are the top-level nodes. *)
Inductive node : Type :=
| NavigableString (s : string)
| Tag (name : string) (attrs : list (string * attr_value)) (contents : list node).

Module Soup.

Fixpoint get_attr (k : string) (attrs : list (string * attr_value)) : option attr_value :=
  match attrs with
  | [] => None
  | (k', v) :: rest => if String.eqb k k' then Some v else get_attr k rest
  end.

(** The nodes below [n], in document order. *)
Fixpoint descendants (n : node) : list node :=
  match n with
  | NavigableString _ => []
  | Tag _ _ contents =>
      (fix below (l : list node) : list node :=
         match l with
         | [] => []
         | c :: l' => c :: descendants c ++ below l'
         end) contents
  end.

(** An attribute filter [{k: wanted}] accepts a string value equal to
    [wanted] and a multi-valued one that has [wanted] among its words or
    spells [wanted] when its words are joined by single spaces. *)
Definition attr_matches (wanted : string) (v : attr_value) : bool :=
  match v with
  | AttrStr s => String.eqb s wanted
  | AttrList l => existsb (String.eqb wanted) l || String.eqb (Str.join " " l) wanted
  end.

Definition matches (name : string) (filter : list (string * string)) (n : node) : bool :=
  match n with
  | NavigableString _ => false
  | Tag name' attrs _ =>
      String.eqb name name' &&
      forallb (λ kw, match get_attr (fst kw) attrs with
                     | Some v => attr_matches (snd kw) v
                     | None => false
                     end) filter
  end.

(** [tag.findAll(name, filter)] *)
Definition findAll (name : string) (filter : list (string * string)) (n : node) : list node :=
  List.filter (matches name filter) (descendants n).

(** [tag.find(name, filter)]: the first match, [None] without one. *)
Definition find (name : string) (filter : list (string * string)) (n : node) : option node :=
  head (findAll name filter n).

(** [tag.text]: the strings below the tag, concatenated in document
    order.  (Comments and the strings of nested scripts, which some
    releases of [bs4] leave out, are not told apart from text.) *)
Fixpoint text (n : node) : string :=
  match n with
  | NavigableString s => s
  | Tag _ _ contents =>
      (fix texts (l : list node) : string :=
         match l with
         | [] => EmptyString
         | c :: l' => text c +:+ texts l'
         end) contents
  end.

(** [x.text] where [x] is the result of a [find]: [None] has no
    attribute [text]. *)
Definition text_of (x : option node) : result string :=
  match x with
  | Some n => Ok (text n)
  | None => Raise AttributeError
  end.

(** [x.name] for a tag name [name], as in [x.a], [x.div], [x.p],
    [x.span]: shorthand for [x.find(name)]. *)
Definition child (name : string) (x : option node) : result (option node) :=
  match x with
  | Some n => Ok (find name [] n)
  | None => Raise AttributeError
  end.

(** [x.findAll(name)] on the result of a [find]. *)
Definition findAll_of (name : string) (x : option node) : result (list node) :=
  match x with
  | Some n => Ok (findAll name [] n)
  | None => Raise AttributeError
  end.

(** [x[key]]: the value of the attribute, as a Python value. *)
Definition getitem (x : option node) (key : string) : result pyval :=
  match x with
  | None => Raise TypeError
  | Some (NavigableString _) => Raise TypeError
  | Some (Tag _ attrs _) =>
      match get_attr key attrs with
      | Some (AttrStr s) => Ok (PStr s)
      | Some (AttrList l) => Ok (PList (List.map PStr l))
      | None => Raise KeyError
      end
  end.

End Soup.

(** [l[0]] and [l[-1]] *)
Definition first_item {A} (l : list A) : result A :=
  match l with
  | [] => Raise IndexError
  | x :: _ => Ok x
  end.

Definition last_item {A} (l : list A) : result A :=
  match List.rev l with
  | [] => Raise IndexError
  | x :: _ => Ok x
  end.

(** ** The world outside the interpreter *)

Abbreviation bytes := (list Byte.byte).

(** The files written so far, by path, and the URLs requested so far,
    oldest first. *)
Record world : Type := World {
  files : gmap string bytes;
  requested : list string
}.

(** The library calls of the notebook.  A request is answered from the
    URL and the requests made before it, so the same URL may be answered
    differently the second time. *)
Class Externals : Type := {
  (** [requests.get(url).content] *)
  requests_get : list string → string → result bytes;
  (** [BeautifulSoup(content, 'html.parser')] *)
  html_parser : bytes → node;
  (** [json.loads(text)] *)
  json_loads : string → result pyval;
  image : Type;
  (** [Image.open(BytesIO(content))] *)
  Image_open : bytes → result image;
  (** [img.save(path)]: the bytes written at [path], or the exception of
      an unknown extension, a missing directory, ... *)
  Image_save : image → string → result bytes;
  (** [repr] of a [float] *)
  float_repr : spec_float → string
}.

(** A computation on the world: its outcome and the world it leaves. *)
Definition M (A : Type) : Type := world → result A * world.

Definition ret {A} (a : A) : M A := λ w, (Ok a, w).

Definition bind {A B} (c : M A) (k : A → M B) : M B :=
  λ w, match c w with
       | (Ok a, w') => k a w'
       | (Raise e, w') => (Raise e, w')
       end.

(** A computation that does not touch the world. *)
Definition pure {A} (r : result A) : M A := λ w, (r, w).

Declare Scope prog_scope.
Delimit Scope prog_scope with prog.
Notation "x <- c1 ;; c2" := (bind c1 (fun x => c2))
  (at level 100, c1 at next level, right associativity) : prog_scope.
Notation "c1 ;;; c2" := (bind c1 (fun _ => c2))
  (at level 100, right associativity) : prog_scope.

(** [imdb_info_dict], the dictionary [imdb_scrape] fills and returns. *)
Abbreviation dict := (gmap string pyval).

(** [d[key]] *)
Definition dict_get (d : dict) (key : string) : result pyval :=
  match d !! key with
  | Some v => Ok v
  | None => Raise KeyError
  end.

(** [l[i]] for [0 <= i] *)
Definition py_index {A} (l : list A) (i : nat) : result A :=
  match l !! i with
  | Some x => Ok x
  | None => Raise IndexError
  end.

Section Scraper.
Context {E : Externals}.

(** [requests.get(url).content]: the request is made, whatever the
    answer. *)
Definition http_get (url : string) : M bytes :=
  λ w, (requests_get (requested w) url,
        {| files := files w; requested := requested w ++ [url] |}).

(** [os.path.isfile(path)] *)
Definition isfile (path : string) : M bool :=
  λ w, (Ok (bool_decide (is_Some (files w !! path))), w).

Definition write_file (path : string) (content : bytes) : M unit :=
  λ w, (Ok tt, {| files := <[path := content]> (files w); requested := requested w |}).

(** [img_url.split('.')[-1]]; only a [str] has [split]. *)
Definition url_extension (img_url : pyval) : result string :=
  match img_url with
  | PStr u => last_item (Str.split "." u)
  | _ => Raise AttributeError
  end.

Definition poster_path (imdb_id ext : string) : string :=
  "posters/" +:+ imdb_id +:+ "." +:+ ext.

Definition url_string (img_url : pyval) : string :=
  match img_url with PStr u => u | _ => EmptyString end.

(** [savePoster(imdb_id, img_url)] *)
Definition savePoster (imdb_id : string) (img_url : pyval) : M bool :=
  (ext <- pure (url_extension img_url) ;;
   already <- isfile (poster_path imdb_id ext) ;;
   if already then ret false
   else
     content <- http_get (url_string img_url) ;;
     img <- pure (Image_open content) ;;
     saved <- pure (Image_save img (poster_path imdb_id ext)) ;;
     write_file (poster_path imdb_id ext) saved ;;;
     ret true)%prog.

(** The dictionary [imdb_scrape] starts from. *)
Definition new_info_dict (imdb_id : string) : dict :=
  <["tconst" := PStr imdb_id]> (
  <["title" := PStr ""]> (
  <["release_year" := PStr ""]> (
  <["release_date" := PStr ""]> (
  <["MPAA" := PStr ""]> (
  <["genre" := PList []]> (
  <["runtime" := PStr ""]> (
  <["poster_url" := PStr ""]> (
  <["plot_short" := PStr ""]> (
  <["plot_long" := PStr ""]> (
  <["imdb_rating" := PStr ""]> (
  <["num_imdb_votes" := PStr ""]> (
  <["metacritic" := PStr ""]> (
  <["num_user_reviews" := PStr ""]> (
  <["num_critic_reviews" := PStr ""]> ∅)))))))))))))).

Definition imdb_base_url : string := "https://www.imdb.com/title/".

(** [json.loads(str(soup.findAll('script', {'type':'application/ld+json'})[0].text))] *)
Definition structured_payload (soup : node) : result pyval :=
  (script <- first_item (Soup.findAll "script" [("type", "application/ld+json")] soup) ;;
   json_loads (Soup.text script))%result.

(** "Info - Movie title, year, parental content rating, poster url",
    and the running time. *)
Definition scrape_info (json_dict : pyval) (soup : node) (d : dict) : result dict :=
  (title <- py_getitem json_dict "name" ;;
   let d := <["title" := title]> d in
   rated <- py_in "contentRating" json_dict ;;
   d <- (if rated : bool
         then rating <- py_getitem json_dict "contentRating" ;;
              Ok (<["MPAA" := rating]> d)
         else Ok d) ;;
   poster <- py_getitem json_dict "image" ;;
   let d := <["poster_url" := poster]> d in
   anchor <- Soup.child "a" (Soup.find "span" [("id", "titleYear")] soup) ;;
   year_text <- Soup.text_of anchor ;;
   year <- py_int year_text ;;
   let d := <["release_year" := PInt year]> d in
   duration <- Soup.getitem (Soup.find "time" [] soup) "datetime" ;;
   runtime <- to_numeric duration "int" ;;
   Ok (<["runtime" := runtime]> d))%result.

(** "Release date (from top header)" *)
Definition scrape_release_date (soup : node) (d : dict) : result dict :=
  (links <- Soup.findAll_of "a" (Soup.find "div" [("class", "title_wrapper")] soup) ;;
   link <- last_item links ;;
   date_string <- first_item (Str.split " (" (Soup.text link)) ;;
   Ok (<["release_date" := PStr date_string]> d))%result.

(** "Genres (up to 7)" *)
Definition scrape_genres (json_dict : pyval) (d : dict) : result dict :=
  (genre <- py_getitem json_dict "genre" ;;
   Ok (<["genre" := genre]> d))%result.

(** "Ratings - IMDb rating (and vote count)" *)
Definition scrape_ratings (json_dict : pyval) (d : dict) : result dict :=
  (aggregate <- py_getitem json_dict "aggregateRating" ;;
   value <- py_getitem aggregate "ratingValue" ;;
   rating <- py_float value ;;
   let d := <["imdb_rating" := PFloat rating]> d in
   aggregate <- py_getitem json_dict "aggregateRating" ;;
   count <- py_getitem aggregate "ratingCount" ;;
   Ok (<["num_imdb_votes" := count]> d))%result.

(** "Metacritic score, if there is one" *)
Definition scrape_metacritic (soup : node) (d : dict) : result dict :=
  match Soup.find "div" [("class", "metacriticScore")] soup with
  | None => Ok d
  | Some box =>
      (span <- Soup.child "span" (Some box) ;;
       score_text <- Soup.text_of span ;;
       score <- py_int score_text ;;
       Ok (<["metacritic" := PInt score]> d))%result
  end.

Definition review_bar : list (string * string) :=
  [("class", "titleReviewBarItem titleReviewbarItemBorder")].

(** "Reviews - Number of critic and public reviews" *)
Definition scrape_reviews (soup : node) (d : dict) : result dict :=
  let num_review_list := Soup.findAll "div" review_bar soup in
  match num_review_list with
  | [] => Ok d
  | bar :: _ =>
      let reviews := Soup.findAll "a" [] bar in
      (d <- (if 1 <? length reviews
             then link <- py_index reviews 1 ;;
                  n <- to_numeric (PStr (Soup.text link)) "int" ;;
                  Ok (<["num_critic_reviews" := n]> d)
             else Ok d) ;;
       if 0 <? length reviews
       then link <- py_index reviews 0 ;;
            n <- to_numeric (PStr (Soup.text link)) "int" ;;
            Ok (<["num_user_reviews" := n]> d)
       else Ok d)%result
  end.

Definition no_plot_placeholder : string := "Add a Plot".

(** "Plots - long and short versions" *)
Definition scrape_plots (soup : node) (d : dict) : result dict :=
  (summary <- Soup.text_of (Soup.find "div" [("class", "summary_text")] soup) ;;
   let d := <["plot_short" := PStr (Str.strip summary)]> d in
   plot_short <- dict_get d "plot_short" ;;
   placeholder <- py_in no_plot_placeholder plot_short ;;
   let d := if placeholder : bool then <["plot_short" := PStr ""]> d else d in
   section <- Soup.child "div" (Soup.find "div" [("id", "titleStoryLine")] soup) ;;
   paragraph <- Soup.child "p" section ;;
   match paragraph with
   | None => Ok d
   | Some _ =>
       span <- Soup.child "span" paragraph ;;
       story <- Soup.text_of span ;;
       Ok (<["plot_long" := PStr (Str.strip story)]> d)
   end)%result.

(** [title + ' (' + ... + ')'] inside the last [print]: a [TypeError]
    unless the title is a [str]. *)
Definition title_line (title : pyval) : result unit :=
  match title with
  | PStr _ => Ok tt
  | _ => Raise TypeError
  end.

(** [if save_image == True: img_status = savePoster(imdb_id,
    imdb_info_dict['poster_url'])]; the status is only printed. *)
Definition poster_step (imdb_id : string) (save_image : bool) (d : dict) : M unit :=
  (if save_image
   then poster <- pure (dict_get d "poster_url") ;;
        img_status <- savePoster imdb_id poster ;;
        ret tt
   else ret tt)%prog.

(** [imdb_scrape(imdb_id, save_image, debug)] *)
Definition imdb_scrape (imdb_id : string) (save_image debug : bool) : M dict :=
  (let imdb_info_dict := <["tconst" := PStr imdb_id]> (new_info_dict imdb_id) in
   let imdb_full_url := imdb_base_url +:+ imdb_id in
   r <- http_get imdb_full_url ;;
   let soup := html_parser r in
   json_dict <- pure (structured_payload soup) ;;
   d <- pure (scrape_info json_dict soup imdb_info_dict) ;;
   d <- pure (scrape_release_date soup d) ;;
   d <- pure (scrape_genres json_dict d) ;;
   d <- pure (scrape_ratings json_dict d) ;;
   d <- pure (scrape_metacritic soup d) ;;
   d <- pure (scrape_reviews soup d) ;;
   d <- pure (scrape_plots soup d) ;;
   poster_step imdb_id save_image d ;;;
   title <- pure (dict_get d "title") ;;
   pure (title_line title) ;;;
   ret d)%prog.

(** ** The driver loop *)

(** What the loop over the titles of a year accumulates. *)
Record batch : Type := Batch {
  annual_movie_list : list dict;
  failed_list : list string;
  fails : nat
}.

(** The body of the loop: [try] to scrape [tconst] and append the
    result; on any [Exception] append [tconst] to [failed_list]. *)
Definition scrape_title (tconst : string) (b : batch) (w : world) : batch * world :=
  match imdb_scrape tconst true false w with
  | (Ok scraped_movie_info, w') =>
      ({| annual_movie_list := annual_movie_list b ++ [scraped_movie_info];
          failed_list := failed_list b;
          fails := fails b |}, w')
  | (Raise _, w') =>
      ({| annual_movie_list := annual_movie_list b;
          failed_list := failed_list b ++ [tconst];
          fails := S (fails b) |}, w')
  end.

(** [for i, tconst in enumerate(...)] *)
Fixpoint scrape_titles (tconsts : list string) (b : batch) (w : world) : batch * world :=
  match tconsts with
  | [] => (b, w)
  | tconst :: rest =>
      let '(b', w') := scrape_title tconst b w in
      scrape_titles rest b' w'
  end.

(** One year: [annual_movie_list = []], [fails = 0], and the
    [failed_list] the session has so far. *)
Definition scrape_year (tconsts : list string) (failed_so_far : list string) (w : world)
  : batch * world :=
  scrape_titles tconsts
    {| annual_movie_list := []; failed_list := failed_so_far; fails := 0 |} w.

End Scraper.

(** ** Notions used to state the properties *)

Section Notions.
Context {E : Externals}.

(** The dictionary the statements of [imdb_scrape] between the fetch
    and the poster build from a parsed page. *)
Definition extract (imdb_id : string) (soup : node) : result dict :=
  (json_dict <- structured_payload soup ;;
   d <- scrape_info json_dict soup (<["tconst" := PStr imdb_id]> (new_info_dict imdb_id)) ;;
   d <- scrape_release_date soup d ;;
   d <- scrape_genres json_dict d ;;
   d <- scrape_ratings json_dict d ;;
   d <- scrape_metacritic soup d ;;
   d <- scrape_reviews soup d ;;
   scrape_plots soup d)%result.

(** The world after the page of a title was requested. *)
Definition after_request (url : string) (w : world) : world :=
  {| files := files w; requested := requested w ++ [url] |}.

(** The outcome of each turn of the driver loop, in turn: the title
    and what [imdb_scrape] did for it in the world the turns before it
    left. *)
Fixpoint attempts (tconsts : list string) (w : world) : list (string * result dict) :=
  match tconsts with
  | [] => []
  | tconst :: rest =>
      let '(outcome, w') := imdb_scrape tconst true false w in
      (tconst, outcome) :: attempts rest w'
  end.

Definition scraped (log : list (string * result dict)) : list dict :=
  omap (λ turn, match snd turn with Ok d => Some d | Raise _ => None end) log.

Definition failed (log : list (string * result dict)) : list string :=
  omap (λ turn, match snd turn with Ok _ => None | Raise _ => Some (fst turn) end) log.

(** [d'] differs from [d] at most at the keys [written]. *)
Definition writes_only (written : list string) (d d' : dict) : Prop :=
  ∀ k, k ∉ written → d' !! k = d !! k.

End Notions.

(** ** Fixture pages

    A small site to run the scraper on.  The page of title [tt0107290]
    has the shape of the page the notebook shows its sample output for;
    each of the other pages drops or changes one element of it. *)
Module Fixture.

Definition poster_stem : string :=
  "https://m.media-amazon.com/images/M/MV5BMjM2MDgxMDg0Nl5BMl5BanBnXkFtZTgwNTM2OTM5NDE@._V1_".

Definition poster_url : string := poster_stem +:+ ".jpg".

(** The decoded payloads. *)
Definition ratings : pyval :=
  PDict [("@type", PStr "AggregateRating"); ("ratingCount", PInt 820733);
         ("ratingValue", PStr "8.1")].

Definition genres : pyval :=
  PList [PStr "Action"; PStr "Adventure"; PStr "Sci-Fi"; PStr "Thriller"].

(** What Python prints for [genres]. *)
Definition printed_genres : string := "['Action', 'Adventure', 'Sci-Fi', 'Thriller']".

Definition payload_core : list (string * pyval) :=
  [("@type", PStr "Movie");
   ("name", PStr "Jurassic Park");
   ("image", PStr poster_url);
   ("genre", genres)].

Definition payload_full : pyval :=
  PDict (payload_core ++ [("contentRating", PStr "PG-13"); ("aggregateRating", ratings)]).

Definition payload_unrated : pyval :=
  PDict (payload_core ++ [("aggregateRating", ratings)]).

Definition payload_no_ratings : pyval :=
  PDict (payload_core ++ [("contentRating", PStr "PG-13")]).

Definition payload_no_value : pyval :=
  PDict (payload_core ++ [("contentRating", PStr "PG-13");
                          ("aggregateRating", PDict [("ratingCount", PInt 820733)])]).

Definition payload_no_count : pyval :=
  PDict (payload_core ++ [("contentRating", PStr "PG-13");
                          ("aggregateRating", PDict [("ratingValue", PStr "8.1")])]).

(** A rating value of [null], and no count. *)
Definition payload_null_value : pyval :=
  PDict (payload_core ++ [("contentRating", PStr "PG-13");
                          ("aggregateRating", PDict [("ratingValue", PNone)])]).

(** The elements of the page.  The text of the script element is the
    name under which [decode] knows the payload. *)
Definition class (words : list string) : string * attr_value := ("class", AttrList words).

Definition script (payload_name : string) : node :=
  Tag "script" [("type", AttrStr "application/ld+json")] [NavigableString payload_name].

Definition year_anchor : node :=
  Tag "span" [("id", AttrStr "titleYear")]
      [NavigableString "(";
       Tag "a" [("href", AttrStr "/year/1993/")] [NavigableString "1993"];
       NavigableString ")"].

Definition duration : node :=
  Tag "time" [("datetime", AttrStr "PT127M")] [NavigableString "2h 7min"].

Definition title_header (times : list node) : node :=
  Tag "div" [class ["title_wrapper"]]
      [Tag "h1" [] [NavigableString "Jurassic Park "; year_anchor];
       Tag "div" [class ["subtext"]]
           (times ++
            [Tag "a" [("href", AttrStr "/genre/Action")] [NavigableString "Action"];
             Tag "a" [("href", AttrStr "/title/tt0107290/releaseinfo")]
                 [NavigableString "11 June 1993 (USA)"]])].

Definition critic_score : node :=
  Tag "div" [class ["metacriticScore"; "score_favorable"; "titleReviewBarSubItem"]]
      [Tag "span" [] [NavigableString "68"]].

Definition review_counts (links : list string) : node :=
  Tag "div" [class ["titleReviewBarItem"; "titleReviewbarItemBorder"]]
      (NavigableString "Reviews" :: List.map (λ t, Tag "a" [] [NavigableString t]) links).

Definition both_counts : node := review_counts ["1,085 user"; "355 critic"].

Definition summary (plot : string) : node :=
  Tag "div" [class ["summary_text"]] [NavigableString plot].

Definition short_plot : node :=
  summary "   A pragmatic paleontologist visiting an almost complete theme park.  ".

Definition story_line (paragraphs : list node) : node :=
  Tag "div" [("id", AttrStr "titleStoryLine"); class ["article"]]
      [Tag "h2" [] [NavigableString "Storyline"];
       Tag "div" [class ["inline"; "canwrap"]] paragraphs].

Definition long_plot : node :=
  story_line
    [Tag "p" [] [Tag "span" [] [NavigableString "  Huge advancements in scientific technology.  "]]].

Definition page (payload_name : string) (body : list node) : node :=
  Tag "[document]" []
      [Tag "html" [] [Tag "head" [] [script payload_name]; Tag "body" [] body]].

(** The pages of the site, by title id. *)
Definition pages : list (string * node) :=
  [ (* the whole page *)
    ("tt0107290", page "full" [title_header [duration]; critic_score; both_counts;
                               short_plot; long_plot]);
    (* no running time *)
    ("tt0000001", page "full" [title_header []; critic_score; both_counts;
                               short_plot; long_plot]);
    (* no ratings in the payload *)
    ("tt0000002", page "no ratings" [title_header [duration]; critic_score; both_counts;
                                     short_plot; long_plot]);
    (* no content rating, no critic score, no review bar, no paragraph
       in the story line, and the placeholder as plot *)
    ("tt0000003", page "unrated" [title_header [duration]; summary "  Add a Plot  ";
                                  story_line []]);
    (* one review link, and the placeholder inside a plot *)
    ("tt0000004", page "full" [title_header [duration]; review_counts ["12 user"];
                               summary "A heist goes wrong. Add a Plot twist and it goes right.";
                               long_plot]);
    (* no rating value, no rating count *)
    ("tt0000005", page "no value" [title_header [duration]; critic_score; both_counts;
                                   short_plot; long_plot]);
    ("tt0000006", page "no count" [title_header [duration]; critic_score; both_counts;
                                   short_plot; long_plot]);
    (* no short-plot container *)
    ("tt0000007", page "full" [title_header [duration]; critic_score; both_counts;
                               long_plot]);
    (* no story-line container *)
    ("tt0000008", page "full" [title_header [duration]; critic_score; both_counts;
                               short_plot]);
    (* no title header: the year and the running time stand alone *)
    ("tt0000009", page "full" [year_anchor; duration; critic_score; both_counts;
                               short_plot; long_plot]);
    (* a rating value of null, and no rating count *)
    ("tt0000010", page "null value" [title_header [duration]; critic_score; both_counts;
                                     short_plot; long_plot]);
    (* a review bar without links *)
    ("tt0000011", page "full" [title_header [duration]; critic_score; review_counts [];
                               short_plot; long_plot]) ].

Fixpoint lookup_page (imdb_id : string) (l : list (string * node)) : option node :=
  match l with
  | [] => None
  | (k, n) :: rest => if String.eqb imdb_id k then Some n else lookup_page imdb_id rest
  end.

Definition site (imdb_id : string) : option node := lookup_page imdb_id pages.

Definition title_of_url (url : string) : option string :=
  if Str.starts_with "https://www.imdb.com/title/" url
  then Some (String.substring 27 (String.length url - 27) url)
  else None.

(** A page is served as the bytes of its title id; the poster as some
    image bytes; anything else is a transport error. *)
Definition serve (url : string) : result bytes :=
  match title_of_url url with
  | Some imdb_id =>
      match site imdb_id with
      | Some _ => Ok (list_byte_of_string imdb_id)
      | None => Raise (OtherError "ConnectionError")
      end
  | None =>
      if String.eqb url poster_url then Ok (list_byte_of_string "JFIF")
      else Raise (OtherError "ConnectionError")
  end.

(** The parser and the decoder of the site know its pages and payloads
    by name. *)
Definition parse (content : bytes) : node :=
  default (Tag "[document]" [] []) (site (string_of_list_byte content)).

Definition decode (text : string) : result pyval :=
  if String.eqb text "full" then Ok payload_full
  else if String.eqb text "unrated" then Ok payload_unrated
  else if String.eqb text "no ratings" then Ok payload_no_ratings
  else if String.eqb text "no value" then Ok payload_no_value
  else if String.eqb text "no count" then Ok payload_no_count
  else if String.eqb text "null value" then Ok payload_null_value
  else Raise ValueError.

(** An image is kept as its bytes; only [jpg] files can be written. *)
Definition save (img : bytes) (path : string) : result bytes :=
  if String.eqb (List.last (Str.split "." path) EmptyString) "jpg" then Ok img
  else Raise ValueError.

Definition externals : Externals := {|
  requests_get := λ _ url, serve url;
  html_parser := parse;
  json_loads := decode;
  image := bytes;
  Image_open := λ content, Ok content;
  Image_save := save;
  float_repr := λ _, "<float>"
|}.

Definition fresh : world := {| files := ∅; requested := [] |}.

(** *** The table writer of the fixture

    [pandas] is no part of the notebook, and the driver is verified for
    every table writer.  To run the driver, the fixture has a writer
    that writes one column the way [pandas] writes a column of Python
    objects with [quoting=csv.QUOTE_ALL]: the name of the column, then
    for each row [str] of its value, nothing for a missing one; each
    between double quotes, a double quote inside written twice; one per
    line. *)
Definition cell_text (v : option pyval) : string :=
  match v with
  | None | Some PNone | Some (PFloat S754_nan) => EmptyString
  | Some x => py_str (float_repr (Externals := externals)) x
  end.

Fixpoint double_quotes (s : string) : string :=
  match s with
  | EmptyString => EmptyString
  | String c r =>
      if Ascii.eqb c "034" then String c (String c (double_quotes r))
      else String c (double_quotes r)
  end.

Definition quote_all (s : string) : string :=
  String "034" (double_quotes s +:+ String "034" EmptyString).

Definition column_text (name : string) (rows : list dict) : list string :=
  List.map (λ row : dict, cell_text (row !! name)) rows.

Definition column_written (name : string) (rows : list dict) : list string :=
  quote_all name :: List.map quote_all (column_text name rows).

Definition lines (l : list string) : string :=
  Str.concat (List.map (λ line, line +:+ String "010" EmptyString) l).

Definition write_column (name : string) (rows : list dict) (path : string) : result bytes :=
  Ok (list_byte_of_string (lines (column_written name rows))).

Definition soup_of (imdb_id : string) : node := default (Tag "[document]" [] []) (site imdb_id).

(** The scraper and the driver on this site. *)
Definition scrape (imdb_id : string) (save_image : bool) (w : world) : result dict * world :=
  imdb_scrape (E := externals) imdb_id save_image false w.

Definition returned (run : result dict * world) : dict :=
  match run.1 with
  | Ok d => d
  | Raise _ => ∅
  end.

(** The dictionary a stage returned. *)
Definition value (r : result dict) : dict :=
  match r with
  | Ok d => d
  | Raise _ => ∅
  end.

Definition content_of (imdb_id : string) : bytes := list_byte_of_string imdb_id.

(** A year of three titles; the second has no running time. *)
Definition titles_1993 : list string := ["tt0107290"; "tt0000001"; "tt0000003"].

Definition no_batch : batch :=
  {| annual_movie_list := []; failed_list := []; fails := 0 |}.

Definition year_1993 : batch * world :=
  scrape_year (E := externals) titles_1993 [] fresh.

End Fixture.

(** ** The loop over the years

    The last cell of the notebook runs the driver loop for each year of a
    range and writes one table per year.  The frame of titles read from
    [imdb_movie_list.csv] is the list of its rows, a title id and a year
    each; [pandas] writing the table is taken as it comes. *)

Section Years.
Context {E : Externals}.

(** [pd.DataFrame(rows).to_csv(path, sep='\t', quoting=csv.QUOTE_ALL,
    index=False)]: the bytes written at [path], or the exception. *)
Variable to_csv : list dict → string → result bytes.

(** [f'rawdata/imdb_scrape_{yr}.tsv'] *)
Definition table_path (yr : Z) : string :=
  "rawdata/imdb_scrape_" +:+ Z_to_str yr +:+ ".tsv".

(** [movie_df[(movie_df['year'] == yr)]['tconst'].values] *)
Definition movies_in_year (movie_df : list (string * Z)) (yr : Z) : list string :=
  (filter (λ row : string * Z, row.2 = yr) movie_df).*1.

(** One year: the driver loop on the titles of the year, then the table.
    [failed_list] is a variable of the session: what the loop appended
    to it stays when writing the table raises. *)
Definition scrape_and_save (movie_df : list (string * Z)) (yr : Z)
    (failed_so_far : list string) (w : world) : result unit * list string * world :=
  let '(b, w1) := scrape_year (movies_in_year movie_df yr) failed_so_far w in
  match to_csv (annual_movie_list b) (table_path yr) with
  | Ok written =>
      (Ok tt, failed_list b,
       {| files := <[table_path yr := written]> (files w1); requested := requested w1 |})
  | Raise e => (Raise e, failed_list b, w1)
  end.

(** [for yr in years_to_scrape_list] *)
Fixpoint scrape_years (movie_df : list (string * Z)) (years : list Z)
    (failed_so_far : list string) (w : world) : result unit * list string * world :=
  match years with
  | [] => (Ok tt, failed_so_far, w)
  | yr :: rest =>
      match scrape_and_save movie_df yr failed_so_far w with
      | (Ok _, failed, w') => scrape_years movie_df rest failed w'
      | (Raise e, failed, w') => (Raise e, failed, w')
      end
  end.

End Years.

(** The keys of the dictionary [imdb_scrape] creates. *)
Definition info_keys : gset string :=
  {[ "tconst"; "title"; "release_year"; "release_date"; "MPAA"; "genre"; "runtime";
     "poster_url"; "plot_short"; "plot_long"; "imdb_rating"; "num_imdb_votes";
     "metacritic"; "num_user_reviews"; "num_critic_reviews" ]}.

(** ** More of the fixture site *)
Module MoreFixture.
Import Fixture.

(** The site with a network that answers what [get] says. *)
Definition externals_on (get : string → result bytes) (decoder : string → result pyval)
  : Externals := {|
  requests_get := λ _ url, get url;
  html_parser := parse;
  json_loads := decoder;
  image := bytes;
  Image_open := λ content, Ok content;
  Image_save := save;
  float_repr := λ _, "<float>"
|}.

(** The pages are served, the poster is not. *)
Definition serve_pages_only (url : string) : result bytes :=
  if String.eqb url poster_url then Raise (OtherError "ConnectionError") else serve url.

Definition no_posters : Externals := externals_on serve_pages_only decode.

(** A payload whose title is a number, and one whose image is an object. *)
Definition payload_numbered : pyval :=
  PDict [("name", PInt 1984); ("image", PStr poster_url); ("genre", genres);
         ("aggregateRating", ratings)].

Definition payload_image_object : pyval :=
  PDict [("name", PStr "Jurassic Park");
         ("image", PDict [("@type", PStr "ImageObject"); ("url", PStr poster_url)]);
         ("genre", genres); ("aggregateRating", ratings)].

Definition numbered_titles : Externals := externals_on serve (λ _, Ok payload_numbered).

Definition image_objects : Externals := externals_on serve (λ _, Ok payload_image_object).

(** A world that has the poster of [tt0107290] already, as an empty
    file. *)
Definition with_poster : world :=
  {| files := {[ "posters/tt0107290.jpg" := [] ]}; requested := [] |}.

(** A world in the middle of a run: the poster of another title is
    there, and its page was requested. *)
Definition busy : world :=
  {| files := {[ "posters/tt0000001.jpg" := [] ]};
     requested := [imdb_base_url +:+ "tt0000001"] |}.

(** The frame of titles, and a table writer that writes the keys of the
    rows. *)
Definition movie_df : list (string * Z) :=
  [("tt0107290", 1993%Z); ("tt0000001", 1993%Z); ("tt0000004", 1994%Z);
   ("tt0000003", 1993%Z); ("tt0000002", 1994%Z)].

Definition write_keys (rows : list dict) (path : string) : result bytes :=
  Ok (list_byte_of_string (Str.join "," (column_text "tconst" rows))).

Definition two_years : result unit * list string * world :=
  scrape_years (E := externals) write_keys movie_df [1993%Z; 1994%Z; 1995%Z] [] fresh.

(** A network that answers every request with nothing. *)
Definition blank_pages : Externals := externals_on (λ _, Ok []) decode.

(** What the statements before the poster step make of the page of a
    title. *)
Definition extracted (E : Externals) (imdb_id : string) : dict :=
  match extract (E := E) imdb_id (html_parser (content_of imdb_id)) with
  | Ok d => d
  | Raise _ => ∅
  end.

(** The world after the page and the poster of [tt0107290] were
    requested, without and with the poster written. *)
Definition both_requested : world :=
  {| files := ∅; requested := [imdb_base_url +:+ "tt0107290"; poster_url] |}.

Definition poster_saved : world :=
  {| files := {[ "posters/tt0107290.jpg" := list_byte_of_string "JFIF" ]};
     requested := [imdb_base_url +:+ "tt0107290"; poster_url] |}.

End MoreFixture.

(** * Properties *)

(** ** Digit runs *)

Module StrFacts.
Import Str.

Lemma filter_length_le p s : String.length (filter p s) ≤ String.length s.
Proof.
  induction s as [|c r IH]; simpl; [lia|].
  destruct (p c); simpl; lia.
Qed.

Lemma filter_fixed_head p c r : filter p (String c r) = String c r → p c = true ∧ filter p r = r.
Proof.
  simpl. destruct (p c) eqn:Hc.
  - intros [= Hr]. done.
  - intros Heq. pose proof (filter_length_le p r) as Hlen.
    rewrite Heq in Hlen. simpl in Hlen. lia.
Qed.

Lemma filter_idem p s : filter p (filter p s) = filter p s.
Proof.
  induction s as [|c r IH]; simpl; [done|].
  destruct (p c) eqn:Hc; simpl; [rewrite Hc; congruence | done].
Qed.

Lemma filter_all_digits s : all_digits (filter is_digit s).
Proof. apply filter_idem. Qed.

(** What a digit is not. *)
Lemma digit_facts c :
  is_digit c = true →
  is_space c = false ∧ is_number_space c = false ∧ lower c = c
  ∧ Ascii.eqb c "-" = false ∧ Ascii.eqb c "+" = false
  ∧ Ascii.eqb c "i" = false ∧ Ascii.eqb c "n" = false.
Proof.
  destruct c as [[] [] [] [] [] [] [] []]; vm_compute; intros; try discriminate; done.
Qed.

Lemma app_nil_l s : EmptyString +:+ s = s.
Proof. reflexivity. Qed.

Lemma app_cons c s t : String c s +:+ t = String c (s +:+ t).
Proof. reflexivity. Qed.

Lemma append_assoc s t u : (s +:+ t) +:+ u = s +:+ (t +:+ u).
Proof. induction s; rewrite ?app_nil_l, ?app_cons; congruence. Qed.

Lemma rev_onto_app s acc : rev_onto s acc = rev_onto s EmptyString +:+ acc.
Proof.
  revert acc. induction s as [|c r IH]; intros acc; simpl; [done|].
  rewrite (IH (String c acc)), (IH (String c EmptyString)).
  rewrite append_assoc. done.
Qed.

Lemma rev_cons c r : rev (String c r) = rev r +:+ String c EmptyString.
Proof. unfold rev. simpl. apply rev_onto_app. Qed.

Lemma append_empty_r s : s +:+ EmptyString = s.
Proof. induction s; rewrite ?app_nil_l, ?app_cons; congruence. Qed.

Lemma rev_app s t : rev (s +:+ t) = rev t +:+ rev s.
Proof.
  induction s as [|c r IH]; rewrite ?app_nil_l, ?app_cons.
  - by rewrite append_empty_r.
  - rewrite !rev_cons, IH, append_assoc. done.
Qed.

Lemma rev_involutive s : rev (rev s) = s.
Proof.
  induction s as [|c r IH]; [done|].
  rewrite rev_cons, rev_app, IH. done.
Qed.

Lemma lstrip_app_nonspace s c t :
  is_space c = false → lstrip (s +:+ String c t) = lstrip s +:+ String c t.
Proof.
  intros Hc. induction s as [|a r IH]; rewrite ?app_nil_l, ?app_cons; simpl.
  - by rewrite Hc.
  - destruct (is_space a); [exact IH | done].
Qed.

Lemma lstrip_nonspace c r : is_space c = false → lstrip (String c r) = String c r.
Proof. intros Hc. simpl. by rewrite Hc. Qed.

Lemma all_digits_cons c r : all_digits (String c r) → is_digit c = true ∧ all_digits r.
Proof. apply filter_fixed_head. Qed.

Lemma all_digits_rev s : all_digits s → all_digits (rev s).
Proof.
  unfold all_digits at 2.
  induction s as [|c r IH]; [done|].
  intros [Hc Hr]%all_digits_cons. rewrite rev_cons.
  assert (Happ : ∀ a b, filter is_digit (a +:+ b) = filter is_digit a +:+ filter is_digit b).
  { intros a b. induction a as [|x a IHa]; rewrite ?app_nil_l, ?app_cons; simpl; [done|].
    destruct (is_digit x); rewrite ?app_cons; congruence. }
  rewrite Happ, (IH Hr). simpl. by rewrite Hc.
Qed.

Lemma skip_spaces_digits s : all_digits s → skip_spaces s = s.
Proof.
  destruct s as [|c r]; [done|].
  intros [Hc _]%all_digits_cons. simpl.
  destruct (digit_facts c Hc) as (_ & -> & _). done.
Qed.

Lemma number_text_digits s : all_digits s → number_text s = s.
Proof.
  intros Hs. unfold number_text.
  rewrite (skip_spaces_digits s Hs), (skip_spaces_digits _ (all_digits_rev s Hs)).
  apply rev_involutive.
Qed.

Lemma take_sign_digits s : all_digits s → take_sign s = (false, s).
Proof.
  destruct s as [|c r]; [done|].
  intros [Hc _]%all_digits_cons.
  destruct (digit_facts c Hc) as (_ & _ & _ & Hm & Hp & _).
  unfold take_sign.
  destruct c as [[] [] [] [] [] [] [] []]; try done; discriminate.
Qed.

Lemma take_digits_digits b s : all_digits s → take_digits b s = (s, EmptyString).
Proof.
  revert b. induction s as [|c r IH]; intros b; [done|].
  intros [Hc Hr]%all_digits_cons. simpl. rewrite Hc, (IH true Hr). done.
Qed.

Lemma not_keyword_digits c r :
  is_digit c = true →
  let low := map lower (String c r) in
  String.eqb low "inf" || String.eqb low "infinity" = false ∧ String.eqb low "nan" = false.
Proof.
  intros Hc. destruct (digit_facts c Hc) as (_ & _ & Hl & _ & _ & Hi & Hn).
  simpl. rewrite Hl, Hi, Hn. done.
Qed.

End StrFacts.

(** [int] of a run of digits is its decimal value; of no digits, a
    [ValueError]. *)
Lemma py_int_digits s :
  Str.all_digits s →
  py_int s = match s with
             | EmptyString => Raise ValueError
             | String _ _ => Ok (Str.digits_value s)
             end.
Proof.
  intros Hs. unfold py_int.
  rewrite (StrFacts.number_text_digits s Hs), (StrFacts.take_sign_digits s Hs).
  rewrite (StrFacts.take_digits_digits false s Hs).
  by destruct s.
Qed.

(** [float] of a run of digits is the binary64 number nearest to its
    decimal value. *)
Lemma py_float_digits s :
  Str.all_digits s →
  py_float_of_str s = match s with
                      | EmptyString => Raise ValueError
                      | String _ _ => Ok (float_of_decimal false (Str.digits_value s) 0)
                      end.
Proof.
  intros Hs. unfold py_float_of_str.
  rewrite (StrFacts.number_text_digits s Hs), (StrFacts.take_sign_digits s Hs).
  destruct s as [|c r]; [done|].
  destruct (StrFacts.all_digits_cons c r Hs) as [Hc _].
  destruct (StrFacts.not_keyword_digits c r Hc) as [Hinf Hnan].
  cbv zeta in Hinf, Hnan. rewrite Hinf, Hnan.
  rewrite (StrFacts.take_digits_digits false _ Hs).
  rewrite StrFacts.append_empty_r. done.
Qed.

Lemma float_of_decimal_integer m :
  (0 < m)%Z → float_of_decimal false m 0 = binary_normalize 53 1024 m 0 false.
Proof.
  intros Hm. unfold float_of_decimal.
  destruct (m =? 0)%Z eqn:Hz; [lia|].
  simpl. by rewrite Z.mul_1_r.
Qed.

Lemma float_81_value : float_81 = S754_finite false (Z.to_pos (81 * 2 ^ 46)) (-46).
Proof. reflexivity. Qed.

(** C2.  [to_numeric] removes every character that is not one of the ten
    digits and reads what is left as a decimal number: as an [int] for
    ['int'] and as a [float] for ['float']; when nothing is left, [int]
    and [float] raise [ValueError].  In particular "1,085 reviews" gives
    1085, "127 min" gives 127, "8.1" read as a float gives 81.0 (the point
    is dropped with the other non-digits), and the empty string raises. *)
Theorem to_numeric_strips_then_parses :
  (∀ s, to_numeric (PStr s) "int" =
        match Str.filter Str.is_digit s with
        | EmptyString => Raise ValueError
        | String c r => Ok (PInt (Str.digits_value (String c r)))
        end)
  ∧ (∀ s, to_numeric (PStr s) "float" =
          match Str.filter Str.is_digit s with
          | EmptyString => Raise ValueError
          | String c r => Ok (PFloat (float_of_decimal false (Str.digits_value (String c r)) 0))
          end)
  ∧ to_numeric (PStr "1,085 reviews") "int" = Ok (PInt 1085)
  ∧ to_numeric (PStr "127 min") "int" = Ok (PInt 127)
  ∧ to_numeric (PStr "8.1") "float" = Ok (PFloat float_81)
  ∧ to_numeric (PStr "") "int" = Raise ValueError.
Proof.
  split; [|split]; [| |repeat split; reflexivity].
  - intros s. unfold to_numeric. simpl.
    rewrite (py_int_digits _ (StrFacts.filter_all_digits s)).
    by destruct (Str.filter Str.is_digit s).
  - intros s. unfold to_numeric. simpl.
    rewrite (py_float_digits _ (StrFacts.filter_all_digits s)).
    by destruct (Str.filter Str.is_digit s).
Qed.

(** What [to_numeric] returns for a string and ['int']. *)
Lemma to_numeric_int_digits s :
  to_numeric (PStr s) "int"
  = match Str.filter Str.is_digit s with
    | EmptyString => Raise ValueError
    | String c r => Ok (PInt (Str.digits_value (String c r)))
    end.
Proof.
  unfold to_numeric. simpl.
  rewrite (py_int_digits _ (StrFacts.filter_all_digits s)).
  by destruct (Str.filter Str.is_digit s).
Qed.

(** ** Running the stages *)

Lemma rbind_ok {A B} (c : result A) (k : A → result B) (b : B) :
  rbind c k = Ok b → ∃ a, c = Ok a ∧ k a = Ok b.
Proof. destruct c as [a|e]; simpl; [eauto | discriminate]. Qed.

(** Take the successful runs among the hypotheses apart, statement by
    statement. *)
Ltac unbind :=
  repeat
    match goal with
    | H : rbind _ _ = Ok _ |- _ =>
        let a := fresh "x" in
        let Ha := fresh "Hx" in
        apply rbind_ok in H as (a & Ha & H); cbv zeta in H
    | H : (if ?b then _ else _) = Ok _ |- _ => destruct b eqn:?
    | H : match ?x with _ => _ end = Ok _ |- _ => destruct x eqn:?; try discriminate H
    | H : Ok _ = Ok _ |- _ => injection H as H; try subst
    end.

Ltac fresh_key :=
  repeat match goal with
         | Hk : _ ∉ _ :: _ |- _ => apply not_elem_of_cons in Hk as [? Hk]
         end.

Ltac stage_writes stage :=
  let Hrun := fresh "Hrun" in
  let k := fresh "k" in
  let Hk := fresh "Hk" in
  unfold stage; cbv zeta; intros Hrun k Hk; unbind; fresh_key;
  repeat match goal with |- context [if ?b then _ else _] => destruct b end;
  by rewrite ?lookup_insert_ne.

Section StageFacts.
Context {E : Externals}.

Lemma scrape_info_writes j soup d d' :
  scrape_info j soup d = Ok d' →
  writes_only ["title"; "MPAA"; "poster_url"; "release_year"; "runtime"] d d'.
Proof. stage_writes scrape_info. Qed.

Lemma scrape_release_date_writes soup d d' :
  scrape_release_date soup d = Ok d' → writes_only ["release_date"] d d'.
Proof. stage_writes scrape_release_date. Qed.

Lemma scrape_genres_writes j d d' :
  scrape_genres j d = Ok d' → writes_only ["genre"] d d'.
Proof. stage_writes scrape_genres. Qed.

Lemma scrape_ratings_writes j d d' :
  scrape_ratings j d = Ok d' → writes_only ["imdb_rating"; "num_imdb_votes"] d d'.
Proof. stage_writes scrape_ratings. Qed.

Lemma scrape_metacritic_writes soup d d' :
  scrape_metacritic soup d = Ok d' → writes_only ["metacritic"] d d'.
Proof. stage_writes scrape_metacritic. Qed.

Lemma scrape_reviews_writes soup d d' :
  scrape_reviews soup d = Ok d' →
  writes_only ["num_critic_reviews"; "num_user_reviews"] d d'.
Proof. stage_writes scrape_reviews. Qed.

Lemma scrape_plots_writes soup d d' :
  scrape_plots soup d = Ok d' → writes_only ["plot_short"; "plot_long"] d d'.
Proof. stage_writes scrape_plots. Qed.

(** A successful extraction is a successful run of every stage. *)
Lemma extract_ok imdb_id soup d :
  extract imdb_id soup = Ok d ↔
  ∃ json_dict d1 d2 d3 d4 d5 d6,
    structured_payload soup = Ok json_dict
    ∧ scrape_info json_dict soup (<["tconst" := PStr imdb_id]> (new_info_dict imdb_id)) = Ok d1
    ∧ scrape_release_date soup d1 = Ok d2
    ∧ scrape_genres json_dict d2 = Ok d3
    ∧ scrape_ratings json_dict d3 = Ok d4
    ∧ scrape_metacritic soup d4 = Ok d5
    ∧ scrape_reviews soup d5 = Ok d6
    ∧ scrape_plots soup d6 = Ok d.
Proof.
  unfold extract. split.
  - intros Hrun. unbind. eauto 15.
  - intros (j & d1 & d2 & d3 & d4 & d5 & d6 & Hj & H1 & H2 & H3 & H4 & H5 & H6 & H7).
    rewrite Hj; simpl. rewrite H1; simpl. rewrite H2; simpl. rewrite H3; simpl.
    rewrite H4; simpl. rewrite H5; simpl. rewrite H6; simpl. exact H7.
Qed.

(** [imdb_scrape] requests the page, extracts, saves the poster when
    asked to, and returns the dictionary if its title is a string. *)
Lemma imdb_scrape_eq imdb_id save_image debug w :
  imdb_scrape imdb_id save_image debug w =
  let url := imdb_base_url +:+ imdb_id in
  let w1 := after_request url w in
  match requests_get (requested w) url with
  | Raise e => (Raise e, w1)
  | Ok content =>
      match extract imdb_id (html_parser content) with
      | Raise e => (Raise e, w1)
      | Ok d =>
          match poster_step imdb_id save_image d w1 with
          | (Raise e, w2) => (Raise e, w2)
          | (Ok _, w2) =>
              match d !! "title" with
              | Some (PStr _) => (Ok d, w2)
              | Some _ => (Raise TypeError, w2)
              | None => (Raise KeyError, w2)
              end
          end
      end
  end.
Proof.
  unfold imdb_scrape, extract, bind, pure, http_get, after_request, ret, dict_get.
  cbv zeta. simpl.
  destruct (requests_get _ _) as [content|e]; [|done].
  repeat match goal with
         | |- context [rbind ?c _] =>
             lazymatch c with
             | context [rbind] => fail
             | _ => destruct c; simpl; [|done]
             end
         end.
  match goal with |- context [scrape_plots ?s ?d] => destruct (scrape_plots s d) as [d'|]; [|done] end.
  destruct (poster_step _ _ _ _) as [[[]|] w2]; [|done].
  destruct (d' !! "title") as [[]|]; done.
Qed.

Lemma imdb_scrape_ok imdb_id save_image debug w d w' :
  imdb_scrape imdb_id save_image debug w = (Ok d, w') ↔
  ∃ content title,
    requests_get (requested w) (imdb_base_url +:+ imdb_id) = Ok content
    ∧ extract imdb_id (html_parser content) = Ok d
    ∧ poster_step imdb_id save_image d (after_request (imdb_base_url +:+ imdb_id) w) = (Ok tt, w')
    ∧ d !! "title" = Some (PStr title).
Proof.
  rewrite imdb_scrape_eq. cbv zeta. split.
  - destruct (requests_get _ _) as [content|] eqn:Hget; [|discriminate].
    destruct (extract _ _) as [d0|] eqn:Hex; [|discriminate].
    destruct (poster_step _ _ _ _) as [[[]|] w2] eqn:Hposter; [|discriminate].
    destruct (d0 !! "title") as [[]|] eqn:Htitle; try discriminate.
    intros [= <- <-]. eauto 10.
  - intros (content & title & -> & -> & -> & ->). done.
Qed.

(** When the extraction raises, so does [imdb_scrape], and nothing but
    the request has happened. *)
Lemma imdb_scrape_extract_raises imdb_id save_image debug w content e :
  requests_get (requested w) (imdb_base_url +:+ imdb_id) = Ok content →
  extract imdb_id (html_parser content) = Raise e →
  imdb_scrape imdb_id save_image debug w
  = (Raise e, after_request (imdb_base_url +:+ imdb_id) w).
Proof. intros Hget Hex. rewrite imdb_scrape_eq. cbv zeta. by rewrite Hget, Hex. Qed.

(** [imdb_scrape] returns a dictionary or raises; it cannot do both or
    neither. *)
Lemma imdb_scrape_outcome imdb_id save_image debug w :
  (∃ d w', imdb_scrape imdb_id save_image debug w = (Ok d, w'))
  ∨ (∃ e w', imdb_scrape imdb_id save_image debug w = (Raise e, w')).
Proof. destruct (imdb_scrape _ _ _ w) as [[d|e] w']; eauto. Qed.

End StageFacts.

(** ** Substrings and trimming *)

Module SubstringFacts.
Import Str StrFacts.

Lemma starts_with_app p s : starts_with p (p +:+ s) = true.
Proof.
  induction p as [|c p IH]; [done|].
  rewrite app_cons. simpl. by rewrite Ascii.eqb_refl, IH.
Qed.

Lemma contains_here p s : starts_with p s = true → contains p s = true.
Proof. intros Hp. destruct s; simpl; by rewrite Hp. Qed.

Lemma contains_later p c s : contains p s = true → contains p (String c s) = true.
Proof. intros Hp. simpl. rewrite Hp. apply orb_true_r. Qed.

(** [p in s] holds when [p] occurs somewhere in [s]... *)
Lemma contains_app p pre post : contains p (pre +:+ p +:+ post) = true.
Proof.
  induction pre as [|c pre IH].
  - rewrite app_nil_l. apply contains_here, starts_with_app.
  - rewrite app_cons. by apply contains_later.
Qed.

Lemma starts_with_split p s : starts_with p s = true → ∃ post, s = p +:+ post.
Proof.
  revert s. induction p as [|c p IH]; intros s; [by exists s|].
  destruct s as [|a s]; simpl; [discriminate|].
  intros [Hc Hp]%andb_true_iff. apply Ascii.eqb_eq in Hc as ->.
  destruct (IH s Hp) as [post ->]. by exists post.
Qed.

(** ... and only then. *)
Lemma contains_split p s : contains p s = true → ∃ pre post, s = pre +:+ p +:+ post.
Proof.
  induction s as [|c s IH].
  - simpl. rewrite orb_false_r. intros [post ->]%starts_with_split.
    by exists EmptyString, post.
  - simpl. intros [Hp|Hp]%orb_true_iff.
    + destruct (starts_with_split _ _ Hp) as [post ->]. by exists EmptyString, post.
    + destruct (IH Hp) as (pre & post & ->). by exists (String c pre), post.
Qed.

Lemma rstrip_app_nonspace s c t :
  is_space c = false → rstrip (s +:+ String c t) = s +:+ String c (rstrip t).
Proof.
  intros Hc. unfold rstrip.
  rewrite rev_app, rev_cons, append_assoc, app_cons, app_nil_l.
  rewrite (lstrip_app_nonspace _ _ _ Hc).
  rewrite rev_app, rev_cons, rev_involutive, append_assoc. done.
Qed.

(** Trimming does not reach into an occurrence of the placeholder: it
    starts and ends with a letter. *)
Lemma strip_around_placeholder pre post :
  strip (pre +:+ "Add a Plot" +:+ post)
  = lstrip pre +:+ "Add a Plot" +:+ rstrip post.
Proof.
  unfold strip.
  change ("Add a Plot" +:+ post) with (String "A" ("dd a Plot" +:+ post)).
  rewrite lstrip_app_nonspace by done.
  change (String "A" ("dd a Plot" +:+ post)) with ("Add a Plo" +:+ String "t" post).
  rewrite <- append_assoc, rstrip_app_nonspace by done.
  rewrite append_assoc. done.
Qed.

End SubstringFacts.

Section FieldFacts.
Context {E : Externals}.

(** What the plot stage leaves in [plot_short]. *)
Lemma scrape_plots_short soup d d' :
  scrape_plots soup d = Ok d' →
  ∃ box, Soup.find "div" [("class", "summary_text")] soup = Some box
         ∧ d' !! "plot_short"
           = Some (PStr (if Str.contains no_plot_placeholder (Str.strip (Soup.text box))
                         then EmptyString else Str.strip (Soup.text box))).
Proof.
  unfold scrape_plots. cbv zeta. intros Hrun. unbind.
  all: destruct (Soup.find "div" [("class", "summary_text")] soup) as [box|]; [|discriminate].
  all: exists box; split; [done|].
  all: simpl in *; simplify_eq.
  all: unfold dict_get in *; rewrite lookup_insert_eq in *; simplify_eq; simpl in *; simplify_eq.
  all: rewrite ?(lookup_insert_ne _ "plot_long") by done.
  all: destruct (Str.contains _ _); by rewrite lookup_insert_eq.
Qed.

End FieldFacts.

(** A literal key is not among literal keys. *)
Ltac other_key := rewrite ?not_elem_of_cons; repeat split; try done; apply not_elem_of_nil.

Section Claims.
Context {E : Externals}.

(** The keys written after the dictionary is created keep [tconst]
    out of reach. *)
Lemma extract_keeps_tconst imdb_id soup d :
  extract imdb_id soup = Ok d → d !! "tconst" = Some (PStr imdb_id).
Proof.
  intros (j & d1 & d2 & d3 & d4 & d5 & d6 & Hj & H1 & H2 & H3 & H4 & H5 & H6 & H7)%extract_ok.
  rewrite (scrape_plots_writes _ _ _ H7) by other_key.
  rewrite (scrape_reviews_writes _ _ _ H6) by other_key.
  rewrite (scrape_metacritic_writes _ _ _ H5) by other_key.
  rewrite (scrape_ratings_writes _ _ _ H4) by other_key.
  rewrite (scrape_genres_writes _ _ _ H3) by other_key.
  rewrite (scrape_release_date_writes _ _ _ H2) by other_key.
  rewrite (scrape_info_writes _ _ _ _ H1) by other_key.
  apply lookup_insert_eq.
Qed.

(** C5.  Whenever [imdb_scrape] returns a dictionary, which it does only
    for a page that was fetched and whose structured payload is present
    and decodes, the [tconst] entry of that dictionary is the title id
    it was called with. *)
Theorem imdb_scrape_returns_its_key imdb_id save_image debug w d w' :
  imdb_scrape imdb_id save_image debug w = (Ok d, w') →
  d !! "tconst" = Some (PStr imdb_id)
  ∧ ∃ content json_dict,
      requests_get (requested w) (imdb_base_url +:+ imdb_id) = Ok content
      ∧ structured_payload (html_parser content) = Ok json_dict.
Proof.
  intros (content & title & Hget & Hex & _ & _)%imdb_scrape_ok. split.
  - by apply extract_keeps_tconst with (html_parser content).
  - apply extract_ok in Hex as (j & _ & _ & _ & _ & _ & _ & Hj & _). eauto.
Qed.

(** C9.  When the trimmed text of the short-plot container is exactly
    the placeholder "Add a Plot", the dictionary [imdb_scrape] returns
    has the empty string as [plot_short]. *)
Theorem placeholder_plot_is_dropped imdb_id save_image debug w d w' content box :
  imdb_scrape imdb_id save_image debug w = (Ok d, w') →
  requests_get (requested w) (imdb_base_url +:+ imdb_id) = Ok content →
  Soup.find "div" [("class", "summary_text")] (html_parser content) = Some box →
  Str.strip (Soup.text box) = no_plot_placeholder →
  d !! "plot_short" = Some (PStr "").
Proof.
  intros (content' & title & Hget' & Hex & _ & _)%imdb_scrape_ok Hget Hbox Htext.
  assert (content' = content) as -> by congruence.
  apply extract_ok in Hex as (j & d1 & d2 & d3 & d4 & d5 & d6 & _ & _ & _ & _ & _ & _ & _ & H7).
  apply scrape_plots_short in H7 as (box' & Hbox' & ->).
  assert (box' = box) as -> by congruence.
  by rewrite Htext.
Qed.

(** C10.  The placeholder test is a substring test: when the text of the
    short-plot container has "Add a Plot" anywhere in it, whatever comes
    before and after, the dictionary [imdb_scrape] returns has the empty
    string as [plot_short]. *)
Theorem plot_with_placeholder_inside_is_dropped
    imdb_id save_image debug w d w' content box pre post :
  imdb_scrape imdb_id save_image debug w = (Ok d, w') →
  requests_get (requested w) (imdb_base_url +:+ imdb_id) = Ok content →
  Soup.find "div" [("class", "summary_text")] (html_parser content) = Some box →
  Soup.text box = pre +:+ "Add a Plot" +:+ post →
  d !! "plot_short" = Some (PStr "").
Proof.
  intros (content' & title & Hget' & Hex & _ & _)%imdb_scrape_ok Hget Hbox Htext.
  assert (content' = content) as -> by congruence.
  apply extract_ok in Hex as (j & d1 & d2 & d3 & d4 & d5 & d6 & _ & _ & _ & _ & _ & _ & _ & H7).
  apply scrape_plots_short in H7 as (box' & Hbox' & ->).
  assert (box' = box) as -> by congruence.
  rewrite Htext, SubstringFacts.strip_around_placeholder.
  unfold no_plot_placeholder. by rewrite SubstringFacts.contains_app.
Qed.

End Claims.

Section ReviewCounts.
Context {E : Externals}.

(** The review stage, case by case: no bar, a bar without links, a bar
    with one link, a bar with two links or more. *)
Lemma scrape_reviews_eq soup d0 :
  scrape_reviews soup d0 =
  match Soup.findAll "div" review_bar soup with
  | [] => Ok d0
  | bar :: _ =>
      match Soup.findAll "a" [] bar with
      | [] => Ok d0
      | [first] =>
          (n <- to_numeric (PStr (Soup.text first)) "int" ;;
           Ok (<["num_user_reviews" := n]> d0))%result
      | first :: second :: _ =>
          (c <- to_numeric (PStr (Soup.text second)) "int" ;;
           u <- to_numeric (PStr (Soup.text first)) "int" ;;
           Ok (<["num_user_reviews" := u]> (<["num_critic_reviews" := c]> d0)))%result
      end
  end.
Proof.
  unfold scrape_reviews. cbv zeta.
  destruct (Soup.findAll "div" review_bar soup) as [|bar bars]; [done|].
  destruct (Soup.findAll "a" [] bar) as [|first [|second rest]]; [done|done|].
  change (1 <? length (first :: second :: rest)) with true.
  change (0 <? length (first :: second :: rest)) with true.
  change (py_index (first :: second :: rest) 1) with (Ok second).
  change (py_index (first :: second :: rest) 0) with (Ok first).
  cbn [rbind].
  by destruct (to_numeric (PStr (Soup.text second)) "int").
Qed.

(** The two counts are as created when the review stage starts, and the
    stage after it does not touch them. *)
Lemma counts_around_reviews imdb_id soup d :
  extract imdb_id soup = Ok d →
  ∃ d5 d6,
    scrape_reviews soup d5 = Ok d6
    ∧ d5 !! "num_user_reviews" = Some (PStr "")
    ∧ d5 !! "num_critic_reviews" = Some (PStr "")
    ∧ d !! "num_user_reviews" = d6 !! "num_user_reviews"
    ∧ d !! "num_critic_reviews" = d6 !! "num_critic_reviews".
Proof.
  intros (j & d1 & d2 & d3 & d4 & d5 & d6 & Hj & H1 & H2 & H3 & H4 & H5 & H6 & H7)%extract_ok.
  exists d5, d6. split; [done|].
  split; [|split; [|split]].
  3, 4: apply (scrape_plots_writes _ _ _ H7); other_key.
  all: rewrite (scrape_metacritic_writes _ _ _ H5) by other_key.
  all: rewrite (scrape_ratings_writes _ _ _ H4) by other_key.
  all: rewrite (scrape_genres_writes _ _ _ H3) by other_key.
  all: rewrite (scrape_release_date_writes _ _ _ H2) by other_key.
  all: rewrite (scrape_info_writes _ _ _ _ H1) by other_key.
  all: reflexivity.
Qed.

(** C6.  Without a review-count bar in the page, or with a bar that has
    no link, the review stage raises nothing and returns the dictionary
    it was given, and a returned dictionary has [num_user_reviews] and
    [num_critic_reviews] as they were created (empty).  With a bar, the
    text of its first link, passed through [to_numeric], is the
    user-review count, and the text of its second link the critic-review
    count; a bar with one link is not an error: the stage then does
    nothing but set the user count, and the critic count stays empty.
    The stage raises only when [to_numeric] does, which is when a link
    that is there has no digit in its text. *)
Theorem review_counts_follow_the_bar imdb_id save_image debug w content :
  requests_get (requested w) (imdb_base_url +:+ imdb_id) = Ok content →
  let soup := html_parser content in
  let returns d w' := imdb_scrape imdb_id save_image debug w = (Ok d, w') in
  let count link := to_numeric (PStr (Soup.text link)) "int" in
  (Soup.findAll "div" review_bar soup = []
   ∨ (∃ bar rest, Soup.findAll "div" review_bar soup = bar :: rest
                  ∧ Soup.findAll "a" [] bar = []) →
     (∀ d0, scrape_reviews soup d0 = Ok d0)
     ∧ ∀ d w', returns d w' →
         d !! "num_user_reviews" = Some (PStr "")
         ∧ d !! "num_critic_reviews" = Some (PStr ""))
  ∧ (∀ bar rest first,
       Soup.findAll "div" review_bar soup = bar :: rest →
       Soup.findAll "a" [] bar = [first] →
       (∀ d0, scrape_reviews soup d0
              = (n <- count first ;; Ok (<["num_user_reviews" := n]> d0))%result)
       ∧ ∀ d w', returns d w' →
           (∃ n, count first = Ok n ∧ d !! "num_user_reviews" = Some n)
           ∧ d !! "num_critic_reviews" = Some (PStr ""))
  ∧ (∀ bar rest first second more,
       Soup.findAll "div" review_bar soup = bar :: rest →
       Soup.findAll "a" [] bar = first :: second :: more →
       (∀ d0, scrape_reviews soup d0
              = (c <- count second ;;
                 u <- count first ;;
                 Ok (<["num_user_reviews" := u]> (<["num_critic_reviews" := c]> d0)))%result)
       ∧ ∀ d w', returns d w' →
           ∃ u c, count first = Ok u ∧ d !! "num_user_reviews" = Some u
                  ∧ count second = Ok c ∧ d !! "num_critic_reviews" = Some c)
  ∧ (∀ d0 e,
       scrape_reviews soup d0 = Raise e →
       e = ValueError
       ∧ ∃ bar rest i link,
           Soup.findAll "div" review_bar soup = bar :: rest
           ∧ i < 2
           ∧ Soup.findAll "a" [] bar !! i = Some link
           ∧ Str.filter Str.is_digit (Soup.text link) = EmptyString).
Proof.
  intros Hget soup returns count.
  assert (Hret : ∀ d w', returns d w' →
            ∃ d5 d6,
              scrape_reviews soup d5 = Ok d6
              ∧ d5 !! "num_user_reviews" = Some (PStr "")
              ∧ d5 !! "num_critic_reviews" = Some (PStr "")
              ∧ d !! "num_user_reviews" = d6 !! "num_user_reviews"
              ∧ d !! "num_critic_reviews" = d6 !! "num_critic_reviews").
  { intros d w' (content' & title & Hget' & Hex & _ & _)%imdb_scrape_ok.
    assert (content' = content) as -> by congruence.
    by apply counts_around_reviews in Hex. }
  assert (Hcount : ∀ link r, count link = Raise r →
            r = ValueError ∧ Str.filter Str.is_digit (Soup.text link) = EmptyString).
  { intros link r. unfold count. rewrite to_numeric_int_digits.
    destruct (Str.filter Str.is_digit (Soup.text link)); [|discriminate].
    by intros [= <-]. }
  repeat apply conj.
  - intros Hnone.
    assert (Hstage : ∀ d0, scrape_reviews soup d0 = Ok d0).
    { intros d0. rewrite scrape_reviews_eq.
      destruct Hnone as [-> | (bar & rest & -> & ->)]; done. }
    split; [exact Hstage|].
    intros d w' (d5 & d6 & H6 & Hu & Hc & Hu' & Hc')%Hret.
    rewrite Hstage in H6. injection H6 as <-. by rewrite Hu', Hc'.
  - intros bar rest first Hbar Hlinks.
    assert (Hstage : ∀ d0, scrape_reviews soup d0
              = (n <- count first ;; Ok (<["num_user_reviews" := n]> d0))%result).
    { intros d0. rewrite scrape_reviews_eq. by rewrite Hbar, Hlinks. }
    split; [exact Hstage|].
    intros d w' (d5 & d6 & H6 & Hu & Hc & Hu' & Hc')%Hret.
    rewrite Hstage in H6. destruct (count first) as [n|]; [|discriminate].
    injection H6 as <-. rewrite Hu', Hc'. split.
    + exists n. split; [done|]. apply lookup_insert_eq.
    + by rewrite lookup_insert_ne.
  - intros bar rest first second more Hbar Hlinks.
    assert (Hstage : ∀ d0, scrape_reviews soup d0
              = (c <- count second ;;
                 u <- count first ;;
                 Ok (<["num_user_reviews" := u]> (<["num_critic_reviews" := c]> d0)))%result).
    { intros d0. rewrite scrape_reviews_eq. by rewrite Hbar, Hlinks. }
    split; [exact Hstage|].
    intros d w' (d5 & d6 & H6 & Hu & Hc & Hu' & Hc')%Hret.
    rewrite Hstage in H6.
    destruct (count second) as [c|]; [|discriminate].
    destruct (count first) as [u|]; [|discriminate].
    injection H6 as <-. rewrite Hu', Hc'. exists u, c.
    split; [done|]. split; [apply lookup_insert_eq|]. split; [done|].
    rewrite lookup_insert_ne by done. apply lookup_insert_eq.
  - intros d0 e. rewrite scrape_reviews_eq.
    destruct (Soup.findAll "div" review_bar soup) as [|bar rest]; [discriminate|].
    destruct (Soup.findAll "a" [] bar) as [|first [|second more]] eqn:Hlinks;
      [discriminate| |].
    + fold (count first). destruct (count first) as [n|r] eqn:Hfirst; [discriminate|].
      intros [= <-]. destruct (Hcount _ _ Hfirst) as [-> Hdigits].
      split; [done|]. exists bar, rest, 0, first. rewrite ?Hlinks. repeat split; try done; lia.
    + fold (count second) (count first).
      destruct (count second) as [c|r] eqn:Hsecond.
      * destruct (count first) as [u|r] eqn:Hfirst; [discriminate|].
        intros [= <-]. destruct (Hcount _ _ Hfirst) as [-> Hdigits].
        split; [done|]. exists bar, rest, 0, first. rewrite ?Hlinks. repeat split; try done; lia.
      * intros [= <-]. destruct (Hcount _ _ Hsecond) as [-> Hdigits].
        split; [done|]. exists bar, rest, 1, second. rewrite ?Hlinks. repeat split; try done; lia.
Qed.

End ReviewCounts.

Section Absences.
Context {E : Externals}.

(** The elements an extraction cannot do without. *)
Lemma extract_needs_markup imdb_id soup d :
  extract imdb_id soup = Ok d →
  is_Some (Soup.find "span" [("id", "titleYear")] soup)
  ∧ is_Some (Soup.find "time" [] soup)
  ∧ is_Some (Soup.find "div" [("class", "title_wrapper")] soup)
  ∧ is_Some (Soup.find "div" [("class", "summary_text")] soup)
  ∧ is_Some (Soup.find "div" [("id", "titleStoryLine")] soup).
Proof.
  intros (j & d1 & d2 & d3 & d4 & d5 & d6 & _ & H1 & H2 & _ & _ & _ & _ & H7)%extract_ok.
  unfold scrape_info in H1. unfold scrape_release_date in H2. unfold scrape_plots in H7.
  cbv zeta in *. unbind.
  all: repeat split;
    match goal with
    | |- is_Some ?x => destruct x eqn:?; [eauto | simpl in *; congruence]
    end.
Qed.

(** The payload entries an extraction cannot do without. *)
Lemma extract_needs_ratings imdb_id soup d json_dict :
  extract imdb_id soup = Ok d →
  structured_payload soup = Ok json_dict →
  ∃ aggregate value count,
    py_getitem json_dict "aggregateRating" = Ok aggregate
    ∧ py_getitem aggregate "ratingValue" = Ok value
    ∧ py_getitem aggregate "ratingCount" = Ok count.
Proof.
  intros (j & d1 & d2 & d3 & d4 & d5 & d6 & Hj & _ & _ & _ & H4 & _)%extract_ok Hj'.
  assert (j = json_dict) as -> by congruence.
  unfold scrape_ratings in H4. cbv zeta in H4. unbind.
  assert (x2 = x) as -> by congruence. eauto 10.
Qed.

(** A dictionary that comes out of the extraction has what was put in
    at its creation under every key no stage up to the plots has
    written. *)
Lemma extract_unset imdb_id soup d json_dict k :
  extract imdb_id soup = Ok d →
  structured_payload soup = Ok json_dict →
  k ∈ ["MPAA"; "metacritic"; "plot_long"] →
  (k = "MPAA" → py_in "contentRating" json_dict = Ok false) →
  (k = "metacritic" → Soup.find "div" [("class", "metacriticScore")] soup = None) →
  (k = "plot_long" →
     ∃ section, Soup.child "div" (Soup.find "div" [("id", "titleStoryLine")] soup) = Ok section
                ∧ Soup.child "p" section = Ok None) →
  d !! k = Some (PStr "").
Proof.
  intros (j & d1 & d2 & d3 & d4 & d5 & d6 & Hj & H1 & H2 & H3 & H4 & H5 & H6 & H7)%extract_ok Hj'.
  assert (j = json_dict) as -> by congruence.
  intros Hk Hmpaa Hmeta Hlong.
  apply elem_of_cons in Hk as [->|Hk]; [|apply elem_of_cons in Hk as [->|Hk];
    [|apply elem_of_cons in Hk as [->|Hk]; [|by apply elem_of_nil in Hk]]].
  - rewrite (scrape_plots_writes _ _ _ H7) by other_key.
    rewrite (scrape_reviews_writes _ _ _ H6) by other_key.
    rewrite (scrape_metacritic_writes _ _ _ H5) by other_key.
    rewrite (scrape_ratings_writes _ _ _ H4) by other_key.
    rewrite (scrape_genres_writes _ _ _ H3) by other_key.
    rewrite (scrape_release_date_writes _ _ _ H2) by other_key.
    unfold scrape_info in H1. cbv zeta in H1. rewrite (Hmpaa eq_refl) in H1.
    unbind; rewrite !lookup_insert_ne by done; reflexivity.
  - rewrite (scrape_plots_writes _ _ _ H7) by other_key.
    rewrite (scrape_reviews_writes _ _ _ H6) by other_key.
    unfold scrape_metacritic in H5. rewrite (Hmeta eq_refl) in H5. injection H5 as <-.
    rewrite (scrape_ratings_writes _ _ _ H4) by other_key.
    rewrite (scrape_genres_writes _ _ _ H3) by other_key.
    rewrite (scrape_release_date_writes _ _ _ H2) by other_key.
    rewrite (scrape_info_writes _ _ _ _ H1) by other_key.
    reflexivity.
  - destruct (Hlong eq_refl) as (section & Hsec & Hp).
    unfold scrape_plots in H7. cbv zeta in H7. rewrite Hsec in H7.
    unbind; try congruence.
    all: repeat match goal with |- context [if ?b then _ else _] => destruct b end.
    all: rewrite ?lookup_insert_ne by done.
    all: rewrite (scrape_reviews_writes _ _ _ H6) by other_key.
    all: rewrite (scrape_metacritic_writes _ _ _ H5) by other_key.
    all: rewrite (scrape_ratings_writes _ _ _ H4) by other_key.
    all: rewrite (scrape_genres_writes _ _ _ H3) by other_key.
    all: rewrite (scrape_release_date_writes _ _ _ H2) by other_key.
    all: rewrite (scrape_info_writes _ _ _ _ H1) by other_key.
    all: reflexivity.
Qed.

End Absences.

Lemma assoc_app k l1 l2 :
  assoc k (l1 ++ l2) = match assoc k l1 with Some v => Some v | None => assoc k l2 end.
Proof.
  induction l1 as [|[k' v] l1 IH]; simpl; [done|].
  by destruct (String.eqb k k').
Qed.

Lemma py_getitem_other items k k' v :
  String.eqb k k' = false →
  py_getitem (PDict (items ++ [(k', v)])) k = py_getitem (PDict items) k.
Proof.
  intros Hk. unfold py_getitem. rewrite assoc_app. simpl. rewrite Hk.
  by destruct (assoc k items).
Qed.

Section Tolerance.
Context {E : Externals}.

(** The plot stage on a page whose story line has no paragraph: the
    short plot is set, and nothing else is done. *)
Lemma scrape_plots_without_paragraph soup box section d0 :
  Soup.find "div" [("class", "summary_text")] soup = Some box →
  Soup.child "div" (Soup.find "div" [("id", "titleStoryLine")] soup) = Ok section →
  Soup.child "p" section = Ok None →
  scrape_plots soup d0
  = Ok (<["plot_short" :=
            PStr (if Str.contains no_plot_placeholder (Str.strip (Soup.text box))
                  then EmptyString else Str.strip (Soup.text box))]> d0).
Proof.
  intros Hbox Hsec Hp. unfold scrape_plots. cbv zeta.
  rewrite Hbox. cbn [Soup.text_of rbind]. unfold dict_get.
  rewrite lookup_insert_eq. cbn [rbind py_in].
  rewrite Hsec. cbn [rbind]. rewrite Hp. cbn [rbind].
  destruct (Str.contains no_plot_placeholder (Str.strip (Soup.text box))); [|done].
  f_equal. apply map_eq. intros k.
  rewrite !lookup_insert. by repeat case_decide.
Qed.

(** C1 (as amended).  Of the page elements [imdb_scrape] looks up, these
    may be missing: the critic-score container, the review-count bar or
    the links in it, and the paragraph of the story line.  The stage
    that looks for one of them then raises nothing and does nothing for
    it: the dictionary goes on as it was, the field stays as created
    (empty), and with all of them missing the dictionary built by the
    other lookups is the one returned.  The other elements may not be
    missing: without the year anchor, the running-time element, the
    title header, the short-plot container or the story-line container,
    [imdb_scrape] raises and returns no dictionary. *)
Theorem absences_swallowed_and_absences_raised imdb_id save_image debug w content :
  requests_get (requested w) (imdb_base_url +:+ imdb_id) = Ok content →
  let soup := html_parser content in
  let returns d w' := imdb_scrape imdb_id save_image debug w = (Ok d, w') in
  let no_score := Soup.find "div" [("class", "metacriticScore")] soup = None in
  let no_counts :=
    Soup.findAll "div" review_bar soup = []
    ∨ ∃ bar rest, Soup.findAll "div" review_bar soup = bar :: rest
                  ∧ Soup.findAll "a" [] bar = [] in
  let no_story box :=
    Soup.find "div" [("class", "summary_text")] soup = Some box
    ∧ ∃ section,
        Soup.child "div" (Soup.find "div" [("id", "titleStoryLine")] soup) = Ok section
        ∧ Soup.child "p" section = Ok None in
  let short_plot box :=
    PStr (if Str.contains no_plot_placeholder (Str.strip (Soup.text box))
          then EmptyString else Str.strip (Soup.text box)) in
  (no_score →
     (∀ d0, scrape_metacritic soup d0 = Ok d0)
     ∧ ∀ d w', returns d w' → d !! "metacritic" = Some (PStr ""))
  ∧ (no_counts →
     (∀ d0, scrape_reviews soup d0 = Ok d0)
     ∧ ∀ d w', returns d w' →
         d !! "num_user_reviews" = Some (PStr "")
         ∧ d !! "num_critic_reviews" = Some (PStr ""))
  ∧ (∀ box, no_story box →
     (∀ d0, scrape_plots soup d0 = Ok (<["plot_short" := short_plot box]> d0))
     ∧ ∀ d w', returns d w' → d !! "plot_long" = Some (PStr ""))
  ∧ (∀ box json_dict d1 d2 d3 d4 title w',
       no_score → no_counts → no_story box →
       structured_payload soup = Ok json_dict →
       scrape_info json_dict soup (<["tconst" := PStr imdb_id]> (new_info_dict imdb_id)) = Ok d1 →
       scrape_release_date soup d1 = Ok d2 →
       scrape_genres json_dict d2 = Ok d3 →
       scrape_ratings json_dict d3 = Ok d4 →
       poster_step imdb_id save_image (<["plot_short" := short_plot box]> d4)
         (after_request (imdb_base_url +:+ imdb_id) w) = (Ok tt, w') →
       d4 !! "title" = Some (PStr title) →
       returns (<["plot_short" := short_plot box]> d4) w')
  ∧ (Soup.find "span" [("id", "titleYear")] soup = None
     ∨ Soup.find "time" [] soup = None
     ∨ Soup.find "div" [("class", "title_wrapper")] soup = None
     ∨ Soup.find "div" [("class", "summary_text")] soup = None
     ∨ Soup.find "div" [("id", "titleStoryLine")] soup = None →
     ∃ e, imdb_scrape imdb_id save_image debug w
          = (Raise e, after_request (imdb_base_url +:+ imdb_id) w)).
Proof.
  intros Hget soup returns no_score no_counts no_story short_plot.
  assert (Hret : ∀ d w', returns d w' → ∃ j, structured_payload soup = Ok j
                                            ∧ extract imdb_id soup = Ok d).
  { intros d w' (content' & title & Hget' & Hex & _ & _)%imdb_scrape_ok.
    assert (content' = content) as -> by congruence.
    pose proof Hex as (j & _ & _ & _ & _ & _ & _ & Hj & _)%extract_ok. eauto. }
  assert (Hscore : no_score → ∀ d0, scrape_metacritic soup d0 = Ok d0).
  { intros Hnone d0. unfold scrape_metacritic. by rewrite Hnone. }
  assert (Hcounts : no_counts → ∀ d0, scrape_reviews soup d0 = Ok d0).
  { intros Hnone d0. unfold scrape_reviews. cbv zeta.
    destruct Hnone as [-> | (bar & rest & -> & ->)]; done. }
  assert (Hstory : ∀ box, no_story box →
            ∀ d0, scrape_plots soup d0 = Ok (<["plot_short" := short_plot box]> d0)).
  { intros box (Hbox & section & Hsec & Hp) d0.
    by apply scrape_plots_without_paragraph with section. }
  repeat apply conj.
  - intros Hnone. split; [by apply Hscore|].
    intros d w' (j & Hj & Hex)%Hret.
    apply (extract_unset _ _ _ _ "metacritic" Hex Hj); try done.
    apply elem_of_cons; right; apply elem_of_cons; by left.
  - intros Hnone. split; [by apply Hcounts|].
    intros d w' (j & Hj & Hex)%Hret.
    apply counts_around_reviews in Hex as (d5 & d6 & H6 & Hu & Hc & Hu' & Hc').
    rewrite (Hcounts Hnone) in H6. injection H6 as <-. by rewrite Hu', Hc'.
  - intros box Hnone. split; [by apply Hstory|].
    destruct Hnone as (_ & section & Hsec & Hp).
    intros d w' (j & Hj & Hex)%Hret.
    apply (extract_unset _ _ _ _ "plot_long" Hex Hj); try done; [|by eauto].
    apply elem_of_cons; right; apply elem_of_cons; right; apply elem_of_cons; by left.
  - intros box j d1 d2 d3 d4 title w' Hno_score Hno_counts Hno_story
      Hj H1 H2 H3 H4 Hposter Htitle.
    apply imdb_scrape_ok. exists content, title. repeat split; try done.
    + apply extract_ok. exists j, d1, d2, d3, d4, d4, d4. repeat split; try done.
      * by apply Hscore.
      * by apply Hcounts.
      * by apply Hstory.
    + by rewrite lookup_insert_ne.
  - intros Hmissing.
    destruct (extract imdb_id soup) as [d|e] eqn:Hex.
    + apply extract_needs_markup in Hex as ([? Hy] & [? Ht] & [? Hw] & [? Hs] & [? Hl]).
      destruct Hmissing as [?|[?|[?|[?|?]]]]; congruence.
    + exists e. by apply imdb_scrape_extract_raises with content.
Qed.

(** C3 (as amended).  In a payload that decoded to a dictionary, the key
    [contentRating] may be missing: [MPAA] then stays as created (empty)
    and the payload behaves as the same payload with the key would,
    except that [MPAA] is not written.  The key [aggregateRating], and
    [ratingValue] and [ratingCount] inside it, may not.  Without
    [aggregateRating], or without [ratingValue] in it, the rating stage
    raises [KeyError]; without [ratingCount] it raises [KeyError] once
    [float] has accepted the rating value, and what [float] raises when
    it has not.  [imdb_scrape] then raises and returns no dictionary:
    the exception of the rating stage, when the statements before it
    went through. *)
Theorem missing_payload_keys imdb_id save_image debug w content items :
  requests_get (requested w) (imdb_base_url +:+ imdb_id) = Ok content →
  let soup := html_parser content in
  let raises e :=
    imdb_scrape imdb_id save_image debug w
    = (Raise e, after_request (imdb_base_url +:+ imdb_id) w) in
  structured_payload soup = Ok (PDict items) →
  (assoc "contentRating" items = None →
     (∀ d w', imdb_scrape imdb_id save_image debug w = (Ok d, w') →
              d !! "MPAA" = Some (PStr ""))
     ∧ ∀ rating d0,
         scrape_info (PDict (items ++ [("contentRating", rating)])) soup d0
         = (d1 <- scrape_info (PDict items) soup d0 ;; Ok (<["MPAA" := rating]> d1))%result)
  ∧ (∀ d0,
       (assoc "aggregateRating" items = None →
          scrape_ratings (PDict items) d0 = Raise KeyError)
       ∧ ∀ ratings,
           assoc "aggregateRating" items = Some (PDict ratings) →
           (assoc "ratingValue" ratings = None →
              scrape_ratings (PDict items) d0 = Raise KeyError)
           ∧ ∀ value,
               assoc "ratingValue" ratings = Some value →
               assoc "ratingCount" ratings = None →
               scrape_ratings (PDict items) d0
               = match py_float value with
                 | Ok _ => Raise KeyError
                 | Raise e => Raise e
                 end)
  ∧ (assoc "aggregateRating" items = None
     ∨ (∃ ratings, assoc "aggregateRating" items = Some (PDict ratings)
                   ∧ (assoc "ratingValue" ratings = None
                      ∨ assoc "ratingCount" ratings = None)) →
     (∃ e, raises e)
     ∧ ∀ d1 d2 d3,
         scrape_info (PDict items) soup
           (<["tconst" := PStr imdb_id]> (new_info_dict imdb_id)) = Ok d1 →
         scrape_release_date soup d1 = Ok d2 →
         scrape_genres (PDict items) d2 = Ok d3 →
         ∃ e, scrape_ratings (PDict items) d3 = Raise e ∧ raises e).
Proof.
  intros Hget soup raises Hj.
  assert (Hexact : ∀ d0,
    (assoc "aggregateRating" items = None →
       scrape_ratings (PDict items) d0 = Raise KeyError)
    ∧ ∀ ratings,
        assoc "aggregateRating" items = Some (PDict ratings) →
        (assoc "ratingValue" ratings = None →
           scrape_ratings (PDict items) d0 = Raise KeyError)
        ∧ ∀ value,
            assoc "ratingValue" ratings = Some value →
            assoc "ratingCount" ratings = None →
            scrape_ratings (PDict items) d0
            = match py_float value with
              | Ok _ => Raise KeyError
              | Raise e => Raise e
              end).
  { intros d0. unfold scrape_ratings. cbv zeta. cbn [py_getitem]. split.
    - by intros ->.
    - intros ratings ->. cbn [rbind py_getitem]. split.
      + by intros ->.
      + intros value -> Hc. cbn [rbind].
        destruct (py_float value); cbn [rbind]; [|done]. by rewrite Hc. }
  assert (Hstage : assoc "aggregateRating" items = None
     ∨ (∃ ratings, assoc "aggregateRating" items = Some (PDict ratings)
                   ∧ (assoc "ratingValue" ratings = None
                      ∨ assoc "ratingCount" ratings = None)) →
     ∀ d0, ∃ e, scrape_ratings (PDict items) d0 = Raise e).
  { intros Hmissing d0. destruct (Hexact d0) as [Hnone Hsome].
    destruct Hmissing as [Ha | (ratings & Ha & [Hv | Hc])].
    - rewrite (Hnone Ha). eauto.
    - rewrite (proj1 (Hsome ratings Ha) Hv). eauto.
    - destruct (assoc "ratingValue" ratings) as [value|] eqn:Hv.
      + rewrite (proj2 (Hsome ratings Ha) value Hv Hc).
        destruct (py_float value); eauto.
      + rewrite (proj1 (Hsome ratings Ha) Hv). eauto. }
  split; [|split; [exact Hexact|]].
  - intros Hnone. split.
    + intros d w' (content' & title & Hget' & Hex & _ & _)%imdb_scrape_ok.
      assert (content' = content) as -> by congruence.
      apply (extract_unset _ _ _ _ "MPAA" Hex Hj); try done.
      * apply elem_of_cons; by left.
      * intros _. simpl. by rewrite Hnone.
    + intros rating d0. unfold scrape_info. cbv zeta.
      rewrite (py_getitem_other items "name"), (py_getitem_other items "image") by done.
      assert (py_in "contentRating" (PDict (items ++ [("contentRating", rating)])) = Ok true) as ->.
      { simpl. rewrite assoc_app, Hnone. done. }
      assert (py_getitem (PDict (items ++ [("contentRating", rating)])) "contentRating"
              = Ok rating) as ->.
      { simpl. rewrite assoc_app, Hnone. done. }
      assert (py_in "contentRating" (PDict items) = Ok false) as ->.
      { simpl. by rewrite Hnone. }
      cbn [rbind].
      repeat match goal with
             | |- context [rbind ?c _] =>
                 lazymatch c with
                 | context [rbind] => fail
                 | _ => destruct c; cbn [rbind]; [|done]
                 end
             end.
      f_equal. apply map_eq. intros k.
      rewrite !lookup_insert. repeat case_decide; simplify_eq; done.
  - intros Hmissing. split.
    + destruct (extract imdb_id soup) as [d|e] eqn:Hex.
      * apply extract_ok in Hex as (j & d1 & d2 & d3 & d4 & _ & _ & Hj' & _ & _ & _ & H4 & _).
        assert (j = PDict items) as -> by congruence.
        destruct (Hstage Hmissing d3) as [e He]. congruence.
      * exists e. by apply imdb_scrape_extract_raises with content.
    + intros d1 d2 d3 H1 H2 H3.
      destruct (Hstage Hmissing d3) as [e He]. exists e. split; [done|].
      apply imdb_scrape_extract_raises with content; [done|].
      fold soup. unfold extract. rewrite Hj. cbn [rbind].
      rewrite H1. cbn [rbind]. rewrite H2. cbn [rbind]. rewrite H3. cbn [rbind].
      by rewrite He.
Qed.

End Tolerance.

(** ** The table and the poster *)

Lemma fold_concat (f : pyval → string) (l : list pyval) (acc : string) :
  fold_left (λ result element, result +:+ f element) l acc
  = acc +:+ Str.concat (List.map f l).
Proof.
  revert acc. induction l as [|x l IH]; intros acc; simpl.
  - by rewrite StrFacts.append_empty_r.
  - rewrite IH. change (Str.concat (f x :: List.map f l)) with (f x +:+ Str.concat (List.map f l)).
    by rewrite StrFacts.append_assoc.
Qed.


Module SplitFacts.
Import Str StrFacts.

Lemma has_char_cons c a r :
  has_char c (String a r) = Ascii.eqb c a || has_char c r.
Proof. unfold has_char. simpl. by rewrite andb_true_r. Qed.

Lemma last_item_cons {A} (x y : A) (l : list A) :
  last_item (x :: y :: l) = last_item (y :: l).
Proof.
  unfold last_item. simpl.
  destruct (List.rev l ++ [y]) as [|z r] eqn:Hrev; [|done].
  by destruct (List.rev l).
Qed.

Lemma split_go_nonempty sep skip cur s : split_go sep skip cur s ≠ [].
Proof.
  revert skip cur. induction s as [|c r IH]; intros skip cur; simpl; [done|].
  destruct skip; [|apply IH]. destruct (starts_with sep (String c r)); [done|apply IH].
Qed.

Lemma last_item_split_cons x sep skip cur s :
  last_item (x :: split_go sep skip cur s) = last_item (split_go sep skip cur s).
Proof.
  pose proof (split_go_nonempty sep skip cur s) as Hne.
  destruct (split_go sep skip cur s) as [|y l]; [done|]. apply last_item_cons.
Qed.

Lemma split_go_step sep cur c r :
  split_go sep 0 cur (String c r)
  = if starts_with sep (String c r)
    then cur :: split_go sep (String.length sep - 1) EmptyString r
    else split_go sep 0 (cur +:+ String c EmptyString) r.
Proof. reflexivity. Qed.

Lemma starts_with_dot c r : starts_with "." (String c r) = Ascii.eqb "." c.
Proof.
  change (starts_with "." (String c r)) with (Ascii.eqb "." c && true).
  apply andb_true_r.
Qed.

(** A string without a dot is one piece. *)
Lemma split_dot_free cur s :
  has_char "." s = false → split_go "." 0 cur s = [cur +:+ s].
Proof.
  revert cur. induction s as [|c r IH]; intros cur.
  - intros _. simpl. by rewrite append_empty_r.
  - rewrite has_char_cons. intros [Hc Hr]%orb_false_iff.
    rewrite split_go_step, starts_with_dot, Hc, (IH _ Hr), append_assoc. done.
Qed.

(** The last piece is what follows the last dot. *)
Lemma split_dot_last cur pre ext :
  has_char "." ext = false →
  last_item (split_go "." 0 cur (pre +:+ "." +:+ ext)) = Ok ext.
Proof.
  intros Hext. revert cur. induction pre as [|c pre IH]; intros cur.
  - rewrite app_nil_l.
    change ("." +:+ ext) with (String "." ext).
    rewrite split_go_step, starts_with_dot. simpl.
    rewrite (split_dot_free _ _ Hext). done.
  - rewrite app_cons, split_go_step, starts_with_dot.
    destruct (Ascii.eqb "." c); simpl.
    + rewrite last_item_split_cons. apply IH.
    + apply IH.
Qed.

End SplitFacts.

Section Poster.
Context {E : Externals}.

(** C7.  A call of [savePoster] that returns leaves a file at
    [posters/<key>.<ext>], where [<ext>] is what follows the last dot of
    the URL, and a second call with the same key and URL right after it
    returns [False] and leaves the world as it is: nothing is requested
    and nothing is written.  If there was no such file before the first
    call, that call returned [True], after exactly one request, of the
    URL, and the file holds what [PIL] wrote for the image it got. *)
Theorem savePoster_again_skips imdb_id url w saved w1 :
  savePoster imdb_id (PStr url) w = (Ok saved, w1) →
  ∃ ext,
    url_extension (PStr url) = Ok ext
    ∧ (∀ pre suffix, url = pre +:+ "." +:+ suffix → has_char "." suffix = false →
                     ext = suffix)
    ∧ is_Some (files w1 !! poster_path imdb_id ext)
    ∧ savePoster imdb_id (PStr url) w1 = (Ok false, w1)
    ∧ (files w !! poster_path imdb_id ext = None →
       saved = true
       ∧ requested w1 = requested w ++ [url]
       ∧ ∃ content img written,
           requests_get (requested w) url = Ok content
           ∧ Image_open content = Ok img
           ∧ Image_save img (poster_path imdb_id ext) = Ok written
           ∧ files w1 = <[poster_path imdb_id ext := written]> (files w)).
Proof.
  unfold savePoster, bind, pure, isfile, http_get, write_file, ret. simpl.
  destruct (last_item (Str.split "." url)) as [ext|] eqn:Hext; [|discriminate].
  intros Hrun. exists ext. split; [done|]. split.
  { intros pre suffix -> Hsuffix.
    unfold Str.split in Hext. rewrite (SplitFacts.split_dot_last _ _ _ Hsuffix) in Hext.
    congruence. }
  destruct (files w !! poster_path imdb_id ext) as [old|] eqn:Hfile.
  - rewrite bool_decide_eq_true_2 in Hrun by eauto.
    injection Hrun as <- <-. rewrite Hfile.
    rewrite bool_decide_eq_true_2 by eauto. split; [eauto|]. split; [done|]. done.
  - rewrite bool_decide_eq_false_2 in Hrun by (by intros [? ?]).
    destruct (requests_get (requested w) url) as [content|] eqn:Hget; [|discriminate].
    destruct (Image_open content) as [img|] eqn:Hopen; [|discriminate].
    destruct (Image_save img (poster_path imdb_id ext)) as [written|] eqn:Hsave; [|discriminate].
    injection Hrun as <- <-. simpl. rewrite lookup_insert_eq.
    rewrite bool_decide_eq_true_2 by eauto.
    split; [eauto|]. split; [done|]. intros _. eauto 10.
Qed.

End Poster.

(** ** The driver loop *)

Lemma filter_absent (x : string) (l : list string) :
  x ∉ l → filter (λ y, y = x) l = [].
Proof.
  induction l as [|y l IH]; [done|].
  intros [Hxy Hx]%not_elem_of_cons.
  rewrite filter_cons_False by (intros ->; done). by apply IH.
Qed.

Lemma once_in_NoDup (x : string) (l : list string) :
  NoDup l → x ∈ l → length (filter (λ y, y = x) l) = 1.
Proof.
  induction 1 as [|y l Hy Hl IH]; intros Hx; [by apply elem_of_nil in Hx|].
  apply elem_of_cons in Hx as [<-|Hx].
  - rewrite filter_cons_True by done. simpl. by rewrite filter_absent.
  - rewrite filter_cons_False by (intros ->; done). by apply IH.
Qed.

Section Driver.
Context {E : Externals}.

Lemma attempts_titles tconsts w : (attempts tconsts w).*1 = tconsts.
Proof.
  revert w. induction tconsts as [|k ks IH]; intros w; simpl; [done|].
  destruct (imdb_scrape k true false w) as [outcome w1]. simpl. by rewrite IH.
Qed.

Lemma attempts_key tconsts w k d :
  (k, Ok d) ∈ attempts tconsts w → d !! "tconst" = Some (PStr k).
Proof.
  revert w. induction tconsts as [|k' ks IH]; intros w; simpl.
  - by intros ?%elem_of_nil.
  - destruct (imdb_scrape k' true false w) as [outcome w1] eqn:Hrun.
    intros [[= -> <-]|Hin]%elem_of_cons; [|by eapply IH].
    apply imdb_scrape_ok in Hrun as (content & title & _ & Hex & _).
    by eapply extract_keeps_tconst.
Qed.

Lemma scraped_elem log (d : dict) : d ∈ scraped log ↔ ∃ k, (k, Ok d) ∈ log.
Proof.
  unfold scraped. rewrite list_elem_of_omap. split.
  - intros ([k [d'|e]] & Hin & Hd); simpl in Hd; simplify_eq. eauto.
  - intros [k Hin]. by exists (k, Ok d).
Qed.

Lemma failed_elem log (k : string) : k ∈ failed log ↔ ∃ e, (k, Raise e) ∈ log.
Proof.
  unfold failed. rewrite list_elem_of_omap. split.
  - intros ([k' [d|e]] & Hin & Hk); simpl in Hk; simplify_eq. eauto.
  - intros [e Hin]. by exists (k, Raise e).
Qed.

Lemma failed_NoDup (log : list (string * result dict)) : NoDup log.*1 → NoDup (failed log).
Proof.
  induction log as [|[k [d|e]] log IH]; simpl; [constructor|..].
  - intros [_ Hlog]%NoDup_cons. by apply IH.
  - intros [Hk Hlog]%NoDup_cons. unfold failed. simpl. apply NoDup_cons. split; [|by apply IH].
    intros [e' Hin]%failed_elem. apply Hk. apply list_elem_of_fmap. by exists (k, Raise e').
Qed.

Lemma one_outcome (log : list (string * result dict)) k r1 r2 :
  NoDup log.*1 → (k, r1) ∈ log → (k, r2) ∈ log → r1 = r2.
Proof.
  induction log as [|[k' r] log IH]; simpl; [by intros _ ?%elem_of_nil|].
  intros [Hk Hlog]%NoDup_cons H1 H2.
  apply elem_of_cons in H1 as [H1|H1]; apply elem_of_cons in H2 as [H2|H2]; simplify_eq.
  - done.
  - exfalso. apply Hk. apply list_elem_of_fmap. by exists (k', r2).
  - exfalso. apply Hk. apply list_elem_of_fmap. by exists (k', r1).
  - by apply IH.
Qed.

Lemma scraped_cons k r log :
  scraped ((k, r) :: log)
  = match r with Ok d => d :: scraped log | Raise _ => scraped log end.
Proof. by destruct r. Qed.

Lemma failed_cons k (r : result dict) log :
  failed ((k, r) :: log)
  = match r with Ok _ => failed log | Raise _ => k :: failed log end.
Proof. by destruct r. Qed.

Lemma scraped_failed_length (log : list (string * result dict)) :
  length (scraped log) + length (failed log) = length log.
Proof.
  induction log as [|[k [d|e]] log IH]; [done|..];
    rewrite scraped_cons, failed_cons; simpl; lia.
Qed.

Lemma scrape_titles_log tconsts b w :
  let log := attempts tconsts w in
  let b' := (scrape_titles tconsts b w).1 in
  annual_movie_list b' = annual_movie_list b ++ scraped log
  ∧ failed_list b' = failed_list b ++ failed log
  ∧ fails b' = fails b + length (failed log).
Proof.
  revert b w. induction tconsts as [|k ks IH]; intros b w; simpl.
  - rewrite !app_nil_r. repeat split; lia.
  - unfold scrape_title.
    destruct (imdb_scrape k true false w) as [[d|e] w1];
      rewrite scraped_cons, failed_cons.
    + destruct (IH {| annual_movie_list := annual_movie_list b ++ [d];
                      failed_list := failed_list b; fails := fails b |} w1)
        as (Ha & Hf & Hn).
      cbn [annual_movie_list failed_list fails] in Ha, Hf, Hn.
      rewrite Ha, Hf, Hn, <- app_assoc. done.
    + destruct (IH {| annual_movie_list := annual_movie_list b;
                      failed_list := failed_list b ++ [k]; fails := S (fails b) |} w1)
        as (Ha & Hf & Hn).
      cbn [annual_movie_list failed_list fails] in Ha, Hf, Hn.
      rewrite Ha, Hf, Hn, <- app_assoc. repeat split. simpl. lia.
Qed.

(** C8.  The driver makes one attempt per title of its list, in order,
    and none again.  An attempt that raised adds no row to the batch and
    appends its title to the failure list; in a list that names every
    title once, a failed title is therefore in the failure list exactly
    once and no row of the batch carries its key.  An attempt that
    returned has its dictionary in the batch, under its own key, whatever
    happened to the titles around it. *)
Theorem failed_titles_are_set_aside tconsts b w b' w' :
  scrape_titles tconsts b w = (b', w') →
  let log := attempts tconsts w in
  log.*1 = tconsts
  ∧ annual_movie_list b' = annual_movie_list b ++ scraped log
  ∧ failed_list b' = failed_list b ++ failed log
  ∧ fails b' = fails b + length (failed log)
  ∧ length (scraped log) + length (failed log) = length tconsts
  ∧ (∀ tconst d, (tconst, Ok d) ∈ log →
       d ∈ scraped log ∧ d !! "tconst" = Some (PStr tconst))
  ∧ (∀ tconst e, (tconst, Raise e) ∈ log →
       tconst ∈ failed log
       ∧ (NoDup tconsts →
          length (filter (λ k, k = tconst) (failed log)) = 1
          ∧ ∀ d, d ∈ scraped log → d !! "tconst" ≠ Some (PStr tconst))).
Proof.
  intros Hrun log.
  pose proof (scrape_titles_log tconsts b w) as Hlog. cbv zeta in Hlog.
  rewrite Hrun in Hlog. simpl in Hlog. destruct Hlog as (Ha & Hf & Hn).
  pose proof (attempts_titles tconsts w) as Hkeys. fold log in Ha, Hf, Hn, Hkeys.
  repeat apply conj; try done.
  - rewrite scraped_failed_length, <- Hkeys. by rewrite length_fmap.
  - intros k d Hin. split; [apply scraped_elem; eauto | by eapply attempts_key].
  - intros k e Hin. split; [apply failed_elem; eauto|].
    intros Hnodup. rewrite <- Hkeys in Hnodup. split.
    + apply once_in_NoDup; [by apply failed_NoDup | apply failed_elem; eauto].
    + intros d [k' Hd]%scraped_elem Hkey.
      pose proof (attempts_key _ _ _ _ Hd) as Hkey'.
      assert (k' = k) as -> by congruence.
      pose proof (one_outcome _ _ _ _ Hnodup Hin Hd). discriminate.
Qed.

End Driver.

(** ** The table of a year *)

Section Table.
Context {E : Externals}.
Variable to_csv : list dict → string → result bytes.

(** The genres of an extracted dictionary are the payload's. *)
Lemma extract_genre imdb_id soup d :
  extract imdb_id soup = Ok d →
  ∃ json_dict genre,
    structured_payload soup = Ok json_dict
    ∧ py_getitem json_dict "genre" = Ok genre
    ∧ d !! "genre" = Some genre.
Proof.
  intros (j & d1 & d2 & d3 & d4 & d5 & d6 & Hj & H1 & H2 & H3 & H4 & H5 & H6 & H7)%extract_ok.
  unfold scrape_genres in H3.
  destruct (py_getitem j "genre") as [genre|] eqn:Hgenre; [|discriminate].
  injection H3 as <-. exists j, genre. split; [done|]. split; [done|].
  rewrite (scrape_plots_writes _ _ _ H7) by other_key.
  rewrite (scrape_reviews_writes _ _ _ H6) by other_key.
  rewrite (scrape_metacritic_writes _ _ _ H5) by other_key.
  rewrite (scrape_ratings_writes _ _ _ H4) by other_key.
  apply lookup_insert_eq.
Qed.

(** Every turn of the loop is a call of [imdb_scrape] in some world. *)
Lemma attempts_run tconsts w k r :
  (k, r) ∈ attempts tconsts w →
  k ∈ tconsts ∧ ∃ w0 w1, imdb_scrape k true false w0 = (r, w1).
Proof.
  revert w. induction tconsts as [|k' ks IH]; intros w; simpl.
  - by intros ?%elem_of_nil.
  - destruct (imdb_scrape k' true false w) as [outcome w1] eqn:Hrun.
    intros [[= -> ->]|Hin]%elem_of_cons.
    + split; [by left | eauto].
    + destruct (IH _ Hin) as [Hk Hcall]. split; [by right | done].
Qed.

(** C4 (as amended).  The table of a year is what the table writer
    makes of the dictionaries [imdb_scrape] returned for the titles of
    the year, in order and unchanged: the writer is called once, on
    these rows, and what it writes is the file of the year.  In each row
    the genres are the value the payload of the title holds under
    [genre], as decoded: for a payload with a list of genres the row
    holds the list itself, not a string.  [concatenate_list_data] would
    give the [str] of its elements one after the other, in order and
    without separator, but nothing between [imdb_scrape] and the writer
    applies it. *)
Theorem genre_is_handed_over_as_decoded movie_df yr failed_so_far w r failed w' :
  scrape_and_save to_csv movie_df yr failed_so_far w = (r, failed, w') →
  let rows := scraped (attempts (movies_in_year movie_df yr) w) in
  r = (written <- to_csv rows (table_path yr) ;; Ok tt)%result
  ∧ (∀ written, to_csv rows (table_path yr) = Ok written →
       files w' !! table_path yr = Some written)
  ∧ (∀ row, row ∈ rows →
       ∃ tconst log content json_dict genre,
         tconst ∈ movies_in_year movie_df yr
         ∧ row !! "tconst" = Some (PStr tconst)
         ∧ requests_get log (imdb_base_url +:+ tconst) = Ok content
         ∧ structured_payload (html_parser content) = Ok json_dict
         ∧ py_getitem json_dict "genre" = Ok genre
         ∧ row !! "genre" = Some genre
         ∧ ∀ g, genre = PList g →
             concatenate_list_data float_repr genre
             = Ok (Str.concat (List.map (py_str float_repr) g))
             ∧ ∀ joined, row !! "genre" ≠ Some (PStr joined)).
Proof.
  intros Hrun rows.
  destruct (scrape_titles_log (movies_in_year movie_df yr)
              {| annual_movie_list := []; failed_list := failed_so_far; fails := 0 |} w)
    as (Hrows & _).
  cbn [annual_movie_list app] in Hrows. fold rows in Hrows.
  unfold scrape_and_save, scrape_year in Hrun.
  destruct (scrape_titles _ _ w) as [b w1]. cbn [fst] in Hrows. rewrite Hrows in Hrun.
  repeat apply conj.
  - destruct (to_csv rows (table_path yr)); by injection Hrun as <- _ _.
  - intros written Hwritten. rewrite Hwritten in Hrun. injection Hrun as _ _ <-.
    apply lookup_insert_eq.
  - intros row [k Hin]%scraped_elem.
    pose proof (attempts_key _ _ _ _ Hin) as Hkey.
    apply attempts_run in Hin as (Hk & w0 & w2 & Hcall).
    apply imdb_scrape_ok in Hcall as (content & title & Hget & Hex & _ & _).
    apply extract_genre in Hex as (j & genre & Hj & Hgenre & Hrow).
    exists k, (requested w0), content, j, genre. repeat split; try done.
    + subst genre. unfold concatenate_list_data. simpl. by rewrite fold_concat.
    + rewrite Hrow. by subst genre.
Qed.

End Table.

(** ** The properties on the fixture site *)

Module OnFixture.
Import Fixture MoreFixture.

(** Equations between closed terms are decided by evaluation: both
    sides are run on the kernel's virtual machine when the proof is
    checked. *)
Ltac run :=
  lazymatch goal with
  | |- ?x = _ => vm_cast_no_check (eq_refl x)
  end.

(** The same for a fact [H] that evaluates to the goal. *)
Ltac run_from H := vm_cast_no_check H.

(** The sample of the notebook: the fields it shows for [tt0107290]. *)
Example jurassic_park :
  let d := returned (scrape "tt0107290" false fresh) in
  d !! "title" = Some (PStr "Jurassic Park")
  ∧ d !! "release_year" = Some (PInt 1993)
  ∧ d !! "release_date" = Some (PStr "11 June 1993")
  ∧ d !! "MPAA" = Some (PStr "PG-13")
  ∧ d !! "genre" = Some genres
  ∧ d !! "runtime" = Some (PInt 127)
  ∧ Ok (d !! "imdb_rating") = (f <- py_float (PStr "8.1") ;; Ok (Some (PFloat f)))%result
  ∧ d !! "num_imdb_votes" = Some (PInt 820733)
  ∧ d !! "metacritic" = Some (PInt 68)
  ∧ d !! "num_user_reviews" = Some (PInt 1085)
  ∧ d !! "num_critic_reviews" = Some (PInt 355).
Proof. cbv zeta. repeat split; run. Qed.

Lemma imdb_scrape_returns_its_key_witness :
  returned (scrape "tt0107290" true fresh) !! "tconst" = Some (PStr "tt0107290").
Proof.
  refine (proj1 (imdb_scrape_returns_its_key (E := externals)
                   "tt0107290" true false fresh
                   (returned (scrape "tt0107290" true fresh))
                   (scrape "tt0107290" true fresh).2 _)).
  run.
Defined.

Lemma placeholder_plot_is_dropped_witness :
  returned (scrape "tt0000003" false fresh) !! "plot_short" = Some (PStr "").
Proof.
  refine (placeholder_plot_is_dropped (E := externals)
            "tt0000003" false false fresh
            (returned (scrape "tt0000003" false fresh))
            (scrape "tt0000003" false fresh).2
            (content_of "tt0000003") (summary "  Add a Plot  ") _ _ _ _); run.
Defined.

Lemma plot_with_placeholder_inside_is_dropped_witness :
  returned (scrape "tt0000004" false fresh) !! "plot_short" = Some (PStr "").
Proof.
  refine (plot_with_placeholder_inside_is_dropped (E := externals)
            "tt0000004" false false fresh
            (returned (scrape "tt0000004" false fresh))
            (scrape "tt0000004" false fresh).2
            (content_of "tt0000004")
            (summary "A heist goes wrong. Add a Plot twist and it goes right.")
            "A heist goes wrong. " " twist and it goes right." _ _ _ _); run.
Defined.

(** Two links, one link, a bar without links, no bar. *)
Lemma review_counts_follow_the_bar_witness :
  (returned (scrape "tt0107290" false fresh) !! "num_user_reviews" = Some (PInt 1085)
   ∧ returned (scrape "tt0107290" false fresh) !! "num_critic_reviews" = Some (PInt 355))
  ∧ (scrape_reviews (soup_of "tt0000004") ∅ = Ok {[ "num_user_reviews" := PInt 12 ]}
     ∧ returned (scrape "tt0000004" false fresh) !! "num_user_reviews" = Some (PInt 12)
     ∧ returned (scrape "tt0000004" false fresh) !! "num_critic_reviews" = Some (PStr ""))
  ∧ (scrape_reviews (soup_of "tt0000011") ∅ = Ok ∅
     ∧ returned (scrape "tt0000011" false fresh) !! "num_user_reviews" = Some (PStr ""))
  ∧ (scrape_reviews (soup_of "tt0000003") ∅ = Ok ∅
     ∧ returned (scrape "tt0000003" false fresh) !! "num_critic_reviews" = Some (PStr "")).
Proof.
  pose proof (review_counts_follow_the_bar (E := externals)
                "tt0107290" false false fresh (content_of "tt0107290") ltac:(run)) as Hboth.
  pose proof (review_counts_follow_the_bar (E := externals)
                "tt0000004" false false fresh (content_of "tt0000004") ltac:(run)) as Hone.
  pose proof (review_counts_follow_the_bar (E := externals)
                "tt0000011" false false fresh (content_of "tt0000011") ltac:(run)) as Hempty.
  pose proof (review_counts_follow_the_bar (E := externals)
                "tt0000003" false false fresh (content_of "tt0000003") ltac:(run)) as Hnone.
  cbv zeta in Hboth, Hone, Hempty, Hnone.
  destruct Hboth as (_ & _ & Hboth & _).
  destruct Hone as (_ & Hone & _).
  destruct Hempty as (Hempty & _).
  destruct Hnone as (Hnone & _).
  split; [|split; [|split]].
  - destruct (Hboth both_counts [] (Tag "a" [] [NavigableString "1,085 user"])
                (Tag "a" [] [NavigableString "355 critic"]) [] ltac:(run) ltac:(run))
      as [_ Hrecord].
    destruct (Hrecord (returned (scrape "tt0107290" false fresh))
                (scrape "tt0107290" false fresh).2 ltac:(run))
      as (u & c & Hu & Huser & Hc & Hcritic).
    vm_compute in Hu, Hc. injection Hu as <-. injection Hc as <-.
    split; [exact Huser | exact Hcritic].
  - destruct (Hone (review_counts ["12 user"]) [] (Tag "a" [] [NavigableString "12 user"])
                ltac:(run) ltac:(run))
      as [Hstage Hrecord].
    destruct (Hrecord (returned (scrape "tt0000004" false fresh))
                (scrape "tt0000004" false fresh).2 ltac:(run))
      as ((n & Hn & Huser) & Hcritic).
    vm_compute in Hn. injection Hn as <-.
    split; [run_from (Hstage ∅)|]. split; [exact Huser | exact Hcritic].
  - assert (Hbar : Soup.findAll "div" review_bar
                     (html_parser (Externals := externals) (content_of "tt0000011")) = []
                   ∨ ∃ bar rest,
                       Soup.findAll "div" review_bar
                         (html_parser (Externals := externals) (content_of "tt0000011"))
                       = bar :: rest
                       ∧ Soup.findAll "a" [] bar = []).
    { right. exists (review_counts []), []. split; run. }
    destruct (Hempty Hbar) as [Hstage Hrecord].
    split; [run_from (Hstage ∅)|].
    exact (proj1 (Hrecord (returned (scrape "tt0000011" false fresh))
                    (scrape "tt0000011" false fresh).2 ltac:(run))).
  - assert (Hbar : Soup.findAll "div" review_bar
                     (html_parser (Externals := externals) (content_of "tt0000003")) = []
                   ∨ ∃ bar rest,
                       Soup.findAll "div" review_bar
                         (html_parser (Externals := externals) (content_of "tt0000003"))
                       = bar :: rest
                       ∧ Soup.findAll "a" [] bar = []).
    { left. run. }
    destruct (Hnone Hbar) as [Hstage Hrecord].
    split; [run_from (Hstage ∅)|].
    exact (proj2 (Hrecord (returned (scrape "tt0000003" false fresh))
                    (scrape "tt0000003" false fresh).2 ltac:(run))).
Defined.

(** The title without critic score, review bar and story paragraph is
    scraped, from the other lookups alone; the title without running
    time is not. *)
Lemma absences_swallowed_and_absences_raised_witness :
  (scrape "tt0000003" false fresh).1 = Ok (returned (scrape "tt0000003" false fresh))
  ∧ scrape_plots (soup_of "tt0000003") ∅ = Ok {[ "plot_short" := PStr "" ]}
  ∧ returned (scrape "tt0000003" false fresh) !! "metacritic" = Some (PStr "")
  ∧ returned (scrape "tt0000003" false fresh) !! "num_user_reviews" = Some (PStr "")
  ∧ returned (scrape "tt0000003" false fresh) !! "plot_long" = Some (PStr "")
  ∧ ∃ e, scrape "tt0000001" false fresh
         = (Raise e, after_request (imdb_base_url +:+ "tt0000001") fresh).
Proof.
  pose proof (absences_swallowed_and_absences_raised (E := externals)
                "tt0000003" false false fresh (content_of "tt0000003") ltac:(run))
    as Hscraped.
  pose proof (absences_swallowed_and_absences_raised (E := externals)
                "tt0000001" false false fresh (content_of "tt0000001") ltac:(run))
    as Hraised.
  cbv zeta in Hscraped, Hraised.
  destruct Hscraped as (Hscore & Hbar & Hstory & Hreturns & _).
  destruct Hraised as (_ & _ & _ & _ & Hraise).
  pose (soup := html_parser (Externals := externals) (content_of "tt0000003")).
  assert (Hno_score : Soup.find "div" [("class", "metacriticScore")] soup = None) by run.
  assert (Hno_counts : Soup.findAll "div" review_bar soup = []
                       ∨ ∃ bar rest, Soup.findAll "div" review_bar soup = bar :: rest
                                     ∧ Soup.findAll "a" [] bar = []).
  { left. run. }
  assert (Hno_story : Soup.find "div" [("class", "summary_text")] soup
                      = Some (summary "  Add a Plot  ")
                      ∧ ∃ section,
                          Soup.child "div" (Soup.find "div" [("id", "titleStoryLine")] soup)
                          = Ok section
                          ∧ Soup.child "p" section = Ok None).
  { split; [run|]. exists (Some (Tag "div" [class ["inline"; "canwrap"]] [])). split; run. }
  assert (Hrun : imdb_scrape (E := externals) "tt0000003" false false fresh
                 = (Ok (returned (scrape "tt0000003" false fresh)),
                    (scrape "tt0000003" false fresh).2)) by run.
  pose (d0 := <["tconst" := PStr "tt0000003"]> (new_info_dict "tt0000003")).
  pose (d1 := value (scrape_info payload_unrated soup d0)).
  pose (d2 := value (scrape_release_date soup d1)).
  pose (d3 := value (scrape_genres payload_unrated d2)).
  pose (d4 := value (scrape_ratings payload_unrated d3)).
  split; [|split; [|split; [|split; [|split]]]].
  - assert (Hreturned :
      imdb_scrape (E := externals) "tt0000003" false false fresh
      = (Ok (<["plot_short" := PStr ""]> d4),
         after_request (imdb_base_url +:+ "tt0000003") fresh)).
    { refine (Hreturns (summary "  Add a Plot  ") payload_unrated d1 d2 d3 d4
                "Jurassic Park" (after_request (imdb_base_url +:+ "tt0000003") fresh)
                Hno_score Hno_counts Hno_story _ _ _ _ _ _ _); run. }
    run_from (f_equal fst Hreturned).
  - run_from (proj1 (Hstory _ Hno_story) ∅).
  - exact (proj2 (Hscore Hno_score) _ _ Hrun).
  - exact (proj1 (proj2 (Hbar Hno_counts) _ _ Hrun)).
  - exact (proj2 (Hstory _ Hno_story) _ _ Hrun).
  - apply Hraise. right. left. run.
Defined.

(** C1, as stated, fails.  The page of [tt0000001] is the page of
    [tt0107290] without its running-time element: the payload decodes,
    the year anchor and every other element are in place, and
    [imdb_scrape] raises [TypeError] where the whole page is scraped.
    The pages without the short-plot container, the story-line
    container or the title header raise [AttributeError]. *)
Lemma one_missing_element_aborts_the_record :
  structured_payload (E := externals) (soup_of "tt0000001") = Ok payload_full
  ∧ is_ok (scrape "tt0107290" false fresh).1 = true
  ∧ Soup.find "time" [] (soup_of "tt0000001") = None
  ∧ Soup.find "span" [("id", "titleYear")] (soup_of "tt0000001") = Some year_anchor
  ∧ (scrape "tt0000001" false fresh).1 = Raise TypeError
  ∧ (scrape "tt0000007" false fresh).1 = Raise AttributeError
  ∧ (scrape "tt0000008" false fresh).1 = Raise AttributeError
  ∧ (scrape "tt0000009" false fresh).1 = Raise AttributeError.
Proof. repeat split; vm_compute; reflexivity. Qed.

Lemma missing_payload_keys_witness :
  returned (scrape "tt0000003" false fresh) !! "MPAA" = Some (PStr "")
  ∧ scrape_ratings payload_no_ratings ∅ = Raise KeyError
  ∧ scrape_ratings payload_no_count ∅ = Raise KeyError
  ∧ scrape_ratings payload_null_value ∅ = Raise TypeError
  ∧ ∃ e, scrape "tt0000010" false fresh
         = (Raise e, after_request (imdb_base_url +:+ "tt0000010") fresh).
Proof.
  pose proof (missing_payload_keys (E := externals)
                "tt0000003" false false fresh (content_of "tt0000003")
                (payload_core ++ [("aggregateRating", ratings)]) ltac:(run) ltac:(run))
    as [Hunrated _].
  pose proof (missing_payload_keys (E := externals)
                "tt0000002" false false fresh (content_of "tt0000002")
                (payload_core ++ [("contentRating", PStr "PG-13")]) ltac:(run) ltac:(run))
    as (_ & Hnoratings & _).
  pose proof (missing_payload_keys (E := externals)
                "tt0000006" false false fresh (content_of "tt0000006")
                (payload_core ++ [("contentRating", PStr "PG-13");
                                  ("aggregateRating", PDict [("ratingValue", PStr "8.1")])])
                ltac:(run) ltac:(run))
    as (_ & Hnocount & _).
  pose proof (missing_payload_keys (E := externals)
                "tt0000010" false false fresh (content_of "tt0000010")
                (payload_core ++ [("contentRating", PStr "PG-13");
                                  ("aggregateRating", PDict [("ratingValue", PNone)])])
                ltac:(run) ltac:(run))
    as (_ & Hnull & Hraises).
  cbv zeta in Hunrated, Hraises.
  split; [|split; [|split; [|split]]].
  - refine (proj1 (Hunrated _) _ (scrape "tt0000003" false fresh).2 _); run.
  - refine (proj1 (Hnoratings ∅) _). run.
  - assert (Hstage :
      scrape_ratings (PDict (payload_core ++ [("contentRating", PStr "PG-13");
                                              ("aggregateRating",
                                               PDict [("ratingValue", PStr "8.1")])])) ∅
      = match py_float (PStr "8.1") with
        | Ok _ => Raise KeyError
        | Raise e => Raise e
        end).
    { refine (proj2 (proj2 (Hnocount ∅) [("ratingValue", PStr "8.1")] _) (PStr "8.1") _ _);
        run. }
    run_from Hstage.
  - assert (Hstage :
      scrape_ratings (PDict (payload_core ++ [("contentRating", PStr "PG-13");
                                              ("aggregateRating",
                                               PDict [("ratingValue", PNone)])])) ∅
      = match py_float PNone with
        | Ok _ => Raise KeyError
        | Raise e => Raise e
        end).
    { refine (proj2 (proj2 (Hnull ∅) [("ratingValue", PNone)] _) PNone _ _); run. }
    run_from Hstage.
  - refine (proj1 (Hraises (or_intror (ex_intro _ [("ratingValue", PNone)] (conj _ (or_intror _)))))); run.
Defined.

(** C3, as stated, fails.  The payloads of [tt0000002], [tt0000005] and
    [tt0000006] decode; the first has no [aggregateRating], the second
    no [ratingValue] in it, the third no [ratingCount]; everything else
    is as on the page of [tt0107290].  [imdb_scrape] raises [KeyError]
    for each of them. *)
Lemma missing_rating_aborts_the_record :
  structured_payload (E := externals) (soup_of "tt0000002") = Ok payload_no_ratings
  ∧ py_getitem payload_no_ratings "aggregateRating" = Raise KeyError
  ∧ (scrape "tt0000002" false fresh).1 = Raise KeyError
  ∧ structured_payload (E := externals) (soup_of "tt0000005") = Ok payload_no_value
  ∧ (scrape "tt0000005" false fresh).1 = Raise KeyError
  ∧ structured_payload (E := externals) (soup_of "tt0000006") = Ok payload_no_count
  ∧ (scrape "tt0000006" false fresh).1 = Raise KeyError
  ∧ is_ok (scrape "tt0107290" false fresh).1 = true.
Proof. repeat split; vm_compute; reflexivity. Qed.

Lemma genre_is_handed_over_as_decoded_witness :
  files (scrape_and_save (E := externals) (write_column "genre") movie_df 1993 [] fresh).2
    !! table_path 1993
  = Some (list_byte_of_string
            (lines [quote_all "genre"; quote_all printed_genres; quote_all printed_genres])).
Proof.
  refine (proj1 (proj2 (genre_is_handed_over_as_decoded (E := externals)
                          (write_column "genre") movie_df 1993 [] fresh
                          (Ok tt) ["tt0000001"]
                          (scrape_and_save (E := externals) (write_column "genre")
                             movie_df 1993 [] fresh).2 _)) _ _); run.
Defined.

(** C4, as stated, fails.  For the year 1993 of the fixture the rows
    handed to the table writer hold the list of genres, and what a
    writer that writes a cell as [pandas] does leaves in the file is the
    printed list, not the concatenation that [concatenate_list_data]
    returns for the same genres. *)
Lemma genre_cell_is_not_the_concatenation :
  (scrape_and_save (E := externals) (write_column "genre") movie_df 1993 [] fresh).1.1 = Ok tt
  ∧ List.map (λ row : dict, row !! "genre")
      (annual_movie_list (scrape_year (E := externals) (movies_in_year movie_df 1993) [] fresh).1)
    = [Some genres; Some genres]
  ∧ files (scrape_and_save (E := externals) (write_column "genre") movie_df 1993 [] fresh).2
      !! table_path 1993
    = Some (list_byte_of_string
              (lines [quote_all "genre"; quote_all printed_genres; quote_all printed_genres]))
  ∧ concatenate_list_data (float_repr (Externals := externals)) genres
    = Ok "ActionAdventureSci-FiThriller"
  ∧ printed_genres ≠ "ActionAdventureSci-FiThriller"
  ∧ genres ≠ PStr "ActionAdventureSci-FiThriller".
Proof. repeat split; try (vm_compute; reflexivity); discriminate. Qed.

Lemma savePoster_again_skips_witness :
  let first := savePoster (E := externals) "tt0107290" (PStr poster_url) fresh in
  first.1 = Ok true
  ∧ is_Some (files first.2 !! "posters/tt0107290.jpg")
  ∧ savePoster (E := externals) "tt0107290" (PStr poster_url) first.2 = (Ok false, first.2)
  ∧ requested first.2 = [poster_url].
Proof.
  intros first.
  destruct (savePoster_again_skips (E := externals) "tt0107290" poster_url fresh
              true first.2 ltac:(run))
    as (ext & Hext & Hlast & Hfile & Hagain & Hfresh).
  assert (ext = "jpg") as -> by (apply (Hlast poster_stem "jpg"); run).
  assert (Hnew : files fresh !! poster_path "tt0107290" "jpg" = None) by run.
  destruct (Hfresh Hnew) as (_ & Hlog & _).
  split; [run|]. split; [exact Hfile|]. split; [exact Hagain | exact Hlog].
Defined.

Lemma titles_1993_NoDup : NoDup titles_1993.
Proof.
  unfold titles_1993. repeat (apply NoDup_cons; split); try apply NoDup_nil_2.
  all: rewrite ?not_elem_of_cons; repeat split; try discriminate; apply not_elem_of_nil.
Qed.

Lemma failed_titles_are_set_aside_witness :
  failed_list year_1993.1 = ["tt0000001"]
  ∧ fails year_1993.1 = 1
  ∧ List.map (λ row : dict, row !! "tconst") (annual_movie_list year_1993.1)
    = [Some (PStr "tt0107290"); Some (PStr "tt0000003")]
  ∧ length (filter (λ k, k = "tt0000001")
              (failed (attempts (E := externals) titles_1993 fresh))) = 1.
Proof.
  destruct (failed_titles_are_set_aside (E := externals) titles_1993 no_batch fresh
              year_1993.1 year_1993.2 ltac:(run))
    as (Hkeys & Hrows & Hfailed & Hfails & Hlen & Hok & Hraise).
  assert (Hturn : ("tt0000001", Raise TypeError)
                  ∈ attempts (E := externals) titles_1993 fresh).
  { assert (attempts (E := externals) titles_1993 fresh !! 1
            = Some ("tt0000001", Raise TypeError)) as Hat by run.
    by apply list_elem_of_lookup_2 in Hat. }
  destruct (Hraise "tt0000001" TypeError Hturn) as [Hin Honce].
  destruct (Honce titles_1993_NoDup) as [Hcount Hnorow].
  split; [run|]. split; [run|]. split; [run | exact Hcount].
Defined.

End OnFixture.

(** * Further properties of the notebook's functions *)

(** ** [to_numeric] *)

Module DigitFacts.
Import Str StrFacts.

Lemma filter_app p s t : filter p (s +:+ t) = filter p s +:+ filter p t.
Proof.
  induction s as [|c s IH]; rewrite ?app_nil_l, ?app_cons; simpl; [done|].
  destruct (p c); rewrite ?app_cons; congruence.
Qed.

Lemma digit_value_range c : is_digit c = true → (0 ≤ digit_value c ≤ 9)%Z.
Proof.
  unfold is_digit, digit_value. intros [H1 H2]%andb_true_iff.
  apply Nat.leb_le in H1, H2. lia.
Qed.

Lemma digits_value_from_nonneg acc s :
  all_digits s → (0 ≤ acc)%Z → (0 ≤ digits_value_from acc s)%Z.
Proof.
  revert acc. induction s as [|c r IH]; intros acc Hs Hacc; [done|].
  apply all_digits_cons in Hs as [Hc Hr]. simpl. apply IH; [done|].
  pose proof (digit_value_range c Hc). lia.
Qed.

Lemma digits_value_from_shift acc s :
  digits_value_from acc s
  = (acc * 10 ^ Z.of_nat (String.length s) + digits_value_from 0 s)%Z.
Proof.
  revert acc. induction s as [|c r IH]; intros acc.
  - simpl. lia.
  - cbn [digits_value_from String.length]. rewrite (IH (10 * acc + digit_value c)%Z).
    rewrite (IH (10 * 0 + digit_value c)%Z).
    rewrite Nat2Z.inj_succ, Z.pow_succ_r by lia. lia.
Qed.

Lemma digits_value_from_app acc s t :
  digits_value_from acc (s +:+ t) = digits_value_from (digits_value_from acc s) t.
Proof.
  revert acc. induction s as [|c r IH]; intros acc; rewrite ?app_nil_l, ?app_cons; [done|].
  simpl. apply IH.
Qed.

Lemma digits_value_app s t :
  digits_value (s +:+ t)
  = (digits_value s * 10 ^ Z.of_nat (String.length t) + digits_value t)%Z.
Proof.
  unfold digits_value. rewrite digits_value_from_app. apply digits_value_from_shift.
Qed.

End DigitFacts.

(** X1.  Whatever [to_numeric] returns for a string and ['int'] is an
    integer that is not negative: a minus sign is dropped with the
    other characters that are not digits, so a text and the same text
    behind a minus sign give the same result. *)
Theorem to_numeric_is_never_negative s :
  (∀ v, to_numeric (PStr s) "int" = Ok v → ∃ z, v = PInt z ∧ (0 ≤ z)%Z)
  ∧ to_numeric (PStr ("-" +:+ s)) "int" = to_numeric (PStr s) "int".
Proof.
  split.
  - rewrite to_numeric_int_digits.
    pose proof (StrFacts.filter_all_digits s) as Hd.
    destruct (Str.filter Str.is_digit s) as [|c r]; [discriminate|].
    intros v [= <-]. eexists. split; [done|].
    by apply DigitFacts.digits_value_from_nonneg.
  - rewrite !to_numeric_int_digits. done.
Qed.

(** X2.  The digits of a text run together: when two texts each give a
    number, the two texts one after the other give the first number
    moved left by as many decimal places as the second text has digits,
    plus the second number. *)
Theorem to_numeric_runs_digits_together s t a b :
  to_numeric (PStr s) "int" = Ok (PInt a) →
  to_numeric (PStr t) "int" = Ok (PInt b) →
  to_numeric (PStr (s +:+ t)) "int"
  = Ok (PInt (a * 10 ^ Z.of_nat (String.length (Str.filter Str.is_digit t)) + b)).
Proof.
  rewrite !to_numeric_int_digits, DigitFacts.filter_app.
  destruct (Str.filter Str.is_digit s) as [|c r] eqn:Hs; [discriminate|].
  destruct (Str.filter Str.is_digit t) as [|c' r'] eqn:Ht; [discriminate|].
  intros [= <-] [= <-]. rewrite StrFacts.app_cons. f_equal. f_equal.
  rewrite <- StrFacts.app_cons. apply DigitFacts.digits_value_app.
Qed.

(** ** [concatenate_list_data] *)

Lemma concat_app l1 l2 : Str.concat (l1 ++ l2) = Str.concat l1 +:+ Str.concat l2.
Proof.
  induction l1 as [|x l1 IH]; [done|].
  cbn [app Str.concat]. by rewrite IH, StrFacts.append_assoc.
Qed.

Lemma concat_chars s :
  Str.concat (List.map (λ c, String c EmptyString) (list_ascii_of_string s)) = s.
Proof. induction s as [|c r IH]; [done|]. cbn. by rewrite IH. Qed.

Section Concatenate.
Variable float_repr : spec_float → string.

(** X3.  [concatenate_list_data] of a list made of two parts is the
    result for the first part followed by the result for the second; the
    empty list gives the empty string. *)
Theorem concatenate_list_data_app l1 l2 :
  concatenate_list_data float_repr (PList (l1 ++ l2))
  = (a <- concatenate_list_data float_repr (PList l1) ;;
     b <- concatenate_list_data float_repr (PList l2) ;;
     Ok (a +:+ b))%result
  ∧ concatenate_list_data float_repr (PList []) = Ok EmptyString.
Proof.
  split; [|done]. unfold concatenate_list_data. simpl.
  rewrite !fold_concat, !StrFacts.app_nil_l, map_app, concat_app. done.
Qed.

(** X4.  Given a string instead of a list, [concatenate_list_data] walks
    its characters and returns the string itself; given [None], a number
    or a truth value, which cannot be walked, it raises [TypeError]. *)
Theorem concatenate_list_data_not_a_list :
  (∀ s, concatenate_list_data float_repr (PStr s) = Ok s)
  ∧ concatenate_list_data float_repr PNone = Raise TypeError
  ∧ (∀ z, concatenate_list_data float_repr (PInt z) = Raise TypeError)
  ∧ (∀ f, concatenate_list_data float_repr (PFloat f) = Raise TypeError)
  ∧ (∀ b, concatenate_list_data float_repr (PBool b) = Raise TypeError).
Proof.
  split; [|done]. intros s. unfold concatenate_list_data. simpl.
  rewrite fold_concat, StrFacts.app_nil_l, map_map. simpl. by rewrite concat_chars.
Qed.

End Concatenate.

(** ** [savePoster] *)

Module ExtensionFacts.
Import Str StrFacts SplitFacts.

Lemma has_char_app c s t : has_char c (s +:+ t) = has_char c s || has_char c t.
Proof.
  induction s as [|a s IH]; rewrite ?app_nil_l, ?app_cons; [done|].
  by rewrite !has_char_cons, IH, orb_assoc.
Qed.

(** The last piece of a split at the dots has no dot, and the string
    ends with it, behind a dot if there is more. *)
Lemma split_dot_last_piece cur s :
  has_char "." cur = false →
  ∃ ext, last_item (split_go "." 0 cur s) = Ok ext
         ∧ has_char "." ext = false
         ∧ (cur +:+ s = ext ∨ ∃ pre, cur +:+ s = pre +:+ "." +:+ ext).
Proof.
  revert cur. induction s as [|c r IH]; intros cur Hcur.
  - exists cur. rewrite append_empty_r. by repeat split; [|left].
  - rewrite split_go_step, starts_with_dot.
    destruct (Ascii.eqb "." c) eqn:Hc.
    + apply Ascii.eqb_eq in Hc as <-. simpl. rewrite last_item_split_cons.
      destruct (IH EmptyString eq_refl) as (ext & Hlast & Hext & Hshape).
      exists ext. split; [done|]. split; [done|]. right.
      rewrite app_nil_l in Hshape. destruct Hshape as [->|[pre ->]].
      * by exists cur.
      * exists (cur +:+ "." +:+ pre). by rewrite !append_assoc.
    + destruct (IH (cur +:+ String c EmptyString)) as (ext & Hlast & Hext & Hshape).
      { rewrite has_char_app, Hcur, has_char_cons, Hc. done. }
      exists ext. split; [done|]. split; [done|].
      by rewrite append_assoc in Hshape.
Qed.

End ExtensionFacts.

Section PosterFacts.
Context {E : Externals}.

(** Every way a call of [savePoster] can go. *)
Lemma savePoster_run imdb_id img_url w r w' :
  savePoster imdb_id img_url w = (r, w') →
  (url_extension img_url = Raise AttributeError ∧ r = Raise AttributeError ∧ w' = w)
  ∨ ∃ ext,
      url_extension img_url = Ok ext
      ∧ ((is_Some (files w !! poster_path imdb_id ext) ∧ r = Ok false ∧ w' = w)
         ∨ (files w !! poster_path imdb_id ext = None
            ∧ requested w' = requested w ++ [url_string img_url]
            ∧ ((∃ e, r = Raise e ∧ files w' = files w)
               ∨ ∃ written, r = Ok true
                            ∧ files w' = <[poster_path imdb_id ext := written]> (files w)))).
Proof.
  unfold savePoster, bind, pure, isfile, http_get, write_file, ret.
  destruct (url_extension img_url) as [ext|e] eqn:Hext.
  - intros Hrun. right. exists ext. split; [done|].
    destruct (files w !! poster_path imdb_id ext) as [old|] eqn:Hfile.
    + rewrite bool_decide_eq_true_2 in Hrun by eauto.
      injection Hrun as <- <-. left. eauto.
    + rewrite bool_decide_eq_false_2 in Hrun by (by intros [? ?]).
      right. split; [done|]. cbn in Hrun.
      destruct (requests_get (requested w) (url_string img_url)) as [content|];
        [|injection Hrun as <- <-; eauto].
      destruct (Image_open content) as [img|]; [|injection Hrun as <- <-; eauto].
      destruct (Image_save img (poster_path imdb_id ext)) as [written|];
        injection Hrun as <- <-; eauto 10.
  - intros [= <- <-]. left.
    assert (e = AttributeError) as ->; [|done].
    destruct img_url; simpl in Hext; try congruence.
    unfold Str.split in Hext.
    destruct (ExtensionFacts.split_dot_last_piece EmptyString s eq_refl) as (? & ? & _).
    congruence.
Qed.

(** X5.  When the file [posters/<key>.<ext>] is there, [savePoster]
    returns [False] and does nothing else: no request, no write,
    whatever the network would have answered. *)
Theorem savePoster_skips_existing_file imdb_id url ext w :
  url_extension (PStr url) = Ok ext →
  is_Some (files w !! poster_path imdb_id ext) →
  savePoster imdb_id (PStr url) w = (Ok false, w).
Proof.
  intros Hext Hfile.
  unfold savePoster, bind, pure, isfile, ret. rewrite Hext.
  by rewrite bool_decide_eq_true_2.
Qed.

(** X6.  [savePoster] never changes or removes a file that is there: the
    files after a call, however it ends, are the files before it and at
    most one more; and it makes at most one request. *)
Theorem savePoster_only_adds imdb_id img_url w r w' :
  savePoster imdb_id img_url w = (r, w') →
  files w ⊆ files w'
  ∧ requested w `prefix_of` requested w'
  ∧ length (requested w') ≤ S (length (requested w)).
Proof.
  intros [(_ & _ & ->)|(ext & _ & [(_ & _ & ->)|(Hnew & Hlog & Hfiles)])]%savePoster_run.
  - repeat split; [done | done | lia].
  - repeat split; [done | done | lia].
  - rewrite Hlog, length_app. simpl. split; [|split; [by apply prefix_app_r | lia]].
    destruct Hfiles as [(e & _ & ->)|(written & _ & ->)]; [done|].
    by apply insert_subseteq.
Qed.

(** X7.  Unless [savePoster] returns [True], the files are exactly what
    they were: a call that raises at the request or at reading the image
    has written nothing, and so has one that raises at saving, a save
    that raises being taken to write nothing; a later call starts over.
    When it returns [True], the one new file is the poster, the URL was
    requested once, and the poster was not there before. *)
Theorem savePoster_writes_only_on_success imdb_id img_url w r w' :
  savePoster imdb_id img_url w = (r, w') →
  (r ≠ Ok true → files w' = files w)
  ∧ (r = Ok true →
     ∃ ext written,
       url_extension img_url = Ok ext
       ∧ files w !! poster_path imdb_id ext = None
       ∧ files w' = <[poster_path imdb_id ext := written]> (files w)
       ∧ requested w' = requested w ++ [url_string img_url]).
Proof.
  intros [(_ & -> & ->)|(ext & Hext & [(_ & -> & ->)|(Hnew & Hlog & Hfiles)])]%savePoster_run.
  - split; [done|discriminate].
  - split; [done|discriminate].
  - destruct Hfiles as [(e & -> & ->)|(written & -> & ->)].
    + split; [done|discriminate].
    + split; [done|]. intros _. eauto 10.
Qed.

(** X8.  The file kept for a title depends on the URL only through its
    extension: after a call that returned, a call for the same key with
    any URL of the same extension returns [False] without a request. *)
Theorem savePoster_same_extension_skips imdb_id url1 url2 w saved w1 :
  savePoster imdb_id (PStr url1) w = (Ok saved, w1) →
  url_extension (PStr url2) = url_extension (PStr url1) →
  savePoster imdb_id (PStr url2) w1 = (Ok false, w1).
Proof.
  intros Hrun Hsame.
  apply savePoster_run in Hrun as [(_ & [=] & _)|(ext & Hext & Hcase)].
  assert (is_Some (files w1 !! poster_path imdb_id ext)) as Hfile.
  { destruct Hcase as [(Hfile & _ & ->)|(_ & _ & [(e & [=] & _)|(written & _ & ->)])].
    - done.
    - rewrite lookup_insert_eq. eauto. }
  unfold savePoster, bind, pure, isfile, ret. rewrite Hsame, Hext.
  by rewrite bool_decide_eq_true_2.
Qed.

(** X9.  The extension [savePoster] takes from a URL never has a dot: it
    is what follows the last dot, and the whole URL when the URL has no
    dot. *)
Theorem url_extension_is_the_last_piece url :
  ∃ ext, url_extension (PStr url) = Ok ext
         ∧ has_char "." ext = false
         ∧ (url = ext ∨ ∃ pre, url = pre +:+ "." +:+ ext).
Proof.
  destruct (ExtensionFacts.split_dot_last_piece EmptyString url eq_refl)
    as (ext & Hlast & Hext & Hshape).
  exists ext. by rewrite StrFacts.app_nil_l in Hshape.
Qed.

End PosterFacts.

(** ** [imdb_scrape]: what is in a returned dictionary *)

Ltac stage_keys stage :=
  let Hrun := fresh "Hrun" in
  let Hdom := fresh "Hdom" in
  unfold stage; cbv zeta; intros Hdom Hrun; unbind;
  repeat match goal with |- context [if ?b then _ else _] => destruct b end;
  rewrite ?dom_insert_L, Hdom; unfold info_keys; set_solver.

Section ReturnedFacts.
Context {E : Externals}.

Lemma new_info_dict_keys imdb_id :
  dom (<["tconst" := PStr imdb_id]> (new_info_dict imdb_id) : dict) = info_keys.
Proof.
  unfold new_info_dict, info_keys. rewrite !dom_insert_L, dom_empty_L. set_solver.
Qed.

Lemma scrape_info_keys j soup d d' :
  dom d = info_keys → scrape_info j soup d = Ok d' → dom d' = info_keys.
Proof. stage_keys scrape_info. Qed.

Lemma scrape_release_date_keys soup d d' :
  dom d = info_keys → scrape_release_date soup d = Ok d' → dom d' = info_keys.
Proof. stage_keys scrape_release_date. Qed.

Lemma scrape_genres_keys j d d' :
  dom d = info_keys → scrape_genres j d = Ok d' → dom d' = info_keys.
Proof. stage_keys scrape_genres. Qed.

Lemma scrape_ratings_keys j d d' :
  dom d = info_keys → scrape_ratings j d = Ok d' → dom d' = info_keys.
Proof. stage_keys scrape_ratings. Qed.

Lemma scrape_metacritic_keys soup d d' :
  dom d = info_keys → scrape_metacritic soup d = Ok d' → dom d' = info_keys.
Proof. stage_keys scrape_metacritic. Qed.

Lemma scrape_reviews_keys soup d d' :
  dom d = info_keys → scrape_reviews soup d = Ok d' → dom d' = info_keys.
Proof. stage_keys scrape_reviews. Qed.

Lemma scrape_plots_keys soup d d' :
  dom d = info_keys → scrape_plots soup d = Ok d' → dom d' = info_keys.
Proof. stage_keys scrape_plots. Qed.

(** X10.  A dictionary returned by [imdb_scrape] has the fifteen keys it
    was created with, no more and no fewer, whatever the page held. *)
Theorem imdb_scrape_returns_the_fifteen_keys imdb_id save_image debug w d w' :
  imdb_scrape imdb_id save_image debug w = (Ok d, w') → dom d = info_keys.
Proof.
  intros (content & title & _ & Hex & _ & _)%imdb_scrape_ok.
  apply extract_ok in Hex as (j & d1 & d2 & d3 & d4 & d5 & d6 & _ & H1 & H2 & H3 & H4 & H5 & H6 & H7).
  eapply scrape_plots_keys; [|done].
  eapply scrape_reviews_keys; [|done].
  eapply scrape_metacritic_keys; [|done].
  eapply scrape_ratings_keys; [|done].
  eapply scrape_genres_keys; [|done].
  eapply scrape_release_date_keys; [|done].
  eapply scrape_info_keys; [|done].
  apply new_info_dict_keys.
Qed.

(** X11.  When the request for the page of a title raises, [imdb_scrape]
    raises the same exception after that one request, with no file
    touched; the driver then appends the title to [failed_list], counts
    one more failure and leaves the rows of the batch as they are. *)
Theorem failed_request_fails_the_title tconst save_image debug b w e :
  requests_get (requested w) (imdb_base_url +:+ tconst) = Raise e →
  imdb_scrape tconst save_image debug w
  = (Raise e, after_request (imdb_base_url +:+ tconst) w)
  ∧ scrape_title tconst b w
    = ({| annual_movie_list := annual_movie_list b;
          failed_list := failed_list b ++ [tconst];
          fails := S (fails b) |},
       after_request (imdb_base_url +:+ tconst) w)
  ∧ files (after_request (imdb_base_url +:+ tconst) w) = files w.
Proof.
  intros Hget.
  assert (∀ s dbg, imdb_scrape tconst s dbg w
                   = (Raise e, after_request (imdb_base_url +:+ tconst) w)) as Hrun.
  { intros s dbg. rewrite imdb_scrape_eq. cbv zeta. by rewrite Hget. }
  split; [apply Hrun|]. split; [|done].
  unfold scrape_title. by rewrite Hrun.
Qed.

(** X12.  The fields taken from the payload are stored as decoded: in a
    returned dictionary [title], [poster_url] and [genre] are the values
    under [name], [image] and [genre], [num_imdb_votes] is the value
    under [ratingCount] (not converted), and [imdb_rating] is the value
    under [ratingValue] passed through [float]. *)
Theorem payload_fields_are_stored_as_decoded
    imdb_id save_image debug w d w' content json_dict :
  imdb_scrape imdb_id save_image debug w = (Ok d, w') →
  requests_get (requested w) (imdb_base_url +:+ imdb_id) = Ok content →
  structured_payload (html_parser content) = Ok json_dict →
  ∃ name poster genre aggregate value count rating,
    py_getitem json_dict "name" = Ok name ∧ d !! "title" = Some name
    ∧ py_getitem json_dict "image" = Ok poster ∧ d !! "poster_url" = Some poster
    ∧ py_getitem json_dict "genre" = Ok genre ∧ d !! "genre" = Some genre
    ∧ py_getitem json_dict "aggregateRating" = Ok aggregate
    ∧ py_getitem aggregate "ratingCount" = Ok count ∧ d !! "num_imdb_votes" = Some count
    ∧ py_getitem aggregate "ratingValue" = Ok value
    ∧ py_float value = Ok rating ∧ d !! "imdb_rating" = Some (PFloat rating).
Proof.
  intros (content' & title & Hget' & Hex & _ & _)%imdb_scrape_ok Hget Hj.
  assert (content' = content) as -> by congruence.
  apply extract_ok in Hex as (j & d1 & d2 & d3 & d4 & d5 & d6 & Hj' & H1 & H2 & H3 & H4 & H5 & H6 & H7).
  assert (j = json_dict) as -> by congruence.
  assert (Hlater : ∀ k, k ∈ ["title"; "poster_url"; "genre"; "num_imdb_votes"; "imdb_rating"] →
                        d !! k = d4 !! k).
  { intros k Hk.
    rewrite (scrape_plots_writes _ _ _ H7), (scrape_reviews_writes _ _ _ H6),
      (scrape_metacritic_writes _ _ _ H5); [done|..];
      repeat (apply elem_of_cons in Hk as [->|Hk]; [other_key|]);
      by apply elem_of_nil in Hk. }
  rewrite !Hlater by (rewrite !elem_of_cons; tauto).
  rewrite (scrape_ratings_writes _ _ _ H4 "title") by other_key.
  rewrite (scrape_ratings_writes _ _ _ H4 "poster_url") by other_key.
  rewrite (scrape_ratings_writes _ _ _ H4 "genre") by other_key.
  rewrite (scrape_genres_writes _ _ _ H3 "title") by other_key.
  rewrite (scrape_genres_writes _ _ _ H3 "poster_url") by other_key.
  rewrite (scrape_release_date_writes _ _ _ H2 "title") by other_key.
  rewrite (scrape_release_date_writes _ _ _ H2 "poster_url") by other_key.
  clear Hlater H5 H6 H7.
  unfold scrape_info in H1. unfold scrape_genres in H3. unfold scrape_ratings in H4.
  cbv zeta in H1, H3, H4. unbind.
  all: repeat match goal with
              | Ha : ?t = Ok ?a, Hb : ?t = Ok ?b |- _ =>
                  tryif constr_eq a b then fail
                  else (assert (b = a) as -> by congruence)
              end.
  all: eexists _, _, _, _, _, _, _.
  all: repeat (split; [eassumption || (rewrite ?lookup_insert_ne by done; apply lookup_insert_eq)|]).
  all: rewrite ?lookup_insert_ne by done; apply lookup_insert_eq.
Qed.

End ReturnedFacts.

Module TrimFacts.
Import Str StrFacts SubstringFacts.

Lemma lstrip_idem s : lstrip (lstrip s) = lstrip s.
Proof.
  induction s as [|c r IH]; [done|]. simpl.
  destruct (is_space c) eqn:Hc; [done|]. simpl. by rewrite Hc.
Qed.

Lemma rstrip_idem s : rstrip (rstrip s) = rstrip s.
Proof. unfold rstrip. by rewrite rev_involutive, lstrip_idem. Qed.

Lemma lstrip_head s :
  lstrip s = EmptyString ∨ ∃ c r, lstrip s = String c r ∧ is_space c = false.
Proof.
  induction s as [|c r IH]; [by left|]. simpl.
  destruct (is_space c) eqn:Hc; [done|]. right. eauto.
Qed.

(** Trimming a trimmed string changes nothing. *)
Lemma strip_idem s : strip (strip s) = strip s.
Proof.
  unfold strip at 1.
  assert (lstrip (strip s) = strip s) as ->; [|apply rstrip_idem].
  unfold strip. destruct (lstrip_head s) as [->|(c & r & -> & Hc)]; [done|].
  change (String c r) with (EmptyString +:+ String c r).
  rewrite (rstrip_app_nonspace _ _ _ Hc), app_nil_l. simpl. by rewrite Hc.
Qed.

Lemma starts_with_app_l p x y : starts_with p x = true → starts_with p (x +:+ y) = true.
Proof.
  revert x. induction p as [|a p IH]; intros x; [done|].
  destruct x as [|b x]; simpl; [discriminate|].
  intros [-> Hp]%andb_true_iff. simpl. by apply IH.
Qed.

(** The first piece of a split is what stands before the first
    occurrence of the separator, and has no occurrence itself. *)
Lemma split_first_piece a sep s :
  ∃ head rest,
    s = head +:+ rest
    ∧ (rest = EmptyString ∨ starts_with (String a sep) rest = true)
    ∧ contains (String a sep) head = false
    ∧ ∀ cur, first_item (split_go (String a sep) 0 cur s) = Ok (cur +:+ head).
Proof.
  induction s as [|c r (head & rest & Hr & Hrest & Hhead & Hsplit)].
  - exists EmptyString, EmptyString. repeat split; [by left|].
    intros cur. simpl. by rewrite append_empty_r.
  - destruct (starts_with (String a sep) (String c r)) eqn:Hhere.
    + exists EmptyString, (String c r). repeat split; [by right|].
      intros cur. rewrite SplitFacts.split_go_step, Hhere. simpl. by rewrite append_empty_r.
    + exists (String c head), rest. rewrite app_cons, <- Hr. repeat split; [done|..].
      * cbn [contains]. rewrite Hhead, orb_false_r.
        destruct (starts_with (String a sep) (String c head)) eqn:Hpre; [|done].
        apply (starts_with_app_l _ _ rest) in Hpre.
        rewrite app_cons, <- Hr in Hpre. congruence.
      * intros cur. rewrite SplitFacts.split_go_step, Hhere, Hsplit, append_assoc. done.
Qed.

End TrimFacts.

Lemma to_numeric_int_inv v r :
  to_numeric v "int" = Ok r → ∃ s z, v = PStr s ∧ r = PInt z ∧ (0 ≤ z)%Z.
Proof.
  destruct v as [| | | |s| |]; try discriminate.
  rewrite to_numeric_int_digits.
  pose proof (StrFacts.filter_all_digits s) as Hd.
  destruct (Str.filter Str.is_digit s) as [|c t]; [discriminate|].
  intros [= <-]. eexists _, _. repeat split.
  by apply DigitFacts.digits_value_from_nonneg.
Qed.

Section MarkupFields.
Context {E : Externals}.

(** X13.  In a returned dictionary [release_year] is the integer that
    [int] reads from the text of the link in the year anchor, and
    [runtime] is an integer that is not negative: the digits of the
    [datetime] attribute of the first [time] element, run together. *)
Theorem year_and_runtime_are_integers imdb_id save_image debug w d w' content :
  imdb_scrape imdb_id save_image debug w = (Ok d, w') →
  requests_get (requested w) (imdb_base_url +:+ imdb_id) = Ok content →
  let soup := html_parser content in
  ∃ span anchor year duration minutes,
    Soup.find "span" [("id", "titleYear")] soup = Some span
    ∧ Soup.find "a" [] span = Some anchor
    ∧ py_int (Soup.text anchor) = Ok year
    ∧ d !! "release_year" = Some (PInt year)
    ∧ Soup.getitem (Soup.find "time" [] soup) "datetime" = Ok (PStr duration)
    ∧ to_numeric (PStr duration) "int" = Ok (PInt minutes)
    ∧ (0 ≤ minutes)%Z
    ∧ d !! "runtime" = Some (PInt minutes).
Proof.
  intros (content' & title & Hget' & Hex & _ & _)%imdb_scrape_ok Hget soup.
  assert (content' = content) as -> by congruence.
  apply extract_ok in Hex as (j & d1 & d2 & d3 & d4 & d5 & d6 & _ & H1 & H2 & H3 & H4 & H5 & H6 & H7).
  fold soup in H1, H2, H5, H6, H7.
  assert (Hlater : ∀ k, k ∈ ["release_year"; "runtime"] → d !! k = d1 !! k).
  { intros k Hk.
    rewrite (scrape_plots_writes _ _ _ H7), (scrape_reviews_writes _ _ _ H6),
      (scrape_metacritic_writes _ _ _ H5), (scrape_ratings_writes _ _ _ H4),
      (scrape_genres_writes _ _ _ H3), (scrape_release_date_writes _ _ _ H2); [done|..];
      repeat (apply elem_of_cons in Hk as [->|Hk]; [other_key|]);
      by apply elem_of_nil in Hk. }
  rewrite !Hlater by (rewrite !elem_of_cons; tauto).
  clear Hlater H2 H3 H4 H5 H6 H7.
  unfold scrape_info in H1. cbv zeta in H1. unbind.
  all: destruct (Soup.find "span" [("id", "titleYear")] soup) as [span|]; [|discriminate].
  all: match goal with H : Soup.child "a" (Some _) = Ok ?a |- _ =>
         simpl in H; injection H as <- end.
  all: destruct (Soup.find "a" [] span) as [anchor|] eqn:Hanchor; [|discriminate].
  all: match goal with H : Soup.text_of (Some _) = Ok ?t |- _ =>
         simpl in H; injection H as <- end.
  all: match goal with H : to_numeric ?v "int" = Ok ?r |- _ =>
         pose proof H as (duration & minutes & -> & -> & Hpos)%to_numeric_int_inv end.
  all: exists span, anchor; eexists _, duration, minutes.
  all: split; [done|]; split; [done|]; split; [eassumption|].
  all: split; [rewrite lookup_insert_ne by done; apply lookup_insert_eq|].
  all: split; [eassumption|]; split; [eassumption|]; split; [done|].
  all: apply lookup_insert_eq.
Qed.

(** X14.  In a returned dictionary [release_date] is the text of the last
    link in the title header, cut off where its first " (" begins: it is
    the start of that text, has no " (" in it, and is followed in the
    text by nothing or by " (". *)
Theorem release_date_stops_at_the_bracket imdb_id save_image debug w d w' content :
  imdb_scrape imdb_id save_image debug w = (Ok d, w') →
  requests_get (requested w) (imdb_base_url +:+ imdb_id) = Ok content →
  ∃ header link date rest,
    Soup.find "div" [("class", "title_wrapper")] (html_parser content) = Some header
    ∧ last_item (Soup.findAll "a" [] header) = Ok link
    ∧ d !! "release_date" = Some (PStr date)
    ∧ Soup.text link = date +:+ rest
    ∧ Str.contains " (" date = false
    ∧ (rest = EmptyString ∨ Str.starts_with " (" rest = true).
Proof.
  intros (content' & title & Hget' & Hex & _ & _)%imdb_scrape_ok Hget.
  assert (content' = content) as -> by congruence.
  apply extract_ok in Hex as (j & d1 & d2 & d3 & d4 & d5 & d6 & _ & H1 & H2 & H3 & H4 & H5 & H6 & H7).
  rewrite (scrape_plots_writes _ _ _ H7) by other_key.
  rewrite (scrape_reviews_writes _ _ _ H6) by other_key.
  rewrite (scrape_metacritic_writes _ _ _ H5) by other_key.
  rewrite (scrape_ratings_writes _ _ _ H4) by other_key.
  rewrite (scrape_genres_writes _ _ _ H3) by other_key.
  clear H3 H4 H5 H6 H7.
  unfold scrape_release_date in H2. unbind.
  destruct (Soup.find "div" [("class", "title_wrapper")] (html_parser content))
    as [header|]; [|discriminate].
  simpl in Hx. injection Hx as <-.
  destruct (TrimFacts.split_first_piece " " "(" (Soup.text x0))
    as (head & rest & Htext & Hrest & Hhead & Hsplit).
  unfold Str.split in Hx1. rewrite Hsplit, StrFacts.app_nil_l in Hx1. injection Hx1 as <-.
  exists header, x0, head, rest. rewrite lookup_insert_eq. done.
Qed.

(** X15.  In a returned dictionary [plot_short] is a string without
    white space at either end and without the placeholder "Add a Plot"
    anywhere in it. *)
Theorem plot_short_is_trimmed_and_real imdb_id save_image debug w d w' :
  imdb_scrape imdb_id save_image debug w = (Ok d, w') →
  ∃ plot, d !! "plot_short" = Some (PStr plot)
          ∧ Str.strip plot = plot
          ∧ Str.contains no_plot_placeholder plot = false.
Proof.
  intros (content & title & _ & Hex & _ & _)%imdb_scrape_ok.
  apply extract_ok in Hex as (j & d1 & d2 & d3 & d4 & d5 & d6 & _ & _ & _ & _ & _ & _ & _ & H7).
  apply scrape_plots_short in H7 as (box & _ & ->).
  destruct (Str.contains no_plot_placeholder (Str.strip (Soup.text box))) eqn:Hplace.
  - by exists EmptyString.
  - exists (Str.strip (Soup.text box)). by rewrite TrimFacts.strip_idem.
Qed.

(** X16.  When the page has a critic-score container, [metacritic] in a
    returned dictionary is the integer [int] reads from the text of its
    first [span]; when the story line has a paragraph, [plot_long] is the
    trimmed text of the first [span] of that paragraph. *)
Theorem guarded_fields_when_present imdb_id save_image debug w d w' content :
  imdb_scrape imdb_id save_image debug w = (Ok d, w') →
  requests_get (requested w) (imdb_base_url +:+ imdb_id) = Ok content →
  let soup := html_parser content in
  (∀ box, Soup.find "div" [("class", "metacriticScore")] soup = Some box →
     ∃ span score, Soup.find "span" [] box = Some span
                   ∧ py_int (Soup.text span) = Ok score
                   ∧ d !! "metacritic" = Some (PInt score))
  ∧ (∀ section paragraph,
       Soup.child "div" (Soup.find "div" [("id", "titleStoryLine")] soup) = Ok section →
       Soup.child "p" section = Ok (Some paragraph) →
       ∃ span, Soup.find "span" [] paragraph = Some span
               ∧ d !! "plot_long" = Some (PStr (Str.strip (Soup.text span)))).
Proof.
  intros (content' & title & Hget' & Hex & _ & _)%imdb_scrape_ok Hget soup.
  assert (content' = content) as -> by congruence.
  apply extract_ok in Hex as (j & d1 & d2 & d3 & d4 & d5 & d6 & _ & H1 & H2 & H3 & H4 & H5 & H6 & H7).
  fold soup in H1, H2, H5, H6, H7. split.
  - intros box Hbox.
    rewrite (scrape_plots_writes _ _ _ H7) by other_key.
    rewrite (scrape_reviews_writes _ _ _ H6) by other_key.
    unfold scrape_metacritic in H5. rewrite Hbox in H5. simpl in H5. unbind.
    destruct (Soup.find "span" [] box) as [span|]; [|discriminate].
    simpl in Hx. injection Hx as <-.
    exists span, x0. by rewrite lookup_insert_eq.
  - intros section paragraph Hsec Hp.
    unfold scrape_plots in H7. cbv zeta in H7. unbind; try congruence.
    all: assert (x2 = section) as -> by congruence.
    all: match goal with H : Soup.child "p" _ = Ok (Some ?n) |- _ =>
           assert (n = paragraph) as -> by congruence end.
    all: match goal with H : Soup.child "span" _ = Ok ?s |- _ =>
           simpl in H; injection H as <- end.
    all: destruct (Soup.find "span" [] paragraph) as [span|]; [|discriminate].
    all: exists span; split; [done|].
    all: match goal with H : Soup.text_of (Some _) = Ok ?t |- _ =>
           simpl in H; injection H as <- end.
    all: apply lookup_insert_eq.
Qed.

End MarkupFields.

(** ** [imdb_scrape]: what it does to the world *)

Section WorldFacts.
Context {E : Externals}.

Lemma poster_step_run imdb_id save_image d w r w' :
  poster_step imdb_id save_image d w = (r, w') →
  (save_image = false ∧ r = Ok tt ∧ w' = w)
  ∨ (save_image = true
     ∧ ((d !! "poster_url" = None ∧ r = Raise KeyError ∧ w' = w)
        ∨ ∃ poster saved,
            d !! "poster_url" = Some poster
            ∧ savePoster imdb_id poster w = (saved, w')
            ∧ r = match saved with Ok _ => Ok tt | Raise e => Raise e end)).
Proof.
  unfold poster_step. destruct save_image; [|intros [= <- <-]; by left].
  unfold bind, pure, ret, dict_get. intros Hrun. right. split; [done|].
  destruct (d !! "poster_url") as [poster|]; [|injection Hrun as <- <-; by left].
  right. destruct (savePoster imdb_id poster w) as [[b|e] w1] eqn:Hsave;
    injection Hrun as <- <-; eauto.
Qed.

(** The world [imdb_scrape] leaves: the page was requested, then at most
    the poster; no file that was there has changed. *)
Lemma imdb_scrape_world imdb_id save_image debug w r w' :
  imdb_scrape imdb_id save_image debug w = (r, w') →
  files w ⊆ files w'
  ∧ ∃ more, requested w' = requested w ++ (imdb_base_url +:+ imdb_id) :: more
            ∧ length more ≤ 1
            ∧ (save_image = false → more = [] ∧ files w' = files w).
Proof.
  rewrite imdb_scrape_eq. cbv zeta.
  assert (Hnone : ∀ r0, (r0, after_request (imdb_base_url +:+ imdb_id) w) = (r, w') →
            files w ⊆ files w'
            ∧ ∃ more, requested w' = requested w ++ (imdb_base_url +:+ imdb_id) :: more
                      ∧ length more ≤ 1
                      ∧ (save_image = false → more = [] ∧ files w' = files w)).
  { intros r0 [= <- <-]. split; [done|]. exists []. simpl. repeat split; lia. }
  destruct (requests_get _ _) as [content|]; [|apply Hnone].
  destruct (extract _ _) as [d|]; [|apply Hnone].
  destruct (poster_step _ _ _ _) as [r1 w1] eqn:Hposter.
  intros Hrun.
  assert (w' = w1) as ->.
  { destruct r1 as [[]|]; [destruct (d !! "title") as [[]|]|]; congruence. }
  clear Hrun Hnone.
  apply poster_step_run in Hposter
    as [(-> & _ & ->)|(-> & [(_ & _ & ->)|(poster & saved & _ & Hsave & _)])].
  - split; [done|]. exists []. simpl. repeat split; lia.
  - split; [done|]. exists []. simpl. repeat split; try lia; discriminate.
  - apply savePoster_run in Hsave
      as [(_ & _ & ->)|(ext & _ & [(_ & _ & ->)|(Hfresh & Hlog & Hfiles)])].
    + split; [done|]. exists []. simpl. repeat split; try lia; discriminate.
    + split; [done|]. exists []. simpl. repeat split; try lia; discriminate.
    + split.
      * destruct Hfiles as [(e & _ & ->)|(written & _ & ->)]; [done|].
        apply insert_subseteq, Hfresh.
      * exists [url_string poster]. rewrite Hlog. simpl. rewrite <- app_assoc.
        repeat split; try lia; discriminate.
Qed.

(** X17.  Called without [save_image], [imdb_scrape] makes one request,
    for the page of the title, and writes no file, however it ends. *)
Theorem imdb_scrape_without_poster_only_reads imdb_id debug w r w' :
  imdb_scrape imdb_id false debug w = (r, w') →
  files w' = files w
  ∧ requested w' = requested w ++ [imdb_base_url +:+ imdb_id].
Proof.
  intros (_ & more & Hlog & _ & Hnone)%imdb_scrape_world.
  destruct (Hnone eq_refl) as [-> ->]. done.
Qed.

(** X18.  With or without [save_image], [imdb_scrape] first requests the
    page of the title and then makes at most one more request; whatever
    it returns or raises, every file that was there before is there
    unchanged after. *)
Theorem imdb_scrape_keeps_what_is_there imdb_id save_image debug w r w' :
  imdb_scrape imdb_id save_image debug w = (r, w') →
  files w ⊆ files w'
  ∧ ∃ more, requested w' = requested w ++ (imdb_base_url +:+ imdb_id) :: more
            ∧ length more ≤ 1.
Proof.
  intros (Hfiles & more & Hlog & Hlen & _)%imdb_scrape_world. eauto.
Qed.

(** X19.  An exception of [savePoster] is not caught: when the page was
    read and the fields extracted, but saving the poster raises, then
    [imdb_scrape] raises that exception and returns no dictionary, and
    the driver counts the title as failed. *)
Theorem poster_failure_loses_the_record imdb_id debug b w content d poster e w2 :
  requests_get (requested w) (imdb_base_url +:+ imdb_id) = Ok content →
  extract imdb_id (html_parser content) = Ok d →
  d !! "poster_url" = Some poster →
  savePoster imdb_id poster (after_request (imdb_base_url +:+ imdb_id) w) = (Raise e, w2) →
  imdb_scrape imdb_id true debug w = (Raise e, w2)
  ∧ scrape_title imdb_id b w
    = ({| annual_movie_list := annual_movie_list b;
          failed_list := failed_list b ++ [imdb_id];
          fails := S (fails b) |}, w2).
Proof.
  intros Hget Hex Hposter Hsave.
  assert (∀ dbg, imdb_scrape imdb_id true dbg w = (Raise e, w2)) as Hrun.
  { intros dbg. rewrite imdb_scrape_eq. cbv zeta. rewrite Hget, Hex.
    unfold poster_step, bind, pure, ret, dict_get. by rewrite Hposter, Hsave. }
  split; [apply Hrun|]. unfold scrape_title. by rewrite Hrun.
Qed.

(** X20.  When [imdb_scrape], called with [save_image], returns a
    dictionary, its [poster_url] is a string and the file
    [posters/<key>.<ext>] for the extension of that URL exists. *)
Theorem returned_with_poster_on_disk imdb_id debug w d w' :
  imdb_scrape imdb_id true debug w = (Ok d, w') →
  ∃ url ext,
    d !! "poster_url" = Some (PStr url)
    ∧ url_extension (PStr url) = Ok ext
    ∧ is_Some (files w' !! poster_path imdb_id ext).
Proof.
  intros (content & title & _ & _ & Hposter & _)%imdb_scrape_ok.
  apply poster_step_run in Hposter
    as [([=] & _)|(_ & [(_ & [=] & _)|(poster & saved & Hurl & Hsave & Hok)])].
  destruct saved as [b|]; [|discriminate].
  apply savePoster_run in Hsave as [(_ & [=] & _)|(ext & Hext & Hcase)].
  destruct poster as [| | | |url| |]; try discriminate.
  exists url, ext. split; [done|]. split; [done|].
  destruct Hcase as [(Hfile & _ & ->)|(_ & _ & [(e & [=] & _)|(written & _ & ->)])].
  - done.
  - rewrite lookup_insert_eq. eauto.
Qed.

(** X21.  The payload is looked for first: a page without a script
    element of type [application/ld+json] makes [imdb_scrape] raise
    [IndexError]; with such elements only the first is decoded, and an
    exception of the decoder is raised as it is.  In both cases nothing
    but the page was requested. *)
Theorem missing_or_broken_payload_raises imdb_id save_image debug w content :
  requests_get (requested w) (imdb_base_url +:+ imdb_id) = Ok content →
  let scripts := Soup.findAll "script" [("type", "application/ld+json")] (html_parser content) in
  (scripts = [] →
     imdb_scrape imdb_id save_image debug w
     = (Raise IndexError, after_request (imdb_base_url +:+ imdb_id) w))
  ∧ (∀ script rest e,
       scripts = script :: rest →
       json_loads (Soup.text script) = Raise e →
       imdb_scrape imdb_id save_image debug w
       = (Raise e, after_request (imdb_base_url +:+ imdb_id) w))
  ∧ (∀ script rest,
       scripts = script :: rest →
       structured_payload (html_parser content) = json_loads (Soup.text script)).
Proof.
  intros Hget scripts. repeat apply conj.
  - intros Hnone. apply imdb_scrape_extract_raises with content; [done|].
    unfold extract, structured_payload. fold scripts. by rewrite Hnone.
  - intros script rest e Hscripts He.
    apply imdb_scrape_extract_raises with content; [done|].
    unfold extract, structured_payload. fold scripts. rewrite Hscripts. simpl. by rewrite He.
  - intros script rest Hscripts. unfold structured_payload. fold scripts. by rewrite Hscripts.
Qed.

(** X22.  A title that is not a string costs the record at the very end:
    when everything was extracted and the poster step went through, but
    the payload's [name] is not a string, [imdb_scrape] raises
    [TypeError] in the world the poster step left, so a poster saved on
    the way stays on disk. *)
Theorem title_must_be_a_string imdb_id save_image debug w content d title w2 :
  requests_get (requested w) (imdb_base_url +:+ imdb_id) = Ok content →
  extract imdb_id (html_parser content) = Ok d →
  d !! "title" = Some title →
  (∀ s, title ≠ PStr s) →
  poster_step imdb_id save_image d (after_request (imdb_base_url +:+ imdb_id) w)
  = (Ok tt, w2) →
  imdb_scrape imdb_id save_image debug w = (Raise TypeError, w2).
Proof.
  intros Hget Hex Htitle Hnot Hposter.
  rewrite imdb_scrape_eq. cbv zeta. rewrite Hget, Hex, Hposter, Htitle.
  destruct title; try done. by destruct (Hnot s).
Qed.

End WorldFacts.

(** ** The driver loop *)

Section DriverFacts.
Context {E : Externals}.

Lemma scrape_title_world tconst b w :
  let w' := (scrape_title tconst b w).2 in
  files w ⊆ files w'
  ∧ ∃ more, requested w' = requested w ++ (imdb_base_url +:+ tconst) :: more
            ∧ length more ≤ 1.
Proof.
  unfold scrape_title.
  destruct (imdb_scrape tconst true false w) as [[d|e] w1] eqn:Hrun;
    apply imdb_scrape_world in Hrun as (Hfiles & more & Hlog & Hlen & _); simpl; eauto.
Qed.

(** X24.  The counters of a year add up: every title of the year is
    either a row of [annual_movie_list] or counted in [fails], never
    both; [failed_list] keeps what the session had before, in order, and
    grows by [fails] entries, each of them a title of the year. *)
Theorem scrape_year_counts tconsts failed_so_far w :
  let b := (scrape_year tconsts failed_so_far w).1 in
  length (annual_movie_list b) + fails b = length tconsts
  ∧ (∃ new, failed_list b = failed_so_far ++ new
            ∧ length new = fails b
            ∧ ∀ k, k ∈ new → k ∈ tconsts).
Proof.
  unfold scrape_year.
  destruct (scrape_titles_log tconsts
              {| annual_movie_list := []; failed_list := failed_so_far; fails := 0 |} w)
    as (Hrows & Hfailed & Hfails).
  cbn [annual_movie_list failed_list fails] in Hrows, Hfailed, Hfails.
  cbv zeta. rewrite Hrows, Hfails. simpl. split.
  - rewrite scraped_failed_length.
    by rewrite <- (attempts_titles tconsts w) at 2; rewrite length_fmap.
  - exists (failed (attempts tconsts w)). split; [done|]. split; [done|].
    intros k [e Hin]%failed_elem.
    rewrite <- (attempts_titles tconsts w). apply list_elem_of_fmap.
    by exists (k, Raise e).
Qed.

Lemma scrape_titles_grows tconsts b w :
  let w' := (scrape_titles tconsts b w).2 in
  files w ⊆ files w' ∧ requested w `prefix_of` requested w'.
Proof.
  revert b w. induction tconsts as [|k ks IH]; intros b w; simpl; [done|].
  pose proof (scrape_title_world k b w) as (Hfiles & one & Hlog & _).
  destruct (scrape_title k b w) as [b1 w1]. simpl in Hfiles, Hlog.
  destruct (IH b1 w1) as [Hfiles' Hlog'].
  split; [by etrans|]. etrans; [|exact Hlog']. rewrite Hlog. by apply prefix_app_r.
Qed.

(** X25.  What the loop does to the world: no file that was there is
    changed or removed; the page of every title is requested; and the
    loop makes at least one and at most two requests per title. *)
Theorem scrape_titles_world tconsts b w :
  let w' := (scrape_titles tconsts b w).2 in
  files w ⊆ files w'
  ∧ ∃ more, requested w' = requested w ++ more
            ∧ length tconsts ≤ length more ≤ 2 * length tconsts
            ∧ ∀ k, k ∈ tconsts → imdb_base_url +:+ k ∈ more.
Proof.
  revert b w. induction tconsts as [|k ks IH]; intros b w; simpl.
  - split; [done|]. exists []. rewrite app_nil_r. simpl.
    repeat split; try lia. by intros k ?%elem_of_nil.
  - pose proof (scrape_title_world k b w) as Hone.
    destruct (scrape_title k b w) as [b1 w1]. simpl in Hone.
    destruct Hone as (Hfiles & one & Hlog & Hlen).
    destruct (IH b1 w1) as (Hfiles' & more & Hlog' & Hlen' & Hpages).
    split; [by etrans|].
    exists ((imdb_base_url +:+ k) :: one ++ more).
    rewrite Hlog', Hlog, <- app_assoc. simpl. split; [done|].
    rewrite length_app. split; [lia|].
    intros k' [->|Hin]%elem_of_cons; [by left|].
    right. apply elem_of_app. right. by apply Hpages.
Qed.

End DriverFacts.

(** ** The loop over the years *)

Section YearsFacts.
Context {E : Externals}.
Variable to_csv : list dict → string → result bytes.

Lemma poster_is_no_table imdb_id ext yr : poster_path imdb_id ext ≠ table_path yr.
Proof.
  intros Heq.
  apply (f_equal (λ s, match s with String c _ => Some c | EmptyString => None end)) in Heq.
  vm_compute in Heq. discriminate.
Qed.

Lemma scrape_and_save_run movie_df yr failed_so_far w r failed w' :
  scrape_and_save to_csv movie_df yr failed_so_far w = (r, failed, w') →
  let b := (scrape_year (movies_in_year movie_df yr) failed_so_far w).1 in
  let w1 := (scrape_year (movies_in_year movie_df yr) failed_so_far w).2 in
  failed = failed_list b
  ∧ requested w' = requested w1
  ∧ match r with
    | Ok _ => ∃ written, to_csv (annual_movie_list b) (table_path yr) = Ok written
                         ∧ files w' = <[table_path yr := written]> (files w1)
    | Raise e => to_csv (annual_movie_list b) (table_path yr) = Raise e
    end.
Proof.
  unfold scrape_and_save.
  destruct (scrape_year _ _ _) as [b w1]. simpl.
  destruct (to_csv _ _) as [written|e]; intros [= <- <- <-]; simpl; eauto.
Qed.

(** X26.  One year of the last cell.  The failed titles of the year are
    on [failed_list] after what was there, whether or not the table
    could be written.  When it was written, the file
    [rawdata/imdb_scrape_<yr>.tsv] holds what [to_csv] made of the rows
    of the year, every other file that was there before is unchanged,
    and every poster file is what the driver loop left. *)
Theorem scrape_and_save_outcome movie_df yr failed_so_far w r failed w' :
  scrape_and_save to_csv movie_df yr failed_so_far w = (r, failed, w') →
  let b := (scrape_year (movies_in_year movie_df yr) failed_so_far w).1 in
  let w1 := (scrape_year (movies_in_year movie_df yr) failed_so_far w).2 in
  failed = failed_list b
  ∧ failed_so_far `prefix_of` failed
  ∧ (r = Ok tt →
       (∃ written, to_csv (annual_movie_list b) (table_path yr) = Ok written
                   ∧ files w' !! table_path yr = Some written)
       ∧ (∀ path content, path ≠ table_path yr →
            files w !! path = Some content → files w' !! path = Some content)
       ∧ (∀ imdb_id ext,
            files w' !! poster_path imdb_id ext = files w1 !! poster_path imdb_id ext)).
Proof.
  intros Hrun b w1. apply scrape_and_save_run in Hrun as (Hfailed & _ & Hr).
  fold b w1 in Hfailed, Hr. split; [done|]. split.
  - destruct (scrape_titles_log (movies_in_year movie_df yr)
                {| annual_movie_list := []; failed_list := failed_so_far; fails := 0 |} w)
      as (_ & Hnew & _).
    cbn [failed_list] in Hnew. rewrite Hfailed. unfold b, scrape_year.
    rewrite Hnew. by apply prefix_app_r.
  - intros ->. destruct Hr as (written & Hcsv & Hfiles). rewrite Hfiles. repeat apply conj.
    + exists written. by rewrite lookup_insert_eq.
    + intros path content Hpath Hthere. rewrite lookup_insert_ne by done.
      destruct (scrape_titles_grows (movies_in_year movie_df yr)
                  {| annual_movie_list := []; failed_list := failed_so_far; fails := 0 |} w)
        as (Hsub & _).
      by eapply lookup_weaken.
    + intros imdb_id ext. rewrite lookup_insert_ne; [done|].
      intros Heq. by eapply poster_is_no_table.
Qed.

(** X27.  A year without titles in the frame makes no request and adds
    no failure; its table is still written, from no rows. *)
Theorem year_without_titles movie_df yr failed_so_far w :
  (∀ row, row ∈ movie_df → row.2 ≠ yr) →
  scrape_and_save to_csv movie_df yr failed_so_far w
  = match to_csv [] (table_path yr) with
    | Ok written =>
        (Ok tt, failed_so_far,
         {| files := <[table_path yr := written]> (files w); requested := requested w |})
    | Raise e => (Raise e, failed_so_far, w)
    end.
Proof.
  intros Hnone.
  assert (movies_in_year movie_df yr = []) as Hempty.
  { unfold movies_in_year.
    induction movie_df as [|row rows IH]; [done|].
    rewrite filter_cons_False by (apply Hnone; by left).
    apply IH. intros row' Hin. apply Hnone. by right. }
  unfold scrape_and_save. by rewrite Hempty.
Qed.

Lemma scrape_and_save_grows movie_df yr failed_so_far w r failed w' :
  scrape_and_save to_csv movie_df yr failed_so_far w = (r, failed, w') →
  dom (files w) ⊆ dom (files w')
  ∧ requested w `prefix_of` requested w'
  ∧ failed_so_far `prefix_of` failed
  ∧ (r = Ok tt → table_path yr ∈ dom (files w')).
Proof.
  intros Hrun.
  pose proof (scrape_and_save_run _ _ _ _ _ _ _ Hrun) as (Hfailed & Hlog & Hr).
  destruct (scrape_titles_grows (movies_in_year movie_df yr)
              {| annual_movie_list := []; failed_list := failed_so_far; fails := 0 |} w)
    as (Hsub & Hmore).
  destruct (scrape_titles_log (movies_in_year movie_df yr)
              {| annual_movie_list := []; failed_list := failed_so_far; fails := 0 |} w)
    as (_ & Hnew & _).
  cbn [failed_list] in Hnew.
  unfold scrape_year in *. cbv zeta in *.
  repeat apply conj.
  - apply subseteq_dom in Hsub. destruct r as [[]|e].
    + destruct Hr as (written & _ & ->). set_solver.
    + unfold scrape_and_save, scrape_year in Hrun.
      destruct (scrape_titles _ _ w) as [b w1]. simpl in *.
      destruct (to_csv _ _); simplify_eq. done.
  - by rewrite Hlog.
  - rewrite Hfailed, Hnew. by apply prefix_app_r.
  - intros ->. destruct Hr as (written & _ & ->). set_solver.
Qed.

(** X28.  The loop over the years.  However it ends, [failed_list] and
    the log of requests keep what they had, in order, and no file is
    removed.  When it runs to its end, the table of every year of the
    range is on disk, the years without titles included. *)
Theorem scrape_years_outcome movie_df years failed_so_far w r failed w' :
  scrape_years to_csv movie_df years failed_so_far w = (r, failed, w') →
  failed_so_far `prefix_of` failed
  ∧ requested w `prefix_of` requested w'
  ∧ dom (files w) ⊆ dom (files w')
  ∧ (r = Ok tt → ∀ yr, yr ∈ years → is_Some (files w' !! table_path yr)).
Proof.
  revert failed_so_far w. induction years as [|yr rest IH]; intros failed_so_far w; simpl.
  - intros [= <- <- <-]. repeat split; try done. by intros _ yr ?%elem_of_nil.
  - destruct (scrape_and_save to_csv movie_df yr failed_so_far w) as [[r1 failed1] w1] eqn:Hone.
    apply scrape_and_save_grows in Hone as (Hdom & Hlog & Hfailed & Htable).
    destruct r1 as [[]|e].
    + intros (Hfailed' & Hlog' & Hdom' & Htables)%IH.
      split; [by etrans|]. split; [by etrans|]. split; [by etrans|].
      intros -> yr' [->|Hin]%elem_of_cons.
      * apply elem_of_dom. apply Hdom'. by apply Htable.
      * by apply Htables.
    + intros [= <- <- <-]. repeat split; try done.
Qed.

End YearsFacts.

(** ** The further properties on the fixture site *)

Module OnFixtureMore.
Import Fixture MoreFixture.

Ltac evaluate :=
  lazymatch goal with
  | |- ?x = _ => vm_cast_no_check (eq_refl x)
  end.

Lemma to_numeric_runs_digits_together_witness :
  to_numeric (PStr "2h 7min") "int" = Ok (PInt 27).
Proof.
  refine (to_numeric_runs_digits_together "2h " "7min" 2 7 _ _); vm_compute; reflexivity.
Defined.

Lemma savePoster_skips_existing_file_witness :
  savePoster (E := externals) "tt0107290" (PStr poster_url) with_poster
  = (Ok false, with_poster).
Proof.
  refine (savePoster_skips_existing_file (E := externals)
            "tt0107290" poster_url "jpg" with_poster _ _).
  - vm_compute; reflexivity.
  - exists []. vm_compute; reflexivity.
Defined.

Lemma savePoster_only_adds_witness :
  let w' := (savePoster (E := externals) "tt0107290" (PStr poster_url) busy).2 in
  files w' !! "posters/tt0000001.jpg" = Some []
  ∧ is_Some (files w' !! "posters/tt0107290.jpg")
  ∧ requested busy `prefix_of` requested w'
  ∧ length (requested w') ≤ S (length (requested busy)).
Proof.
  intros w'.
  destruct (savePoster_only_adds (E := externals) "tt0107290" (PStr poster_url) busy
              (Ok true) w' ltac:(evaluate))
    as (Hfiles & Hlog & Hlen).
  split; [|split; [|split]].
  - refine (lookup_weaken _ _ _ _ _ Hfiles). vm_compute; reflexivity.
  - exists (list_byte_of_string "JFIF"). evaluate.
  - exact Hlog.
  - exact Hlen.
Defined.

Lemma savePoster_writes_only_on_success_witness :
  files (savePoster (E := no_posters) "tt0107290" (PStr poster_url) fresh).2 = files fresh.
Proof.
  refine (proj1 (savePoster_writes_only_on_success (E := no_posters)
                   "tt0107290" (PStr poster_url) fresh
                   (Raise (OtherError "ConnectionError"))
                   (savePoster (E := no_posters) "tt0107290" (PStr poster_url) fresh).2 _) _).
  - evaluate.
  - discriminate.
Defined.

Lemma savePoster_same_extension_skips_witness :
  let w1 := (savePoster (E := externals) "tt0107290" (PStr poster_url) fresh).2 in
  savePoster (E := externals) "tt0107290" (PStr "https://example.org/other.jpg") w1
  = (Ok false, w1).
Proof.
  refine (savePoster_same_extension_skips (E := externals) "tt0107290"
            poster_url "https://example.org/other.jpg" fresh true _ _ _).
  - evaluate.
  - vm_compute; reflexivity.
Defined.

Lemma imdb_scrape_returns_the_fifteen_keys_witness :
  dom (returned (scrape "tt0107290" false fresh)) = info_keys.
Proof.
  refine (imdb_scrape_returns_the_fifteen_keys (E := externals)
            "tt0107290" false false fresh
            (returned (scrape "tt0107290" false fresh))
            (scrape "tt0107290" false fresh).2 _).
  evaluate.
Defined.

Lemma failed_request_fails_the_title_witness :
  imdb_scrape (E := externals) "tt9999999" true false fresh
  = (Raise (OtherError "ConnectionError"),
     after_request (imdb_base_url +:+ "tt9999999") fresh).
Proof.
  refine (proj1 (failed_request_fails_the_title (E := externals)
                   "tt9999999" true false no_batch fresh (OtherError "ConnectionError") _)).
  vm_compute; reflexivity.
Defined.

Lemma payload_fields_are_stored_as_decoded_witness :
  ∃ name, py_getitem payload_full "name" = Ok name
          ∧ returned (scrape "tt0107290" false fresh) !! "title" = Some name.
Proof.
  destruct (payload_fields_are_stored_as_decoded (E := externals)
              "tt0107290" false false fresh
              (returned (scrape "tt0107290" false fresh))
              (scrape "tt0107290" false fresh).2
              (content_of "tt0107290") payload_full
              ltac:(evaluate) ltac:(evaluate) ltac:(evaluate))
    as (name & poster & genre & aggregate & value & count & rating & Hname & Htitle & _).
  exists name. split; [exact Hname | exact Htitle].
Defined.

Lemma year_and_runtime_are_integers_witness :
  ∃ minutes, (0 ≤ minutes)%Z
             ∧ returned (scrape "tt0107290" false fresh) !! "runtime" = Some (PInt minutes).
Proof.
  destruct (year_and_runtime_are_integers (E := externals)
              "tt0107290" false false fresh
              (returned (scrape "tt0107290" false fresh))
              (scrape "tt0107290" false fresh).2
              (content_of "tt0107290") ltac:(evaluate) ltac:(evaluate))
    as (span & anchor & year & duration & minutes & _ & _ & _ & _ & _ & _ & Hpos & Hrun).
  exists minutes. split; [exact Hpos | exact Hrun].
Defined.

Lemma release_date_stops_at_the_bracket_witness :
  ∃ date, returned (scrape "tt0107290" false fresh) !! "release_date" = Some (PStr date)
          ∧ Str.contains " (" date = false.
Proof.
  destruct (release_date_stops_at_the_bracket (E := externals)
              "tt0107290" false false fresh
              (returned (scrape "tt0107290" false fresh))
              (scrape "tt0107290" false fresh).2
              (content_of "tt0107290") ltac:(evaluate) ltac:(evaluate))
    as (header & link & date & rest & _ & _ & Hdate & _ & Hfree & _).
  exists date. split; [exact Hdate | exact Hfree].
Defined.

Lemma plot_short_is_trimmed_and_real_witness :
  ∃ plot, returned (scrape "tt0107290" false fresh) !! "plot_short" = Some (PStr plot)
          ∧ Str.strip plot = plot
          ∧ Str.contains no_plot_placeholder plot = false.
Proof.
  refine (plot_short_is_trimmed_and_real (E := externals)
            "tt0107290" false false fresh
            (returned (scrape "tt0107290" false fresh))
            (scrape "tt0107290" false fresh).2 _).
  evaluate.
Defined.

Lemma guarded_fields_when_present_witness :
  ∃ score, returned (scrape "tt0107290" false fresh) !! "metacritic" = Some (PInt score).
Proof.
  destruct (guarded_fields_when_present (E := externals)
              "tt0107290" false false fresh
              (returned (scrape "tt0107290" false fresh))
              (scrape "tt0107290" false fresh).2
              (content_of "tt0107290") ltac:(evaluate) ltac:(evaluate))
    as [Hscore _].
  edestruct Hscore as (span & score & _ & _ & Hfield); [vm_compute; reflexivity|].
  exists score. exact Hfield.
Defined.

Lemma imdb_scrape_without_poster_only_reads_witness :
  requested (scrape "tt0000001" false fresh).2 = [imdb_base_url +:+ "tt0000001"].
Proof.
  refine (proj2 (imdb_scrape_without_poster_only_reads (E := externals)
                   "tt0000001" false fresh
                   (scrape "tt0000001" false fresh).1
                   (scrape "tt0000001" false fresh).2 _)).
  evaluate.
Defined.

Lemma imdb_scrape_keeps_what_is_there_witness :
  files with_poster ⊆ files (scrape "tt0107290" true with_poster).2.
Proof.
  refine (proj1 (imdb_scrape_keeps_what_is_there (E := externals)
                   "tt0107290" true false with_poster
                   (scrape "tt0107290" true with_poster).1
                   (scrape "tt0107290" true with_poster).2 _)).
  evaluate.
Defined.

Lemma poster_failure_loses_the_record_witness :
  imdb_scrape (E := no_posters) "tt0107290" true false fresh
  = (Raise (OtherError "ConnectionError"), both_requested).
Proof.
  refine (proj1 (poster_failure_loses_the_record (E := no_posters)
                   "tt0107290" false no_batch fresh (content_of "tt0107290")
                   (extracted no_posters "tt0107290") (PStr poster_url)
                   (OtherError "ConnectionError") both_requested _ _ _ _)).
  - vm_compute; reflexivity.
  - evaluate.
  - evaluate.
  - evaluate.
Defined.

Lemma returned_with_poster_on_disk_witness :
  ∃ url ext,
    returned (scrape "tt0107290" true fresh) !! "poster_url" = Some (PStr url)
    ∧ url_extension (PStr url) = Ok ext
    ∧ is_Some (files (scrape "tt0107290" true fresh).2 !! poster_path "tt0107290" ext).
Proof.
  refine (returned_with_poster_on_disk (E := externals)
            "tt0107290" false fresh
            (returned (scrape "tt0107290" true fresh))
            (scrape "tt0107290" true fresh).2 _).
  evaluate.
Defined.

Lemma missing_or_broken_payload_raises_witness :
  imdb_scrape (E := blank_pages) "tt0107290" true false fresh
  = (Raise IndexError, after_request (imdb_base_url +:+ "tt0107290") fresh).
Proof.
  refine (proj1 (missing_or_broken_payload_raises (E := blank_pages)
                   "tt0107290" true false fresh [] _) _).
  - vm_compute; reflexivity.
  - vm_compute; reflexivity.
Defined.

Lemma title_must_be_a_string_witness :
  imdb_scrape (E := numbered_titles) "tt0107290" true false fresh
  = (Raise TypeError, poster_saved).
Proof.
  refine (title_must_be_a_string (E := numbered_titles)
            "tt0107290" true false fresh (content_of "tt0107290")
            (extracted numbered_titles "tt0107290") (PInt 1984) poster_saved _ _ _ _ _).
  - vm_compute; reflexivity.
  - evaluate.
  - evaluate.
  - intros s. discriminate.
  - evaluate.
Defined.

Lemma scrape_and_save_outcome_witness :
  ["tt0000001"]
  = failed_list (scrape_year (E := externals) (movies_in_year movie_df 1993) [] fresh).1.
Proof.
  refine (proj1 (scrape_and_save_outcome (E := externals) write_keys movie_df 1993 [] fresh
                   (Ok tt) ["tt0000001"]
                   (scrape_and_save (E := externals) write_keys movie_df 1993 [] fresh).2 _)).
  evaluate.
Defined.

Lemma year_without_titles_witness :
  scrape_and_save (E := externals) write_keys movie_df 1995 ["tt0000001"] fresh
  = match write_keys [] (table_path 1995) with
    | Ok written =>
        (Ok tt, ["tt0000001"],
         {| files := <[table_path 1995 := written]> (files fresh);
            requested := requested fresh |})
    | Raise e => (Raise e, ["tt0000001"], fresh)
    end.
Proof.
  refine (year_without_titles (E := externals) write_keys movie_df 1995 ["tt0000001"] fresh _).
  intros row Hin. unfold movie_df in Hin.
  repeat (apply elem_of_cons in Hin as [->|Hin]; [simpl; lia|]).
  by apply elem_of_nil in Hin.
Defined.

Lemma scrape_years_outcome_witness :
  is_Some (files two_years.2 !! table_path 1995).
Proof.
  refine (proj2 (proj2 (proj2 (scrape_years_outcome (E := externals) write_keys movie_df
                                 [1993; 1994; 1995]%Z [] fresh (Ok tt)
                                 two_years.1.2 two_years.2 _)))
            eq_refl 1995%Z _).
  - evaluate.
  - apply (list_elem_of_lookup_2 _ 2). reflexivity.
Defined.

End OnFixtureMore.
